(** * Bus-trip tracking: the driver screens and the bus-tracking migration

    A shallow embedding of the live bus-trip tracking code of the school
    platform:

    - the bus-tracking migration (tables [bus_trips], [bus_location_history],
      [bus_stop_events], [student_bus_scans], [bus_alerts], their constraints and
      row-level-security policies, and the three trigger functions
      [create_bus_feed_item], [create_bus_alert_feed_item] and
      [update_trip_student_count]);
    - the feed migration as far as the triggers write to it ([feed_items], the
      type of its priority column and its INSERT policy);
    - the init schema as far as the trip screen reads it ([students],
      [student_guardians], [is_guardian_of] and the SELECT policy of students);
    - the driver application: [startTrip] of the home screen and the handlers of
      the active-trip screen ([fetchTripData], [updateLocation],
      [handleArriveAtStop], [handleDepartFromStop], [handleScanStudent],
      [handleEndTrip], [handleSendAlert]);
    - the trip query and [getTimeAgo] of the parent's bus screen, and the first
      query and the counters of the admin's bus page.

    The database is a record of tables, each a list of rows in insertion order.
    A statement is a function from a database to either an error or the next
    database; a statement that raises leaves the database as it was (one
    statement is one transaction under the REST gateway).  Trigger functions
    run inside the statement that fires them and with the privileges of the
    caller (none of them is declared SECURITY DEFINER), so an error raised in a
    trigger aborts the statement that fired it.

    Modelling boundary.  UUIDs and dates are their text, instants are integers,
    DECIMAL(p,s) values are the stored decimal scaled by 10^s.  Columns and
    interface fields that no modelled function reads or writes (names,
    addresses, notes, colours) are left out.  Foreign keys into schools, users
    and students are taken as satisfied.  Row-level security is modelled where
    it can reject or silently drop a write: the policies of INSERT and UPDATE
    statements, together with the visibility of the rows that policy
    sub-queries and trigger bodies read.  Of the reads, the students embedded
    in the assignments of the trip screen are read under the SELECT policy of
    students, which does not admit a driver as such, and the first query of
    the admin's page is read under the SELECT policies of bus_trips.  The
    other reads of the trip screen (the trip, its stops, stop events, scans
    and the assignments of its route) and the trip query of the parent's
    screen are those of a session of the school of the trip that the policies
    of these tables admit. *)

From stdpp Require Import gmap strings list fin_maps pretty sorting.

Local Open Scope Z_scope.

(** ** Column domains *)

Definition uuid := string.
Definition timestamptz := Z.

(** status TEXT CHECK (status IN ('scheduled','in_progress','completed','cancelled')) *)
Inductive trip_status := scheduled | in_progress | completed | cancelled.

(** trip_type TEXT CHECK (trip_type IN ('morning','afternoon','field_trip','activity')) *)
Inductive trip_kind := morning | afternoon | field_trip | activity.

(** event_type TEXT CHECK (event_type IN ('arrived','departed','skipped')) *)
Inductive stop_event_type := arrived | departed | skipped.

(** scan_type TEXT CHECK (scan_type IN ('board','exit')) *)
Inductive scan_kind := board | exit.

(** alert_type TEXT CHECK (alert_type IN (...)) *)
Inductive alert_kind :=
  delay | breakdown | accident | route_change | weather | emergency
| student_incident | other.

(** severity TEXT CHECK (severity IN ('info','warning','critical')) *)
Inductive alert_severity := info | warning | critical.

(** CREATE TYPE feed_priority AS ENUM ('low','normal','high','urgent') *)
Inductive feed_priority := low | normal | high | urgent.

(** CREATE TYPE user_role AS ENUM ('parent','teacher','admin','driver') *)
Inductive user_role := parent | teacher | admin | driver.

#[global] Instance trip_status_eq_dec : EqDecision trip_status.
Proof. solve_decision. Defined.
#[global] Instance trip_kind_eq_dec : EqDecision trip_kind.
Proof. solve_decision. Defined.
#[global] Instance stop_event_type_eq_dec : EqDecision stop_event_type.
Proof. solve_decision. Defined.
#[global] Instance scan_kind_eq_dec : EqDecision scan_kind.
Proof. solve_decision. Defined.
#[global] Instance alert_kind_eq_dec : EqDecision alert_kind.
Proof. solve_decision. Defined.
#[global] Instance alert_severity_eq_dec : EqDecision alert_severity.
Proof. solve_decision. Defined.
#[global] Instance user_role_eq_dec : EqDecision user_role.
Proof. solve_decision. Defined.

(** The text of an alert type, as the screen interpolates it into a message. *)
Definition alert_kind_text (k : alert_kind) : string :=
  match k with
  | delay => "delay" | breakdown => "breakdown" | accident => "accident"
  | route_change => "route_change" | weather => "weather"
  | emergency => "emergency" | student_incident => "student_incident"
  | other => "other"
  end.

(** ** Rows *)

Module Bus.
Record row := mk { id : uuid; school_id : uuid; bus_number : string }.
End Bus.

Module Route.
Record row := mk {
  id : uuid; school_id : uuid; route_number : string; name : string;
  start_time : option string }.
End Route.

Module Stop.
Record row := mk {
  id : uuid; school_id : uuid; route_id : uuid; stop_number : Z;
  scheduled_time : option string; active : bool }.
End Stop.

Module Assignment.
Record row := mk {
  student_id : uuid;
  morning_route_id : option uuid; morning_stop_id : option uuid;
  afternoon_route_id : option uuid; afternoon_stop_id : option uuid;
  active : bool }.
End Assignment.

Module BusTrip.
Record row := mk {
  id : uuid; school_id : uuid; route_id : uuid; bus_id : uuid;
  driver_id : uuid; trip_date : string; trip_type : trip_kind;
  status : trip_status;
  scheduled_start : option string;
  actual_start : option timestamptz; actual_end : option timestamptz;
  current_latitude : option Z; current_longitude : option Z;
  current_speed : option Z; current_heading : option Z;
  last_location_update : option timestamptz;
  current_stop_index : Z; students_on_board : Z }.
End BusTrip.

Module LocationFix.
Record row := mk {
  trip_id : uuid; latitude : Z; longitude : Z;
  speed : option Z; heading : option Z; accuracy : option Z;
  recorded_at : timestamptz }.
End LocationFix.

Module StopEvent.
Record row := mk {
  trip_id : uuid; stop_id : uuid; event_type : stop_event_type;
  scheduled_time : option string; actual_time : timestamptz;
  students_boarded : Z; students_exited : Z }.
End StopEvent.

Module Scan.
Record row := mk {
  trip_id : uuid; student_id : uuid; stop_id : option uuid;
  scan_type : scan_kind; scanned_at : timestamptz }.
End Scan.

Module Alert.
Record row := mk {
  id : uuid; school_id : uuid; trip_id : option uuid;
  route_id : option uuid; alert_type : alert_kind;
  severity : alert_severity; title : string; message : option string;
  resolved : bool; created_by : option uuid; created_at : timestamptz }.
End Alert.

(** A row of students and a row of student_guardians (the init schema), as far
    as the SELECT policy of students reads them. *)
Module SchoolStudent.
Record row := mk { id : uuid; school_id : uuid }.
End SchoolStudent.

Module Guardian.
Record row := mk { student_id : uuid; user_id : uuid }.
End Guardian.

(** The jsonb metadata the two feed triggers build.  Every feed item they
    write has type 'bus' and target_type 'school'; the two constant columns
    are left out of the row. *)
Inductive feed_metadata :=
| trip_metadata (trip_id route_id bus_id : uuid) (trip_type : trip_kind)
| alert_metadata (alert_id : uuid) (alert_type : alert_kind)
    (severity : alert_severity) (trip_id : option uuid).

Module FeedItem.
Record row := mk {
  school_id : uuid; title : string; body : option string;
  priority : feed_priority; metadata : feed_metadata }.
End FeedItem.

(** ** The database *)

Record database := mkdb {
  buses : list Bus.row;
  bus_routes : list Route.row;
  bus_stops : list Stop.row;
  student_bus_assignments : list Assignment.row;
  bus_trips : list BusTrip.row;
  bus_location_history : list LocationFix.row;
  bus_stop_events : list StopEvent.row;
  student_bus_scans : list Scan.row;
  bus_alerts : list Alert.row;
  feed_items : list FeedItem.row;
  (* the table students; [students] is the state of the trip screen *)
  school_students : list SchoolStudent.row;
  student_guardians : list Guardian.row }.

Definition with_bus_trips (ts : list BusTrip.row) (d : database) : database :=
  mkdb (buses d) (bus_routes d) (bus_stops d) (student_bus_assignments d)
    ts (bus_location_history d) (bus_stop_events d) (student_bus_scans d)
    (bus_alerts d) (feed_items d)
    (school_students d) (student_guardians d).

Definition with_bus_location_history (hs : list LocationFix.row) (d : database)
  : database :=
  mkdb (buses d) (bus_routes d) (bus_stops d) (student_bus_assignments d)
    (bus_trips d) hs (bus_stop_events d) (student_bus_scans d)
    (bus_alerts d) (feed_items d)
    (school_students d) (student_guardians d).

Definition with_bus_stop_events (es : list StopEvent.row) (d : database)
  : database :=
  mkdb (buses d) (bus_routes d) (bus_stops d) (student_bus_assignments d)
    (bus_trips d) (bus_location_history d) es (student_bus_scans d)
    (bus_alerts d) (feed_items d)
    (school_students d) (student_guardians d).

Definition with_student_bus_scans (ss : list Scan.row) (d : database)
  : database :=
  mkdb (buses d) (bus_routes d) (bus_stops d) (student_bus_assignments d)
    (bus_trips d) (bus_location_history d) (bus_stop_events d) ss
    (bus_alerts d) (feed_items d)
    (school_students d) (student_guardians d).

Definition with_bus_alerts (xs : list Alert.row) (d : database) : database :=
  mkdb (buses d) (bus_routes d) (bus_stops d) (student_bus_assignments d)
    (bus_trips d) (bus_location_history d) (bus_stop_events d)
    (student_bus_scans d) xs (feed_items d)
    (school_students d) (student_guardians d).

Definition with_feed_items (fs : list FeedItem.row) (d : database) : database :=
  mkdb (buses d) (bus_routes d) (bus_stops d) (student_bus_assignments d)
    (bus_trips d) (bus_location_history d) (bus_stop_events d)
    (student_bus_scans d) (bus_alerts d) fs
    (school_students d) (student_guardians d).

(** ** Sessions and errors *)

(** The signed-in user: auth.uid(), get_user_role() and get_user_school_id(). *)
Record session := mksession {
  uid : uuid; role : user_role; user_school_id : uuid }.

(** The SQLSTATE classes the modelled statements can raise. *)
Inductive pg_error :=
| invalid_text_representation   (* 22P02 *)
| numeric_value_out_of_range    (* 22003 *)
| not_null_violation            (* 23502 *)
| foreign_key_violation         (* 23503 *)
| unique_violation              (* 23505 *)
| insufficient_privilege        (* 42501: row-level security *)
| datatype_mismatch.            (* 42804 *)

Inductive result (A : Type) := Ok (a : A) | Err (e : pg_error).
Arguments Ok {A} a.
Arguments Err {A} e.

Definition bind {A B} (r : result A) (k : A → result B) : result B :=
  match r with Ok a => k a | Err e => Err e end.

Notation "x ←r e1 ; e2" := (bind e1 (fun x => e2))
  (at level 100, e1 at next level, e2 at level 200, right associativity).

Definition guard (b : bool) (e : pg_error) : result unit :=
  if b then Ok tt else Err e.

(** ** Column types with a range *)

(** INTEGER: a value outside the 32-bit range is refused by the server. *)
Definition int4 (z : Z) : bool := (-2147483648 <=? z) && (z <=? 2147483647).

(** DECIMAL(p,s), on the scaled value: fewer than p digits in all. *)
Definition numeric_fits (p : Z) (z : Z) : bool := Z.abs z <? 10 ^ p.

Definition numeric_fits_opt (p : Z) (o : option Z) : bool :=
  match o with None => true | Some z => numeric_fits p z end.

(** ** Row-level security *)

Definition same_school (s : session) (school : uuid) : bool :=
  bool_decide (school = user_school_id s).

(** bus_trips_driver:
    FOR ALL USING (school_id = get_user_school_id()
                   AND (driver_id = auth.uid() OR get_user_role() = 'admin')) *)
Definition bus_trips_driver_on (s : session) (school driver : uuid) : bool :=
  same_school s school
  && (bool_decide (driver = uid s) || bool_decide (role s = admin)).

Definition bus_trips_driver (s : session) (t : BusTrip.row) : bool :=
  bus_trips_driver_on s (BusTrip.school_id t) (BusTrip.driver_id t).

(** bus_trips_view: FOR SELECT USING (school_id = get_user_school_id()) *)
Definition bus_trips_view (s : session) (t : BusTrip.row) : bool :=
  same_school s (BusTrip.school_id t).

(** The rows of bus_trips a query of the session sees: permissive policies
    are combined with OR. *)
Definition bus_trips_select (s : session) (t : BusTrip.row) : bool :=
  bus_trips_driver s t || bus_trips_view s t.

(** bus_location_history_driver, bus_stop_events_driver and
    student_bus_scans_driver share one body:
    FOR ALL USING (EXISTS (SELECT 1 FROM bus_trips bt WHERE bt.id = trip_id
                   AND (bt.driver_id = auth.uid() OR get_user_role() = 'admin')))
    The sub-query reads bus_trips under the session's own policies. *)
Definition trip_writer (s : session) (d : database) (trip_id : uuid) : bool :=
  existsb
    (fun bt => bool_decide (BusTrip.id bt = trip_id)
               && (bool_decide (BusTrip.driver_id bt = uid s)
                   || bool_decide (role s = admin)))
    (List.filter (bus_trips_select s) (bus_trips d)).

(** bus_alerts_manage:
    FOR ALL USING (school_id = get_user_school_id()
                   AND get_user_role() IN ('admin', 'driver')) *)
Definition bus_alerts_manage (s : session) (a : Alert.row) : bool :=
  same_school s (Alert.school_id a)
  && (bool_decide (role s = admin) || bool_decide (role s = driver)).

(** "Staff can create feed items":
    ON feed_items FOR INSERT WITH CHECK (school_id = get_user_school_id()
                   AND get_user_role() IN ('admin', 'teacher')) *)
Definition staff_can_create_feed_items (s : session) (f : FeedItem.row) : bool :=
  same_school s (FeedItem.school_id f)
  && (bool_decide (role s = admin) || bool_decide (role s = teacher)).

(** bus_routes and buses each carry a SELECT policy whose whole condition is
    school_id = get_user_school_id() (bus_routes_parent, buses_view); the other
    policies of these tables are narrower, so the disjunction is this one. *)
Definition bus_routes_select (s : session) (r : Route.row) : bool :=
  same_school s (Route.school_id r).

Definition buses_select (s : session) (b : Bus.row) : bool :=
  same_school s (Bus.school_id b).

(** is_guardian_of(student_uuid), SECURITY DEFINER: it reads student_guardians
    whole.
    SELECT EXISTS (SELECT 1 FROM student_guardians
                   WHERE user_id = auth.uid() AND student_id = student_uuid) *)
Definition is_guardian_of (s : session) (d : database) (student_uuid : uuid)
  : bool :=
  existsb
    (fun g => bool_decide (Guardian.user_id g = uid s)
              && bool_decide (Guardian.student_id g = student_uuid))
    (student_guardians d).

(** "View students based on role", the one SELECT policy of students:
    USING (school_id = get_user_school_id()
           AND (get_user_role() IN ('admin', 'teacher') OR is_guardian_of(id))) *)
Definition view_students (s : session) (d : database)
  (st : SchoolStudent.row) : bool :=
  same_school s (SchoolStudent.school_id st)
  && (bool_decide (role s = admin) || bool_decide (role s = teacher)
      || is_guardian_of s d (SchoolStudent.id st)).

(** ** The type of an expression assigned to a column

    The target list of an INSERT is typed before a row is written.  A string
    literal has the type unknown and is read in the type of its column.  A
    CASE takes the common type of its branches, which is text when all of them
    are string literals.  An expression of another type than its column needs
    an assignment cast, and text has none to an enum: the statement raises
    datatype_mismatch. *)
Inductive sql_type := ty_unknown | ty_text | ty_enum (name : string).

#[global] Instance sql_type_eq_dec : EqDecision sql_type.
Proof. solve_decision. Defined.

Definition case_type (branches : list sql_type) : sql_type :=
  match
    List.filter (fun t => negb (bool_decide (t = ty_unknown))) branches
  with
  | [] => ty_text
  | t :: _ => t
  end.

Definition assignable (source target : sql_type) : bool :=
  bool_decide (source = ty_unknown) || bool_decide (source = target).

(** ** Statements on feed_items *)

Definition insert_feed_items (s : session) (f : FeedItem.row) (d : database)
  : result database :=
  _ ←r guard (staff_can_create_feed_items s f) insufficient_privilege ;
  Ok (with_feed_items (feed_items d ++ [f]) d).

Fixpoint insert_feed_items_all (s : session) (fs : list FeedItem.row)
  (d : database) : result database :=
  match fs with
  | [] => Ok d
  | f :: fs' => d' ←r insert_feed_items s f d ; insert_feed_items_all s fs' d'
  end.

(** ** Trigger functions *)

(** create_bus_feed_item(): AFTER INSERT OR UPDATE ON bus_trips FOR EACH ROW.
    OLD is absent on INSERT, where OLD.status IS NULL holds.  The priority is
    the literal 'normal' in the SELECT list of an INSERT ... SELECT, which is
    read as a feed_priority. *)
Definition create_bus_feed_item (s : session) (OLD : option BusTrip.row)
  (NEW : BusTrip.row) (d : database) : result database :=
  if bool_decide (BusTrip.status NEW = in_progress)
     && match OLD with
        | None => true
        | Some o => bool_decide (BusTrip.status o = scheduled)
        end
  then
    insert_feed_items_all s
      (flat_map
         (fun r =>
            List.map
              (fun b =>
                 FeedItem.mk (BusTrip.school_id NEW)
                   ("Bus " +:+ Bus.bus_number b +:+ " is on the way")
                   (Some ("Route " +:+ Route.route_number r +:+ " ("
                          +:+ Route.name r +:+ ") has started"))
                   normal
                   (trip_metadata (BusTrip.id NEW) (BusTrip.route_id NEW)
                      (BusTrip.bus_id NEW) (BusTrip.trip_type NEW)))
              (List.filter
                 (fun b => buses_select s b
                           && bool_decide (Bus.id b = BusTrip.bus_id NEW))
                 (buses d)))
         (List.filter
            (fun r => bus_routes_select s r
                      && bool_decide (Route.id r = BusTrip.route_id NEW))
            (bus_routes d)))
      d
  else Ok d.

(** create_bus_alert_feed_item(): AFTER INSERT ON bus_alerts FOR EACH ROW.
    The priority of the feed item is
      CASE WHEN NEW.severity = 'critical' THEN 'urgent'
           WHEN NEW.severity = 'warning' THEN 'high' ELSE 'normal' END
    assigned to the column priority of type feed_priority. *)
Definition create_bus_alert_feed_item (s : session) (NEW : Alert.row)
  (d : database) : result database :=
  _ ←r guard
        (assignable (case_type [ty_unknown; ty_unknown; ty_unknown])
           (ty_enum "feed_priority"))
        datatype_mismatch ;
  insert_feed_items s
    (FeedItem.mk (Alert.school_id NEW) (Alert.title NEW) (Alert.message NEW)
       match Alert.severity NEW with
       | critical => urgent
       | warning => high
       | _ => normal
       end
       (alert_metadata (Alert.id NEW) (Alert.alert_type NEW)
          (Alert.severity NEW) (Alert.trip_id NEW)))
    d.

(** ** UPDATE bus_trips ... WHERE id = ? *)

(** The rows the statement touches are those with the given id that the
    UPDATE policy of the session admits; [set] computes the new row and may
    raise.  The result is the new table and the (OLD, NEW) pairs of the rows
    that were updated. *)
Fixpoint update_where (hit : BusTrip.row → bool)
  (set : BusTrip.row → result BusTrip.row) (ts : list BusTrip.row)
  : result (list BusTrip.row * list (BusTrip.row * BusTrip.row)) :=
  match ts with
  | [] => Ok ([], [])
  | t :: ts' =>
      if hit t then
        t' ←r set t ;
        rest ←r update_where hit set ts' ;
        Ok (t' :: fst rest, (t, t') :: snd rest)
      else
        rest ←r update_where hit set ts' ;
        Ok (t :: fst rest, snd rest)
  end.

(** on_bus_trip_status_change, once per updated row, after the statement's
    rows are written. *)
Fixpoint fire_on_bus_trip_status_change (s : session)
  (changed : list (BusTrip.row * BusTrip.row)) (d : database)
  : result database :=
  match changed with
  | [] => Ok d
  | (o, n) :: rest =>
      d' ←r create_bus_feed_item s (Some o) n d ;
      fire_on_bus_trip_status_change s rest d'
  end.

(** WHERE id = ?, on the rows the policy bus_trips_driver lets the session
    update.  No modelled UPDATE assigns school_id or driver_id, so the new row
    passes the policy whenever the old one does. *)
Definition updatable (s : session) (id : uuid) (t : BusTrip.row) : bool :=
  bool_decide (BusTrip.id t = id) && bus_trips_driver s t.

Definition update_bus_trips (s : session) (id : uuid)
  (set : BusTrip.row → result BusTrip.row) (d : database) : result database :=
  upd ←r update_where (updatable s id) set (bus_trips d) ;
  fire_on_bus_trip_status_change s (snd upd) (with_bus_trips (fst upd) d).

(** ** Column updates on a bus_trips row *)

Definition set_students_on_board (n : Z) (t : BusTrip.row) : BusTrip.row :=
  BusTrip.mk (BusTrip.id t) (BusTrip.school_id t) (BusTrip.route_id t)
    (BusTrip.bus_id t) (BusTrip.driver_id t) (BusTrip.trip_date t)
    (BusTrip.trip_type t) (BusTrip.status t) (BusTrip.scheduled_start t)
    (BusTrip.actual_start t) (BusTrip.actual_end t)
    (BusTrip.current_latitude t) (BusTrip.current_longitude t)
    (BusTrip.current_speed t) (BusTrip.current_heading t)
    (BusTrip.last_location_update t) (BusTrip.current_stop_index t) n.

Definition set_current_stop_index (n : Z) (t : BusTrip.row) : BusTrip.row :=
  BusTrip.mk (BusTrip.id t) (BusTrip.school_id t) (BusTrip.route_id t)
    (BusTrip.bus_id t) (BusTrip.driver_id t) (BusTrip.trip_date t)
    (BusTrip.trip_type t) (BusTrip.status t) (BusTrip.scheduled_start t)
    (BusTrip.actual_start t) (BusTrip.actual_end t)
    (BusTrip.current_latitude t) (BusTrip.current_longitude t)
    (BusTrip.current_speed t) (BusTrip.current_heading t)
    (BusTrip.last_location_update t) n (BusTrip.students_on_board t).

Definition set_current_location (lat lon : Z) (spd hdg : option Z)
  (at_ : timestamptz) (t : BusTrip.row) : BusTrip.row :=
  BusTrip.mk (BusTrip.id t) (BusTrip.school_id t) (BusTrip.route_id t)
    (BusTrip.bus_id t) (BusTrip.driver_id t) (BusTrip.trip_date t)
    (BusTrip.trip_type t) (BusTrip.status t) (BusTrip.scheduled_start t)
    (BusTrip.actual_start t) (BusTrip.actual_end t)
    (Some lat) (Some lon) spd hdg (Some at_)
    (BusTrip.current_stop_index t) (BusTrip.students_on_board t).

Definition set_completed (at_ : timestamptz) (t : BusTrip.row) : BusTrip.row :=
  BusTrip.mk (BusTrip.id t) (BusTrip.school_id t) (BusTrip.route_id t)
    (BusTrip.bus_id t) (BusTrip.driver_id t) (BusTrip.trip_date t)
    (BusTrip.trip_type t) completed (BusTrip.scheduled_start t)
    (BusTrip.actual_start t) (Some at_)
    (BusTrip.current_latitude t) (BusTrip.current_longitude t)
    (BusTrip.current_speed t) (BusTrip.current_heading t)
    (BusTrip.last_location_update t) (BusTrip.current_stop_index t)
    (BusTrip.students_on_board t).

(** ** The occupancy trigger *)

(** SUM over no rows is NULL. *)
Definition sql_sum (zs : list Z) : option Z :=
  match zs with
  | [] => None
  | _ => Some (fold_right Z.add 0 zs)
  end.

Definition coalesce (o : option Z) (z : Z) : Z :=
  match o with Some v => v | None => z end.

(** CASE WHEN scan_type = 'board' THEN 1 ELSE -1 END *)
Definition scan_delta (sc : Scan.row) : Z :=
  match Scan.scan_type sc with board => 1 | _ => -1 end.

(** The rows of student_bus_scans the trigger's sub-query reads:
    WHERE trip_id = NEW.trip_id, under the policy student_bus_scans_driver of
    the caller (the policy of the INSERT that fired the trigger; it depends on
    the row's trip_id only). *)
Definition scans_of_trip (s : session) (d : database) (trip_id : uuid)
  : list Scan.row :=
  List.filter
    (fun sc => trip_writer s d (Scan.trip_id sc)
               && bool_decide (Scan.trip_id sc = trip_id))
    (student_bus_scans d).

(** update_trip_student_count(): AFTER INSERT ON student_bus_scans FOR EACH ROW.
    students_on_board is an INTEGER column. *)
Definition update_trip_student_count (s : session) (NEW : Scan.row)
  (d : database) : result database :=
  update_bus_trips s (Scan.trip_id NEW)
    (fun t =>
       let n :=
         coalesce
           (sql_sum (List.map scan_delta (scans_of_trip s d (Scan.trip_id NEW))))
           0 in
       _ ←r guard (int4 n) numeric_value_out_of_range ;
       Ok (set_students_on_board n t))
    d.

(** ** INSERT statements of the event tables *)

Definition trip_exists (d : database) (trip_id : uuid) : bool :=
  existsb (fun t => bool_decide (BusTrip.id t = trip_id)) (bus_trips d).

Definition stop_exists (d : database) (stop_id : uuid) : bool :=
  existsb (fun st => bool_decide (Stop.id st = stop_id)) (bus_stops d).

Definition route_exists (d : database) (route_id : uuid) : bool :=
  existsb (fun r => bool_decide (Route.id r = route_id)) (bus_routes d).

Definition bus_exists (d : database) (bus_id : uuid) : bool :=
  existsb (fun b => bool_decide (Bus.id b = bus_id)) (buses d).

Definition insert_student_bus_scans (s : session) (NEW : Scan.row)
  (d : database) : result database :=
  _ ←r guard (trip_writer s d (Scan.trip_id NEW)) insufficient_privilege ;
  _ ←r guard (trip_exists d (Scan.trip_id NEW)) foreign_key_violation ;
  _ ←r guard
        match Scan.stop_id NEW with
        | None => true
        | Some sid => stop_exists d sid
        end foreign_key_violation ;
  update_trip_student_count s NEW
    (with_student_bus_scans (student_bus_scans d ++ [NEW]) d).

Definition insert_bus_stop_events (s : session) (NEW : StopEvent.row)
  (d : database) : result database :=
  _ ←r guard
        (int4 (StopEvent.students_boarded NEW)
         && int4 (StopEvent.students_exited NEW))
        numeric_value_out_of_range ;
  _ ←r guard (trip_writer s d (StopEvent.trip_id NEW)) insufficient_privilege ;
  _ ←r guard (trip_exists d (StopEvent.trip_id NEW)) foreign_key_violation ;
  _ ←r guard (stop_exists d (StopEvent.stop_id NEW)) foreign_key_violation ;
  Ok (with_bus_stop_events (bus_stop_events d ++ [NEW]) d).

(** latitude DECIMAL(10,8), longitude DECIMAL(11,8), speed and heading
    DECIMAL(5,2), accuracy DECIMAL(6,2). *)
Definition insert_bus_location_history (s : session) (NEW : LocationFix.row)
  (d : database) : result database :=
  _ ←r guard
        (numeric_fits 10 (LocationFix.latitude NEW)
         && numeric_fits 11 (LocationFix.longitude NEW)
         && numeric_fits_opt 5 (LocationFix.speed NEW)
         && numeric_fits_opt 5 (LocationFix.heading NEW)
         && numeric_fits_opt 6 (LocationFix.accuracy NEW))
        numeric_value_out_of_range ;
  _ ←r guard (trip_writer s d (LocationFix.trip_id NEW)) insufficient_privilege ;
  _ ←r guard (trip_exists d (LocationFix.trip_id NEW)) foreign_key_violation ;
  Ok (with_bus_location_history (bus_location_history d ++ [NEW]) d).

Definition alert_id_taken (d : database) (id : uuid) : bool :=
  existsb (fun a => bool_decide (Alert.id a = id)) (bus_alerts d).

(** INSERT INTO bus_alerts, with the trigger on_bus_alert_created. *)
Definition insert_bus_alerts (s : session) (NEW : Alert.row) (d : database)
  : result database :=
  _ ←r guard (bus_alerts_manage s NEW) insufficient_privilege ;
  _ ←r guard (negb (alert_id_taken d (Alert.id NEW))) unique_violation ;
  _ ←r guard
        match Alert.trip_id NEW with
        | None => true
        | Some tid => trip_exists d tid
        end foreign_key_violation ;
  _ ←r guard
        match Alert.route_id NEW with
        | None => true
        | Some rid => route_exists d rid
        end foreign_key_violation ;
  create_bus_alert_feed_item s NEW (with_bus_alerts (bus_alerts d ++ [NEW]) d).

(** ** The active-trip screen: state *)

Module BusStop.
Record t := mk {
  id : uuid; stop_number : Z; scheduled_time : option string;
  arrived : bool; departed : bool }.
End BusStop.

Module Student.
Record t := mk { id : uuid; stop_id : option uuid; boarded : bool }.
End Student.

(** The trip row with its two embedded resources (route, bus). *)
Module Trip.
Record t := mk {
  row : BusTrip.row; route : option Route.row; bus : option Bus.row }.
End Trip.

Module Location.
Record LocationObject := mk {
  latitude : Z; longitude : Z;
  speed : option Z; heading : option Z; accuracy : option Z;
  timestamp : Z }.
End Location.

Record screen := mkscreen {
  trip : option Trip.t;
  stops : list BusStop.t;
  students : list Student.t;
  currentStopIndex : Z;
  alertType : alert_kind }.

(** What a handler shows: nothing, or Alert.alert(title, message). *)
Inductive feedback := quiet | dialog (title message : string).

(** The client awaits a statement and drops its {data, error} result: the query
    builder resolves with the error, it does not throw. *)
Definition attempt (r : result database) (d : database) : database :=
  match r with Ok d' => d' | Err _ => d end.

(** stops[i]: undefined outside the array. *)
Definition stops_at (l : list BusStop.t) (i : Z) : option BusStop.t :=
  if i <? 0 then None else l !! Z.to_nat i.

(** ** The active-trip screen: handlers

    [s] is the signed-in driver, [id] the trip of the route parameter, [now]
    the device clock (new Date()) and [db_now] the server clock (NOW()). *)

Definition updateLocation (s : session) (id : uuid)
  (location : Location.LocationObject) (now db_now : timestamptz)
  (d : database) : database :=
  let d1 :=
    attempt
      (update_bus_trips s id
         (fun t =>
            _ ←r guard
                  (numeric_fits 10 (Location.latitude location)
                   && numeric_fits 11 (Location.longitude location)
                   && numeric_fits_opt 5 (Location.speed location)
                   && numeric_fits_opt 5 (Location.heading location))
                  numeric_value_out_of_range ;
            Ok (set_current_location (Location.latitude location)
                  (Location.longitude location) (Location.speed location)
                  (Location.heading location) now t))
         d) d in
  attempt
    (insert_bus_location_history s
       (LocationFix.mk id (Location.latitude location)
          (Location.longitude location) (Location.speed location)
          (Location.heading location) (Location.accuracy location) db_now)
       d1) d1.

Definition handleArriveAtStop (s : session) (id : uuid) (stop : BusStop.t)
  (db_now : timestamptz) (d : database) : database * feedback :=
  let d1 :=
    attempt
      (insert_bus_stop_events s
         (StopEvent.mk id (BusStop.id stop) arrived
            (BusStop.scheduled_time stop) db_now 0 0)
         d) d in
  let d2 :=
    attempt
      (update_bus_trips s id
         (fun t =>
            _ ←r guard (int4 (BusStop.stop_number stop))
                  numeric_value_out_of_range ;
            Ok (set_current_stop_index (BusStop.stop_number stop) t))
         d1) d1 in
  (d2, quiet).

Definition handleDepartFromStop (s : session) (id : uuid) (stop : BusStop.t)
  (studentsBoarded studentsExited : Z) (db_now : timestamptz) (d : database)
  : database * feedback :=
  (attempt
     (insert_bus_stop_events s
        (StopEvent.mk id (BusStop.id stop) departed None db_now
           studentsBoarded studentsExited)
        d) d,
   quiet).

Definition handleScanStudent (s : session) (id : uuid) (scr : screen)
  (student : Student.t) (scanType : scan_kind) (db_now : timestamptz)
  (d : database) : database * feedback :=
  (attempt
     (insert_student_bus_scans s
        (Scan.mk id (Student.id student)
           (BusStop.id <$> stops_at (stops scr) (currentStopIndex scr))
           scanType db_now)
        d) d,
   quiet).

(** The onPress of the 'End Trip' button of the confirmation dialog. *)
Definition handleEndTrip (s : session) (id : uuid) (now : timestamptz)
  (d : database) : database * feedback :=
  (attempt (update_bus_trips s id (fun t => Ok (set_completed now t)) d) d,
   quiet).

(** [new_id] is the gen_random_uuid() default of bus_alerts.id. *)
Definition handleSendAlert (s : session) (id : uuid) (scr : screen)
  (new_id : uuid) (db_now : timestamptz) (d : database)
  : database * feedback :=
  match
    match trip scr with
    | None => Some ("undefined", "undefined", None)
    | Some t =>
        match Trip.bus t, Trip.route t with
        | Some b, Some r =>
            Some (Bus.bus_number b, Route.route_number r,
                  Some (BusTrip.route_id (Trip.row t)))
        | _, _ => None        (* TypeError: property of null *)
        end
    end
  with
  | None => (d, dialog "Error" "Failed to send alert")
  | Some (bus_number, route_number, route_id) =>
      (attempt
         (insert_bus_alerts s
            (Alert.mk new_id (user_school_id s) (Some id) route_id
               (alertType scr)
               (if bool_decide (alertType scr = delay) then info else warning)
               ("Bus " +:+ bus_number +:+ " - "
                +:+ (if bool_decide (alertType scr = delay)
                     then "Running Late" else "Issue Reported"))
               (Some ("Route " +:+ route_number +:+ " has reported a "
                      +:+ alert_kind_text (alertType scr)))
               false (Some (uid s)) db_now)
            d) d,
       dialog "Success" "Alert sent to school")
  end.

(** ** The active-trip screen: fetchTripData *)

(** .order('stop_number'): ascending, by insertion. *)
Fixpoint insert_by_stop_number (x : Stop.row) (l : list Stop.row)
  : list Stop.row :=
  match l with
  | [] => [x]
  | y :: l' =>
      if Stop.stop_number x <=? Stop.stop_number y then x :: y :: l'
      else y :: insert_by_stop_number x l'
  end.

Definition order_by_stop_number (l : list Stop.row) : list Stop.row :=
  fold_right insert_by_stop_number [] l.

(** stopEvents.forEach: the event types of each stop, in log order. *)
Definition eventsByStop (stopEvents : list StopEvent.row)
  : gmap string (list stop_event_type) :=
  fold_left
    (fun (m : gmap string (list stop_event_type)) e =>
       let m' :=
         match m !! StopEvent.stop_id e with
         | None => <[StopEvent.stop_id e := []]> m
         | Some _ => m
         end in
       match m' !! StopEvent.stop_id e with
       | Some l => <[StopEvent.stop_id e := l ++ [StopEvent.event_type e]]> m'
       | None => m'
       end)
    stopEvents ∅.

Definition includes (l : list stop_event_type) (x : stop_event_type) : bool :=
  existsb (fun y => bool_decide (y = x)) l.

Definition stopsWithEvents (d : database) (id : uuid) (route_id : uuid)
  : list BusStop.t :=
  let stopsData :=
    order_by_stop_number
      (List.filter
         (fun st => bool_decide (Stop.route_id st = route_id) && Stop.active st)
         (bus_stops d)) in
  let stopEvents :=
    List.filter (fun e => bool_decide (StopEvent.trip_id e = id))
      (bus_stop_events d) in
  let byStop := eventsByStop stopEvents in
  List.map
    (fun st =>
       let events := default [] (byStop !! Stop.id st) in
       BusStop.mk (Stop.id st) (Stop.stop_number st) (Stop.scheduled_time st)
         (includes events arrived) (includes events departed))
    stopsData.

(** new Set(scans.filter(s => s.scan_type === 'board').map(s => s.student_id)) *)
Definition boardedStudents (d : database) (id : uuid) : gset string :=
  list_to_set
    (List.map Scan.student_id
       (List.filter (fun sc => bool_decide (Scan.scan_type sc = board))
          (List.filter (fun sc => bool_decide (Scan.trip_id sc = id))
             (student_bus_scans d)))).

(** student:students (id, first_name, last_name, grade), the resource embedded
    in an assignment: the row of students the assignment refers to, read under
    the SELECT policy of students, and null when the session does not see it. *)
Definition embedded_student (s : session) (d : database) (a : Assignment.row)
  : option SchoolStudent.row :=
  List.find
    (fun st => bool_decide (SchoolStudent.id st = Assignment.student_id a))
    (List.filter (view_students s d) (school_students d)).

(** (assignmentsData || []).map((a) => ({ id: a.student.id, ... })): reading
    a.student.id of an assignment whose student is null throws a TypeError;
    [None] is that throw. *)
Definition studentsData (s : session) (d : database) (id : uuid)
  (tripData : BusTrip.row) : option (list Student.t) :=
  let routeField :=
    if bool_decide (BusTrip.trip_type tripData = morning)
    then Assignment.morning_route_id else Assignment.afternoon_route_id in
  let stopField :=
    if bool_decide (BusTrip.trip_type tripData = morning)
    then Assignment.morning_stop_id else Assignment.afternoon_stop_id in
  let boardedSet := boardedStudents d id in
  mapM
    (fun a =>
       student ← embedded_student s d a ;
       Some (Student.mk (SchoolStudent.id student) (stopField a)
               (bool_decide (SchoolStudent.id student ∈ boardedSet))))
    (List.filter
       (fun a => bool_decide (routeField a = Some (BusTrip.route_id tripData))
                 && Assignment.active a)
       (student_bus_assignments d)).

(** .single(): exactly one row, an error otherwise. *)
Definition single {A} (l : list A) : option A :=
  match l with [x] => Some x | _ => None end.

Definition find_route (d : database) (route_id : uuid) : option Route.row :=
  List.find (fun r => bool_decide (Route.id r = route_id)) (bus_routes d).

Definition find_bus (d : database) (bus_id : uuid) : option Bus.row :=
  List.find (fun b => bool_decide (Bus.id b = bus_id)) (buses d).

(** The first query of fetchTripData: .eq('id', id).single() *)
Definition tripQuery (d : database) (id : uuid) : option BusTrip.row :=
  single
    (List.filter (fun t => bool_decide (BusTrip.id t = id)) (bus_trips d)).

(** The state after fetchTripData.  When the trip query fails the handler
    throws before any setter runs, shows a dialog and leaves the state.
    Otherwise setTrip, setCurrentStopIndex and setStops run; when building the
    student list throws, the same dialog is shown and setStudents does not
    run, so the screen keeps the students it had. *)
Definition fetchTripData (s : session) (id : uuid) (d : database)
  (scr : screen) : screen * feedback :=
  match tripQuery d id with
  | None => (scr, dialog "Error" "Failed to load trip data")
  | Some tripData =>
      let trip' :=
        Some (Trip.mk tripData (find_route d (BusTrip.route_id tripData))
                (find_bus d (BusTrip.bus_id tripData))) in
      let stops' := stopsWithEvents d id (BusTrip.route_id tripData) in
      match studentsData s d id tripData with
      | None =>
          (mkscreen trip' stops' (students scr)
             (BusTrip.current_stop_index tripData) (alertType scr),
           dialog "Error" "Failed to load trip data")
      | Some students' =>
          (mkscreen trip' stops' students'
             (BusTrip.current_stop_index tripData) (alertType scr),
           quiet)
      end
  end.

(** ** The active-trip screen: what the rendered screen offers *)

(** The button of the current-stop card. *)
Inductive stop_button := arrive_button | depart_button | completed_badge.

Definition stop_button_of (currentStop : BusStop.t) : stop_button :=
  if negb (BusStop.arrived currentStop) then arrive_button
  else if negb (BusStop.departed currentStop) then depart_button
  else completed_badge.

(** students.filter(s => s.stop_id === currentStop?.id); a stop_id is a UUID
    or null, never undefined, so nothing matches without a current stop. *)
Definition studentsAtCurrentStop (scr : screen) : list Student.t :=
  match stops_at (stops scr) (currentStopIndex scr) with
  | None => []
  | Some currentStop =>
      List.filter
        (fun st =>
           bool_decide (Student.stop_id st = Some (BusStop.id currentStop)))
        (students scr)
  end.

(** onPress of a student row:
    handleScanStudent(student, student.boarded ? 'exit' : 'board') *)
Definition press_student (s : session) (id : uuid) (scr : screen)
  (student : Student.t) (db_now : timestamptz) (d : database)
  : database * feedback :=
  handleScanStudent s id scr student
    (if Student.boarded student then exit else board) db_now d.

(** onPress of the button of the current-stop card; the card is rendered only
    when stops[currentStopIndex] is defined. *)
Definition press_stop_button (s : session) (id : uuid) (scr : screen)
  (db_now : timestamptz) (d : database) : database * feedback :=
  match stops_at (stops scr) (currentStopIndex scr) with
  | None => (d, quiet)
  | Some currentStop =>
      match stop_button_of currentStop with
      | arrive_button => handleArriveAtStop s id currentStop db_now d
      | depart_button =>
          handleDepartFromStop s id currentStop
            (Z.of_nat
               (length
                  (List.filter Student.boarded (studentsAtCurrentStop scr))))
            0 db_now d
      | completed_badge => (d, quiet)
      end
  end.

(** onPress of a row of the stop list: setCurrentStopIndex(index). *)
Definition select_stop (index : nat) (scr : screen) : screen :=
  mkscreen (trip scr) (stops scr) (students scr) (Z.of_nat index)
    (alertType scr).

(** ** The home screen: startTrip *)

(** A JSON value of a request body, as far as the body of startTrip needs:
    null, text, or an object whose members are text or null. *)
Inductive json :=
| JNull
| JString (s : string)
| JObject (fields : list (string * option string)).

(** A route of the home screen with its embedded bus (bus_number, color). *)
Module BusRoute.
Record bus_t := mkbus { bus_number : string; color : option string }.
Record t := mk {
  id : uuid; route_number : string; start_time : option string;
  bus : option bus_t }.
End BusRoute.

(** The body of the INSERT of startTrip. *)
Module TripInsert.
Record t := mk {
  school_id : uuid; route_id : uuid; bus_id : json; driver_id : uuid;
  trip_date : string; trip_type : trip_kind; status : trip_status;
  scheduled_start : option string; actual_start : option timestamptz }.
End TripInsert.

(** A JSON value read into a UUID column: null and text pass (the syntax of
    the text is not modelled), an object has no UUID reading. *)
Definition json_to_uuid (j : json) : result (option uuid) :=
  match j with
  | JNull => Ok None
  | JString u => Ok (Some u)
  | JObject _ => Err invalid_text_representation
  end.

Definition trip_id_taken (d : database) (id : uuid) : bool :=
  existsb (fun t => bool_decide (BusTrip.id t = id)) (bus_trips d).

(** UNIQUE(route_id, trip_date, trip_type) *)
Definition trip_key_taken (d : database) (route_id : uuid) (trip_date : string)
  (trip_type : trip_kind) : bool :=
  existsb
    (fun t => bool_decide (BusTrip.route_id t = route_id)
              && bool_decide (BusTrip.trip_date t = trip_date)
              && bool_decide (BusTrip.trip_type t = trip_type))
    (bus_trips d).

(** INSERT INTO bus_trips ... RETURNING *, with the trigger
    on_bus_trip_status_change.  [new_id] is the gen_random_uuid() default of
    the id; current_stop_index and students_on_board take their default 0. *)
Definition insert_bus_trips (s : session) (new_id : uuid) (body : TripInsert.t)
  (d : database) : result (database * BusTrip.row) :=
  bus_id ←r json_to_uuid (TripInsert.bus_id body) ;
  _ ←r guard
        (bus_trips_driver_on s (TripInsert.school_id body)
           (TripInsert.driver_id body))
        insufficient_privilege ;
  match bus_id with
  | None => Err not_null_violation
  | Some bus_id =>
      let NEW :=
        BusTrip.mk new_id (TripInsert.school_id body)
          (TripInsert.route_id body) bus_id (TripInsert.driver_id body)
          (TripInsert.trip_date body) (TripInsert.trip_type body)
          (TripInsert.status body) (TripInsert.scheduled_start body)
          (TripInsert.actual_start body) None None None None None None 0 0 in
      _ ←r guard (negb (trip_id_taken d new_id)) unique_violation ;
      _ ←r guard
            (negb
               (trip_key_taken d (TripInsert.route_id body)
                  (TripInsert.trip_date body) (TripInsert.trip_type body)))
            unique_violation ;
      _ ←r guard
            (route_exists d (TripInsert.route_id body) && bus_exists d bus_id)
            foreign_key_violation ;
      d' ←r create_bus_feed_item s None NEW
              (with_bus_trips (bus_trips d ++ [NEW]) d) ;
      Ok (d', NEW)
  end.

(** const suggestedTripType = currentHour < 12 ? 'morning' : 'afternoon' *)
Definition suggestedTripType (currentHour : Z) : trip_kind :=
  if currentHour <? 12 then morning else afternoon.

(** The query of fetchData that fills the activeTrip state. *)
Definition fetch_activeTrip (s : session) (today : string) (d : database)
  : option BusTrip.row :=
  single
    (List.filter
       (fun t => bool_decide (BusTrip.driver_id t = uid s)
                 && bool_decide (BusTrip.trip_date t = today)
                 && bool_decide (BusTrip.status t = in_progress))
       (bus_trips d)).

Inductive start_outcome :=
| go_to_trip (trip_id : uuid)        (* the 'Active Trip' dialog *)
| trip_started (trip : BusTrip.row)  (* setActiveTrip(trip); router.push(...) *)
| failed_to_start (e : pg_error).    (* 'Failed to start trip' *)

(** bus_id: route.bus?.bus_number ? route.bus : null *)
Definition bus_id_of_route (route : BusRoute.t) : json :=
  match BusRoute.bus route with
  | Some b =>
      if bool_decide (BusRoute.bus_number b = "") then JNull
      else JObject
             [("bus_number", Some (BusRoute.bus_number b));
              ("color", BusRoute.color b)]
  | None => JNull
  end.

(** startTrip(route), the driver pressing 'Start' in the confirmation dialog
    ('Cancel' does nothing).  [activeTrip] is the state the screen holds. *)
Definition startTrip (s : session) (activeTrip : option BusTrip.row)
  (route : BusRoute.t) (today : string) (currentHour : Z)
  (now : timestamptz) (new_id : uuid) (d : database)
  : database * start_outcome :=
  match activeTrip with
  | Some t => (d, go_to_trip (BusTrip.id t))
  | None =>
      match
        insert_bus_trips s new_id
          (TripInsert.mk (user_school_id s) (BusRoute.id route)
             (bus_id_of_route route) (uid s) today
             (suggestedTripType currentHour) in_progress
             (BusRoute.start_time route) (Some now))
          d
      with
      | Ok (d', t) => (d', trip_started t)
      | Err e => (d, failed_to_start e)
      end
  end.

(** ** Vocabulary of the statements below *)

(** The row of a trip (the first row with the id; id is the primary key). *)
Definition find_trip (d : database) (id : uuid) : option BusTrip.row :=
  List.find (fun t => bool_decide (BusTrip.id t = id)) (bus_trips d).

(** The scan log of a trip, and the number of its events of one type. *)
Definition scan_log (d : database) (id : uuid) : list Scan.row :=
  List.filter (fun sc => bool_decide (Scan.trip_id sc = id))
    (student_bus_scans d).

Definition count_scans (k : scan_kind) (l : list Scan.row) : Z :=
  Z.of_nat
    (length (List.filter (fun sc => bool_decide (Scan.scan_type sc = k)) l)).

(** The event types logged for one stop of one trip, in log order. *)
Definition stop_log (d : database) (id stop_id : uuid)
  : list stop_event_type :=
  List.map StopEvent.event_type
    (List.filter
       (fun e => bool_decide (StopEvent.trip_id e = id)
                 && bool_decide (StopEvent.stop_id e = stop_id))
       (bus_stop_events d)).

Definition count_events (x : stop_event_type) (l : list stop_event_type) : nat :=
  length (List.filter (fun y => bool_decide (y = x)) l).

(** A stop's log is nothing, an arrival, or an arrival and then a departure. *)
Definition stop_log_ok (l : list stop_event_type) : Prop :=
  l = [] ∨ l = [arrived] ∨ l = [arrived; departed].

(** Every stop the screen holds is a row of bus_stops. *)
Definition stops_known (d : database) (scr : screen) : bool :=
  forallb (fun st => stop_exists d (BusStop.id st)) (stops scr).

(** The condition of create_bus_feed_item on an UPDATE. *)
Definition feed_trigger_fires (o n : BusTrip.row) : bool :=
  bool_decide (BusTrip.status n = in_progress)
  && bool_decide (BusTrip.status o = scheduled).

(** count(board events) - count(exit events) over the scan log of a trip. *)
Definition signed_count (d : database) (id : uuid) : Z :=
  count_scans board (scan_log d id) - count_scans exit (scan_log d id).

(** The scan handleScanStudent sends. *)
Definition scan_sent (id : uuid) (scr : screen) (student : Student.t)
  (scanType : scan_kind) (db_now : timestamptz) : Scan.row :=
  Scan.mk id (Student.id student)
    (BusStop.id <$> stops_at (stops scr) (currentStopIndex scr))
    scanType db_now.

(** Every number of a fix fits its DECIMAL column. *)
Definition fix_fits (location : Location.LocationObject) : bool :=
  numeric_fits 10 (Location.latitude location)
  && numeric_fits 11 (Location.longitude location)
  && numeric_fits_opt 5 (Location.speed location)
  && numeric_fits_opt 5 (Location.heading location)
  && numeric_fits_opt 6 (Location.accuracy location).

(** The history row updateLocation sends. *)
Definition fix_sent (id : uuid) (location : Location.LocationObject)
  (db_now : timestamptz) : LocationFix.row :=
  LocationFix.mk id (Location.latitude location)
    (Location.longitude location) (Location.speed location)
    (Location.heading location) (Location.accuracy location) db_now.

(** The snapshot updateLocation writes. *)
Definition snapshot_of (location : Location.LocationObject)
  (now : timestamptz) (t : BusTrip.row) : BusTrip.row :=
  set_current_location (Location.latitude location)
    (Location.longitude location) (Location.speed location)
    (Location.heading location) now t.

(** In the words of the specification: at least one board scan exists for
    the student in the scan log of the trip. *)
Definition has_board_scan (d : database) (id student_id : uuid) : bool :=
  existsb
    (fun sc => bool_decide (Scan.trip_id sc = id)
               && bool_decide (Scan.student_id sc = student_id)
               && bool_decide (Scan.scan_type sc = board))
    (student_bus_scans d).

(** The assignments fetchTripData selects for a trip. *)
Definition roster (d : database) (tripData : BusTrip.row)
  : list Assignment.row :=
  List.filter
    (fun a =>
       bool_decide
         ((if bool_decide (BusTrip.trip_type tripData = morning)
           then Assignment.morning_route_id a
           else Assignment.afternoon_route_id a)
          = Some (BusTrip.route_id tripData))
       && Assignment.active a)
    (student_bus_assignments d).

(** The entry of the student list for an assignment of the roster: the
    student of the assignment, the stop of the direction of the trip, and as
    boarded flag whether the scan log of the trip holds a board scan of the
    student. *)
Definition student_row (d : database) (id : uuid) (tripData : BusTrip.row)
  (a : Assignment.row) : Student.t :=
  Student.mk (Assignment.student_id a)
    (if bool_decide (BusTrip.trip_type tripData = morning)
     then Assignment.morning_stop_id a
     else Assignment.afternoon_stop_id a)
    (has_board_scan d id (Assignment.student_id a)).

(** The session sees the student of every assignment of the roster. *)
Definition sees_roster (s : session) (d : database) (tripData : BusTrip.row)
  : bool :=
  forallb (fun a => bool_decide (is_Some (embedded_student s d a)))
    (roster d tripData).

(** The screen [scr] is what fetchTripData leaves of a screen [scr0] when its
    trip query finds the trip: the trip, the stop list and the stop pointer
    are those of the database, and so are the students unless the student
    list failed to load. *)
Definition loads (s : session) (id : uuid) (d : database) (scr0 scr : screen)
  : Prop :=
  is_Some (tripQuery d id) ∧ scr = fst (fetchTripData s id d scr0).

(** What the driver can do on the active-trip screen of trip [id].  The two
    presses of the stop card and the tap on a student act on a screen that
    fetchTripData has loaded from the database as it is (and on which the
    driver may have selected another stop of the list). *)
Inductive driver_step (s : session) (id : uuid) : database → database → Prop :=
| step_stop_button d scr0 scr db_now :
    loads s id d scr0 scr →
    driver_step s id d (fst (press_stop_button s id scr db_now d))
| step_stop_button_at d scr0 scr index db_now :
    loads s id d scr0 scr →
    driver_step s id d
      (fst (press_stop_button s id (select_stop index scr) db_now d))
| step_student d scr0 scr index student db_now :
    loads s id d scr0 scr →
    In student (studentsAtCurrentStop (select_stop index scr)) →
    driver_step s id d
      (fst (press_student s id (select_stop index scr) student db_now d))
| step_location d location now db_now :
    driver_step s id d (updateLocation s id location now db_now d)
| step_alert d scr new_id db_now :
    driver_step s id d (fst (handleSendAlert s id scr new_id db_now d))
| step_end_trip d now :
    driver_step s id d (fst (handleEndTrip s id now d)).

(** ** A school day, for the concrete cases *)

Definition driver1 : session := mksession "driver-1" driver "school-1".
Definition admin1 : session := mksession "admin-1" admin "school-1".

Definition trip1 (st : trip_status) : BusTrip.row :=
  BusTrip.mk "trip-1" "school-1" "route-1" "bus-1" "driver-1" "2024-05-01"
    morning st None (Some 1000) None None None None None None 0 0.

Definition day (st : trip_status) : database :=
  mkdb [Bus.mk "bus-1" "school-1" "12"]
    [Route.mk "route-1" "school-1" "R1" "North" None]
    [Stop.mk "stop-1" "school-1" "route-1" 1 None true;
     Stop.mk "stop-2" "school-1" "route-1" 2 None true;
     Stop.mk "stop-3" "school-1" "route-1" 3 None true]
    [Assignment.mk "S1" (Some "route-1") (Some "stop-1") None None true]
    [trip1 st] [] [] [] [] []
    [SchoolStudent.mk "S1" "school-1"] [].

Definition blank : screen := mkscreen None [] [] 0 delay.

(** The screen of trip-1 as a session loads it from a database.  The driver
    of the day is no guardian of the student of the route: the driver's screen
    holds the trip and its stops and no student. *)
Definition loaded_by (s : session) (d : database) : screen :=
  fst (fetchTripData s "trip-1" d blank).

Definition loaded (d : database) : screen := loaded_by driver1 d.

Definition route1 : BusRoute.t :=
  BusRoute.mk "route-1" "R1" None (Some (BusRoute.mkbus "12" None)).

(** An admin of the school, whose screen lists the students, taps the row of
    the n-th student of the current stop on a freshly loaded screen. *)
Definition tap_student (n : nat) (db_now : timestamptz) (d : database)
  : database :=
  match studentsAtCurrentStop (loaded_by admin1 d) !! n with
  | Some st =>
      fst (press_student admin1 "trip-1" (loaded_by admin1 d) st db_now d)
  | None => d
  end.

Definition student1 : Student.t := Student.mk "S1" (Some "stop-1") false.

Definition stop1 : BusStop.t := BusStop.mk "stop-1" 1 None false false.

(** Two fixes of the same bus: [fix_late] was taken at 5000, [fix_early] at
    1000 (36.5 and 36.4 degrees of latitude, in units of 10^-8 degree). *)
Definition fix_late : Location.LocationObject :=
  Location.mk 3650000000 1010000000 (Some 1200) (Some 9000) (Some 500) 5000.

Definition fix_early : Location.LocationObject :=
  Location.mk 3640000000 1000000000 (Some 1100) (Some 9000) (Some 500) 1000.

(** The day after the driver has arrived at the first stop, and after the
    driver has then departed from it. *)
Definition day_arrived : database :=
  fst (press_stop_button driver1 "trip-1"
         (select_stop 0 (loaded (day in_progress))) 2000 (day in_progress)).

Definition day_departed : database :=
  fst (press_stop_button driver1 "trip-1" (select_stop 0 (loaded day_arrived))
         2001 day_arrived).

(** ** The status bar, and the screens of the viewers *)

(** The 'On Board' figure of the driver's status bar:
    students.filter((s) => s.boarded).length *)
Definition studentsOnBoard (scr : screen) : nat :=
  length (List.filter Student.boarded (students scr)).

(** getTimeAgo of the parent's bus screen, on Date.now() and the time of the
    timestamp, both in milliseconds.  Math.floor is the division of Z, the
    remainder of JavaScript is Z.rem. *)
Definition getTimeAgo (now_ms timestamp_ms : Z) : string :=
  let diff := now_ms - timestamp_ms in
  let minutes := diff / 60000 in
  if minutes <? 1 then "Just now"
  else if minutes <? 60 then pretty minutes +:+ " min ago"
  else
    let hours := minutes / 60 in
    pretty hours +:+ "h " +:+ pretty (Z.rem minutes 60) +:+ "m ago".

(** The trip query of the parent's bus screen:
    .eq('route_id', currentRouteId).eq('trip_date', today)
    .eq('trip_type', currentTripType).in('status', ['scheduled', 'in_progress'])
    .single() *)
Definition parent_trip_query (currentRouteId : uuid) (today : string)
  (currentTripType : trip_kind) (d : database) : option BusTrip.row :=
  single
    (List.filter
       (fun t => bool_decide (BusTrip.route_id t = currentRouteId)
                 && bool_decide (BusTrip.trip_date t = today)
                 && bool_decide (BusTrip.trip_type t = currentTripType)
                 && (bool_decide (BusTrip.status t = scheduled)
                     || bool_decide (BusTrip.status t = in_progress)))
       (bus_trips d)).

(** The count of the active stops of a route (stops_count). *)
Definition stops_count (d : database) (route_id : uuid) : nat :=
  length
    (List.filter
       (fun st => bool_decide (Stop.route_id st = route_id) && Stop.active st)
       (bus_stops d)).

(** fetchData of the parent's bus screen, from the assignment of the student
    to the activeTrip state (the trip with its stops_count); the route of the
    current direction is the embedded row of the assignment. *)
Definition parent_activeTrip (studentId : uuid) (today : string)
  (currentHour : Z) (d : database) : option (BusTrip.row * nat) :=
  let currentTripType := suggestedTripType currentHour in
  let assignmentData :=
    single
      (List.filter (fun a => bool_decide (Assignment.student_id a = studentId))
         (student_bus_assignments d)) in
  let currentRouteId :=
    a ← assignmentData ;
    rid ← (if bool_decide (currentTripType = morning)
           then Assignment.morning_route_id a
           else Assignment.afternoon_route_id a) ;
    Route.id <$> find_route d rid in
  rid ← currentRouteId ;
  tripData ← parent_trip_query rid today currentTripType d ;
  Some (tripData, stops_count d rid).

(** The admin's bus page, a server component: its queries run under the
    policies of the signed-in user.  The status column is text, so
    .order('status', { ascending: false }) lists by the text of the status,
    largest first: scheduled, in_progress, completed, cancelled. *)
Definition status_rank (st : trip_status) : Z :=
  match st with
  | scheduled => 3 | in_progress => 2 | completed => 1 | cancelled => 0
  end.

Fixpoint insert_by_status_desc (x : BusTrip.row) (l : list BusTrip.row)
  : list BusTrip.row :=
  match l with
  | [] => [x]
  | y :: l' =>
      if status_rank (BusTrip.status y) <=? status_rank (BusTrip.status x)
      then x :: y :: l'
      else y :: insert_by_status_desc x l'
  end.

(** The rows the first query of the page selects:
    .eq('trip_date', today).in('status', ['scheduled', 'in_progress']),
    among the rows of bus_trips the session sees. *)
Definition activeTrips_rows (s : session) (today : string) (d : database)
  : list BusTrip.row :=
  List.filter
    (fun t => bus_trips_select s t
              && bool_decide (BusTrip.trip_date t = today)
              && (bool_decide (BusTrip.status t = scheduled)
                  || bool_decide (BusTrip.status t = in_progress)))
    (bus_trips d).

(** .order('status', { ascending: false }): a list is a result of the query
    when it holds the selected rows with the status descending.  The order
    of the rows of one status is not determined. *)
Definition is_activeTrips (s : session) (today : string) (d : database)
  (activeTrips : list BusTrip.row) : Prop :=
  Permutation activeTrips (activeTrips_rows s today d)
  ∧ StronglySorted
      (fun a b =>
         status_rank (BusTrip.status b) <= status_rank (BusTrip.status a))
      activeTrips.

(** One result of the query: the selected rows, sorted by insertion. *)
Definition admin_activeTrips (s : session) (today : string) (d : database)
  : list BusTrip.row :=
  fold_right insert_by_status_desc [] (activeTrips_rows s today d).

Definition inProgressTrips (activeTrips : list BusTrip.row)
  : list BusTrip.row :=
  List.filter (fun t => bool_decide (BusTrip.status t = in_progress))
    activeTrips.

Definition scheduledTrips (activeTrips : list BusTrip.row)
  : list BusTrip.row :=
  List.filter (fun t => bool_decide (BusTrip.status t = scheduled))
    activeTrips.

(** inProgressTrips.reduce((sum, t) => sum + (t.students_on_board || 0), 0) *)
Definition totalStudentsOnBuses (activeTrips : list BusTrip.row) : Z :=
  fold_left (fun sum t => sum + BusTrip.students_on_board t)
    (inProgressTrips activeTrips) 0.

(** ** Vocabulary of the further statements *)

(** UNIQUE(route_id, trip_date, trip_type), as a property of the table. *)
Definition trip_key (t : BusTrip.row) : uuid * string * trip_kind :=
  (BusTrip.route_id t, BusTrip.trip_date t, BusTrip.trip_type t).

Definition trip_keys_unique (d : database) : Prop :=
  NoDup (List.map trip_key (bus_trips d)).

(** The row an UPDATE leaves in place of a row: the row itself, or the new
    row of a row the statement may touch. *)
Definition updated_row (s : session) (id : uuid)
  (set : BusTrip.row → result BusTrip.row) (o n : BusTrip.row) : Prop :=
  n = o ∨ (updatable s id o = true ∧ set o = Ok n).

(** What identifies a trip and what startTrip gave it: everything but the
    status, actual_end, the position snapshot, the stop pointer and the
    occupancy count. *)
Definition same_trip (o n : BusTrip.row) : Prop :=
  BusTrip.id n = BusTrip.id o
  ∧ BusTrip.school_id n = BusTrip.school_id o
  ∧ BusTrip.route_id n = BusTrip.route_id o
  ∧ BusTrip.bus_id n = BusTrip.bus_id o
  ∧ BusTrip.driver_id n = BusTrip.driver_id o
  ∧ BusTrip.trip_date n = BusTrip.trip_date o
  ∧ BusTrip.trip_type n = BusTrip.trip_type o
  ∧ BusTrip.scheduled_start n = BusTrip.scheduled_start o
  ∧ BusTrip.actual_start n = BusTrip.actual_start o.

(** [d'] comes from [d] by writes on behalf of trip [id]: the rows of
    bus_trips are the same rows in the same order, changed at most where the
    id is [id] and then only outside [same_trip]; the logs have grown at
    their end, the three trip logs by rows of trip [id]; the tables of the
    routes, buses, stops, assignments, students and guardians are as they
    were. *)
Record writes_to (id : uuid) (d d' : database) : Prop := mk_writes_to {
  wt_buses : buses d' = buses d;
  wt_bus_routes : bus_routes d' = bus_routes d;
  wt_bus_stops : bus_stops d' = bus_stops d;
  wt_assignments : student_bus_assignments d' = student_bus_assignments d;
  wt_bus_trips :
    Forall2 (fun o n => n = o ∨ (BusTrip.id o = id ∧ same_trip o n))
      (bus_trips d) (bus_trips d');
  wt_history :
    ∃ hs, bus_location_history d' = bus_location_history d ++ hs
          ∧ Forall (fun h => LocationFix.trip_id h = id) hs;
  wt_events :
    ∃ es, bus_stop_events d' = bus_stop_events d ++ es
          ∧ Forall (fun e => StopEvent.trip_id e = id) es;
  wt_scans :
    ∃ ss, student_bus_scans d' = student_bus_scans d ++ ss
          ∧ Forall (fun sc => Scan.trip_id sc = id) ss;
  wt_alerts :
    ∃ xs, bus_alerts d' = bus_alerts d ++ xs
          ∧ Forall (fun a => Alert.trip_id a = Some id) xs;
  wt_feed : ∃ fs, feed_items d' = feed_items d ++ fs;
  wt_students : school_students d' = school_students d;
  wt_guardians : student_guardians d' = student_guardians d }.

(** The row INSERT INTO bus_trips builds from a body whose bus_id is a UUID. *)
Definition trip_of_body (new_id bus_id : uuid) (body : TripInsert.t)
  : BusTrip.row :=
  BusTrip.mk new_id (TripInsert.school_id body) (TripInsert.route_id body)
    bus_id (TripInsert.driver_id body) (TripInsert.trip_date body)
    (TripInsert.trip_type body) (TripInsert.status body)
    (TripInsert.scheduled_start body) (TripInsert.actual_start body)
    None None None None None None 0 0.

(** The feed item of create_bus_feed_item for a trip, its route and its bus. *)
Definition feed_item_of_trip (NEW : BusTrip.row) (r : Route.row) (b : Bus.row)
  : FeedItem.row :=
  FeedItem.mk (BusTrip.school_id NEW)
    ("Bus " +:+ Bus.bus_number b +:+ " is on the way")
    (Some ("Route " +:+ Route.route_number r +:+ " (" +:+ Route.name r
           +:+ ") has started"))
    normal
    (trip_metadata (BusTrip.id NEW) (BusTrip.route_id NEW)
       (BusTrip.bus_id NEW) (BusTrip.trip_type NEW)).

(** The route and the bus of a request are rows the caller sees, one each. *)
Definition route_and_bus_seen (s : session) (d : database)
  (route_id bus_id : uuid) (r : Route.row) (b : Bus.row) : Prop :=
  List.filter
    (fun x => bus_routes_select s x && bool_decide (Route.id x = route_id))
    (bus_routes d) = [r]
  ∧ List.filter
      (fun x => buses_select s x && bool_decide (Bus.id x = bus_id))
      (buses d) = [b].

(** A well-formed body of an admin for the second route of the day. *)
Definition body2 (st : trip_status) : TripInsert.t :=
  TripInsert.mk "school-1" "route-1" (JString "bus-1") "driver-1"
    "2024-05-02" morning st None (Some 7000).

(** The trips of a day with one status that a session sees. *)
Definition trips_of_day (s : session) (today : string) (st : trip_status)
  (d : database) : list BusTrip.row :=
  List.filter
    (fun t => bus_trips_select s t
              && bool_decide (BusTrip.trip_date t = today)
              && bool_decide (BusTrip.status t = st))
    (bus_trips d).

(** A table with the trips of two schools on one day: trip-1 of school-1 in
    progress with nobody on board yet, a scheduled trip of school-1, and a
    trip of school-2 in progress with seven students on board. *)
Definition two_schools : database :=
  with_bus_trips
    [trip1 in_progress;
     BusTrip.mk "trip-9" "school-2" "route-9" "bus-9" "driver-9" "2024-05-01"
       morning in_progress None (Some 900) None None None None None None 2 7;
     BusTrip.mk "trip-3" "school-1" "route-3" "bus-3" "driver-3" "2024-05-01"
       morning scheduled None None None None None None None None 0 0]
    (day in_progress).

(** Two more days: a second trip of the same driver on another route, and a
    fix whose accuracy does not fit DECIMAL(6,2). *)
Definition trip2 (st : trip_status) : BusTrip.row :=
  BusTrip.mk "trip-2" "school-1" "route-2" "bus-1" "driver-1" "2024-05-01"
    morning st None (Some 1000) None None None None None None 0 0.

Definition two_trips : database :=
  with_bus_trips [trip1 in_progress; trip2 in_progress] (day in_progress).


Definition fix_vague : Location.LocationObject :=
  Location.mk 3650000000 1010000000 (Some 1200) (Some 9000) (Some 1500000) 5000.

(** The new row of a guarded SET clause: the guard held and the row is the
    one the clause builds. *)
Ltac guarded H :=
  cbn beta in H;
  match type of H with
  | context [guard ?b ?e] =>
      destruct b; cbn [guard bind] in H; [injection H as <-|discriminate H]
  end.

(** The fix log and the stop-event log of a trip. *)
Definition fix_log (d : database) (id : uuid) : list LocationFix.row :=
  List.filter (fun h => bool_decide (LocationFix.trip_id h = id))
    (bus_location_history d).

Definition event_log (d : database) (id : uuid) : list StopEvent.row :=
  List.filter (fun e => bool_decide (StopEvent.trip_id e = id))
    (bus_stop_events d).

(** Decide the equations between constants that stand under bool_decide. *)
Ltac decide_consts :=
  repeat match goal with
         | |- context [bool_decide (?a = ?b)] =>
             first [ rewrite (bool_decide_eq_true_2 (a = b)) by done
                   | rewrite (bool_decide_eq_false_2 (a = b)) by done ]
         end.

(** ** Facts about statements *)

Lemma update_where_ok hit set set' ts :
  (∀ t, In t ts → hit t = true → set t = Ok (set' t)) →
  update_where hit set ts
  = Ok (List.map (fun t => if hit t then set' t else t) ts,
        List.map (fun t => (t, set' t)) (List.filter hit ts)).
Proof.
  induction ts as [|t ts IH]; intros Hset; [reflexivity|].
  cbn [update_where List.map List.filter].
  rewrite IH by (intros; apply Hset; [right|]; assumption).
  destruct (hit t) eqn:Hh.
  - rewrite (Hset t (or_introl eq_refl) Hh). reflexivity.
  - reflexivity.
Qed.

Lemma create_bus_feed_item_skip s o n d :
  feed_trigger_fires o n = false →
  create_bus_feed_item s (Some o) n d = Ok d.
Proof.
  unfold feed_trigger_fires, create_bus_feed_item. intros ->. reflexivity.
Qed.

Lemma fire_skip s changed d :
  (∀ o n, In (o, n) changed → feed_trigger_fires o n = false) →
  fire_on_bus_trip_status_change s changed d = Ok d.
Proof.
  induction changed as [|[o n] rest IH]; intros H; [reflexivity|].
  cbn [fire_on_bus_trip_status_change].
  rewrite create_bus_feed_item_skip by (apply H; left; reflexivity).
  cbn [bind]. apply IH. intros; apply H; right; assumption.
Qed.

Lemma update_bus_trips_ok s id set set' d :
  (∀ t, In t (bus_trips d) → updatable s id t = true → set t = Ok (set' t)) →
  (∀ t, In t (bus_trips d) → updatable s id t = true →
        feed_trigger_fires t (set' t) = false) →
  update_bus_trips s id set d
  = Ok (with_bus_trips
          (List.map (fun t => if updatable s id t then set' t else t)
             (bus_trips d)) d).
Proof.
  intros Hset Hquiet. unfold update_bus_trips.
  rewrite (update_where_ok _ _ set') by assumption.
  cbn [bind fst snd]. apply fire_skip.
  intros o n Hin. apply in_map_iff in Hin as (t & [= <- <-] & Hin).
  apply filter_In in Hin as [Hin Hh]. auto.
Qed.

Lemma bus_trips_select_school s t :
  bus_trips_select s t = same_school s (BusTrip.school_id t).
Proof.
  unfold bus_trips_select, bus_trips_driver, bus_trips_driver_on, bus_trips_view.
  destruct (same_school s (BusTrip.school_id t)); cbn [andb orb];
    [apply orb_true_r|reflexivity].
Qed.

(** The policy of the event tables admits a trip id exactly when the session
    may update a row of bus_trips with that id. *)
Lemma trip_writer_updatable s d id :
  trip_writer s d id = existsb (updatable s id) (bus_trips d).
Proof.
  unfold trip_writer. induction (bus_trips d) as [|t ts IH]; [reflexivity|].
  cbn [List.filter existsb]. rewrite bus_trips_select_school.
  unfold updatable at 1, bus_trips_driver, bus_trips_driver_on.
  destruct (same_school s (BusTrip.school_id t)); cbn [existsb].
  - rewrite IH. reflexivity.
  - rewrite IH. rewrite andb_false_r. reflexivity.
Qed.

Lemma find_trip_some d id t :
  find_trip d id = Some t → In t (bus_trips d) ∧ BusTrip.id t = id.
Proof.
  intros H. apply find_some in H as [Hin Hid].
  apply bool_decide_eq_true in Hid. auto.
Qed.

Lemma find_trip_writer s d id t :
  find_trip d id = Some t → bus_trips_driver s t = true →
  trip_writer s d id = true.
Proof.
  intros Hf Hp. apply find_trip_some in Hf as [Hin Hid].
  rewrite trip_writer_updatable. apply existsb_exists. exists t. split; [done|].
  unfold updatable. rewrite Hp, bool_decide_eq_true_2 by done. reflexivity.
Qed.

Lemma find_trip_exists d id t :
  find_trip d id = Some t → trip_exists d id = true.
Proof.
  intros Hf. apply find_trip_some in Hf as [Hin Hid].
  apply existsb_exists. exists t. split; [done|].
  by apply bool_decide_eq_true_2.
Qed.

(** An update touches the first row with the id when the policy admits it. *)
Lemma find_trip_map s id g d d' t :
  (∀ x, BusTrip.id (g x) = BusTrip.id x) →
  bus_trips d' = List.map (fun x => if updatable s id x then g x else x)
                   (bus_trips d) →
  find_trip d id = Some t → bus_trips_driver s t = true →
  find_trip d' id = Some (g t).
Proof.
  intros Hg Hd'. unfold find_trip. rewrite Hd'. clear Hd'.
  induction (bus_trips d) as [|x xs IH]; [discriminate|].
  cbn [List.find List.map]. intros Hf Hp.
  destruct (bool_decide (BusTrip.id x = id)) eqn:Hid.
  - injection Hf as ->. unfold updatable. rewrite Hid, Hp. cbn [andb].
    rewrite Hg, Hid. reflexivity.
  - assert (Hu : updatable s id x = false) by (unfold updatable; by rewrite Hid).
    rewrite Hu, Hid. by apply IH.
Qed.

Lemma find_trip_map_other s id id' g d d' :
  (∀ x, BusTrip.id (g x) = BusTrip.id x) →
  bus_trips d' = List.map (fun x => if updatable s id x then g x else x)
                   (bus_trips d) →
  id' ≠ id → find_trip d' id' = find_trip d id'.
Proof.
  intros Hg Hd' Hne. unfold find_trip. rewrite Hd'. clear Hd'.
  induction (bus_trips d) as [|x xs IH]; [reflexivity|].
  cbn [List.find List.map].
  destruct (updatable s id x) eqn:Hu.
  - rewrite Hg. apply andb_prop in Hu as [Hid _].
    apply bool_decide_eq_true in Hid.
    rewrite !bool_decide_eq_false_2 by congruence. apply IH.
  - destruct (bool_decide (BusTrip.id x = id')); [reflexivity|apply IH].
Qed.

(** *** The signed sum of the occupancy trigger *)

Lemma coalesce_sql_sum zs : coalesce (sql_sum zs) 0 = fold_right Z.add 0 zs.
Proof. destruct zs; reflexivity. Qed.

Lemma sum_scan_delta l :
  fold_right Z.add 0 (List.map scan_delta l)
  = count_scans board l - count_scans exit l.
Proof.
  unfold count_scans. induction l as [|sc l IH]; [reflexivity|].
  cbn [List.map fold_right List.filter]. rewrite IH. unfold scan_delta.
  destruct (Scan.scan_type sc); cbn [bool_decide decide_rel]; simpl length; lia.
Qed.

Lemma count_scans_bounds k l : 0 <= count_scans k l <= Z.of_nat (length l).
Proof.
  unfold count_scans. split; [lia|].
  apply inj_le. induction l as [|sc l IH]; [done|].
  cbn [List.filter]. destruct (bool_decide _); simpl; lia.
Qed.

Lemma scan_log_length d id :
  (length (scan_log d id) <= length (student_bus_scans d))%nat.
Proof.
  unfold scan_log. induction (student_bus_scans d) as [|sc l IH]; [done|].
  cbn [List.filter]. destruct (bool_decide _); simpl; lia.
Qed.

Lemma scans_of_trip_log s d id :
  trip_writer s d id = true → scans_of_trip s d id = scan_log d id.
Proof.
  intros Hw. unfold scans_of_trip, scan_log. apply filter_ext_in.
  intros sc _. destruct (bool_decide (Scan.trip_id sc = id)) eqn:E.
  - apply bool_decide_eq_true in E. rewrite E, Hw. reflexivity.
  - apply andb_false_r.
Qed.

Lemma scan_log_snoc d id sc :
  scan_log (with_student_bus_scans (student_bus_scans d ++ [sc]) d) id
  = scan_log d id ++ (if bool_decide (Scan.trip_id sc = id) then [sc] else []).
Proof.
  unfold scan_log. cbn [student_bus_scans with_student_bus_scans].
  rewrite List.filter_app. reflexivity.
Qed.

Lemma same_status_quiet t t' :
  BusTrip.status t' = BusTrip.status t → feed_trigger_fires t t' = false.
Proof.
  unfold feed_trigger_fires. intros ->. by destruct (BusTrip.status t).
Qed.

Lemma int4_small z : -2147483647 <= z <= 2147483647 → int4 z = true.
Proof. unfold int4. intros. apply andb_true_intro. split; lia. Qed.

Lemma signed_count_bounds d id :
  - Z.of_nat (length (student_bus_scans d)) <= signed_count d id
  <= Z.of_nat (length (student_bus_scans d)).
Proof.
  unfold signed_count.
  pose proof (count_scans_bounds board (scan_log d id)).
  pose proof (count_scans_bounds exit (scan_log d id)).
  pose proof (scan_log_length d id). lia.
Qed.

(** *** INSERT INTO student_bus_scans by a session the policies admit *)

Lemma insert_student_bus_scans_ok s NEW d t :
  find_trip d (Scan.trip_id NEW) = Some t →
  bus_trips_driver s t = true →
  match Scan.stop_id NEW with
  | None => true
  | Some sid => stop_exists d sid
  end = true →
  Z.of_nat (length (student_bus_scans d)) < 2147483647 →
  insert_student_bus_scans s NEW d
  = Ok (with_bus_trips
          (List.map
             (fun x =>
                if updatable s (Scan.trip_id NEW) x
                then set_students_on_board
                       (signed_count
                          (with_student_bus_scans
                             (student_bus_scans d ++ [NEW]) d)
                          (Scan.trip_id NEW)) x
                else x)
             (bus_trips d))
          (with_student_bus_scans (student_bus_scans d ++ [NEW]) d)).
Proof.
  intros Hf Hp Hstop Hlen. unfold insert_student_bus_scans.
  rewrite (find_trip_writer _ _ _ _ Hf Hp), (find_trip_exists _ _ _ Hf), Hstop.
  cbn [guard bind]. unfold update_trip_student_count.
  set (d1 := with_student_bus_scans _ d).
  assert (Hw : trip_writer s d1 (Scan.trip_id NEW) = true)
    by exact (find_trip_writer _ _ _ _ Hf Hp).
  rewrite (scans_of_trip_log _ _ _ Hw), coalesce_sql_sum, sum_scan_delta.
  fold (signed_count d1 (Scan.trip_id NEW)).
  assert (Hint : int4 (signed_count d1 (Scan.trip_id NEW)) = true).
  { apply int4_small. pose proof (signed_count_bounds d1 (Scan.trip_id NEW)) as B.
    assert (L : length (student_bus_scans d1)
                = (length (student_bus_scans d) + 1)%nat)
      by (unfold d1; cbn [student_bus_scans with_student_bus_scans];
          apply length_app).
    rewrite L in B. lia. }
  rewrite (update_bus_trips_ok _ _ _
             (set_students_on_board (signed_count d1 (Scan.trip_id NEW)))).
  - reflexivity.
  - intros x _ _. rewrite Hint. reflexivity.
  - intros x _ _. by apply same_status_quiet.
Qed.

Lemma stops_known_at d scr :
  stops_known d scr = true →
  match BusStop.id <$> stops_at (stops scr) (currentStopIndex scr) with
  | None => true
  | Some sid => stop_exists d sid
  end = true.
Proof.
  intros Hk. unfold stops_at. destruct (currentStopIndex scr <? 0); [done|].
  destruct (stops scr !! Z.to_nat (currentStopIndex scr)) as [st|] eqn:E; [|done].
  cbn. unfold stops_known in Hk. rewrite forallb_forall in Hk. apply Hk.
  apply list_elem_of_In. by eapply list_elem_of_lookup_2.
Qed.

(** What handleScanStudent does for a session that may write to the trip. *)
Lemma handleScanStudent_effect s id scr student k db_now d t :
  find_trip d id = Some t →
  bus_trips_driver s t = true →
  stops_known d scr = true →
  Z.of_nat (length (student_bus_scans d)) < 2147483647 →
  let d' := fst (handleScanStudent s id scr student k db_now d) in
  student_bus_scans d'
  = student_bus_scans d ++ [scan_sent id scr student k db_now]
  ∧ find_trip d' id = Some (set_students_on_board (signed_count d' id) t)
  ∧ bus_stop_events d' = bus_stop_events d
  ∧ bus_location_history d' = bus_location_history d
  ∧ bus_stops d' = bus_stops d
  ∧ (∀ id', id' ≠ id → find_trip d' id' = find_trip d id').
Proof.
  intros Hf Hp Hk Hlen. unfold handleScanStudent. cbn [fst].
  fold (scan_sent id scr student k db_now).
  rewrite (insert_student_bus_scans_ok s _ d t); try assumption;
    [|by apply stops_known_at].
  cbn [attempt Scan.trip_id scan_sent].
  set (d1 := with_student_bus_scans _ d).
  set (d' := with_bus_trips _ d1).
  assert (Hc : signed_count d' id = signed_count d1 id) by reflexivity.
  repeat split; try reflexivity.
  - rewrite Hc.
    apply (find_trip_map s id (set_students_on_board (signed_count d1 id)) d);
      done.
  - intros id' Hne.
    by apply (find_trip_map_other s id id'
                (set_students_on_board (signed_count d1 id)) d).
Qed.

Lemma set_students_on_board_policy s n t :
  bus_trips_driver s (set_students_on_board n t) = bus_trips_driver s t.
Proof. reflexivity. Qed.

Lemma stops_known_frame d d' scr :
  bus_stops d' = bus_stops d → stops_known d' scr = stops_known d scr.
Proof. unfold stops_known, stop_exists. intros ->. reflexivity. Qed.

(** ** C1: the occupancy count *)

(** C1 (amended).  When a session that may write to the trip records a scan,
    the scan is appended and the trigger sets students_on_board of the trip to
    count(board events) - count(exit events) over the trip's full scan log.
    The value is not clamped: it is non-negative exactly when the log holds
    at least as many board events as exit events. *)
Theorem students_on_board_is_signed_count s id scr student k db_now d t :
  find_trip d id = Some t →
  bus_trips_driver s t = true →
  stops_known d scr = true →
  Z.of_nat (length (student_bus_scans d)) < 2147483647 →
  ∃ t',
    find_trip (fst (handleScanStudent s id scr student k db_now d)) id = Some t'
    ∧ BusTrip.students_on_board t'
      = count_scans board
          (scan_log (fst (handleScanStudent s id scr student k db_now d)) id)
        - count_scans exit
            (scan_log (fst (handleScanStudent s id scr student k db_now d)) id)
    ∧ (0 <= BusTrip.students_on_board t'
       ↔ count_scans exit
           (scan_log (fst (handleScanStudent s id scr student k db_now d)) id)
         <= count_scans board
              (scan_log (fst (handleScanStudent s id scr student k db_now d))
                 id)).
Proof.
  intros Hf Hp Hk Hlen.
  destruct (handleScanStudent_effect s id scr student k db_now d t Hf Hp Hk Hlen)
    as (_ & Hfind & _).
  eexists. split; [exact Hfind|].
  cbn [BusTrip.students_on_board set_students_on_board].
  unfold signed_count. split; [reflexivity|lia].
Qed.

Lemma students_on_board_is_signed_count_witness :
  ∃ t',
    find_trip
      (fst (handleScanStudent driver1 "trip-1" (loaded (day in_progress))
              student1 exit 2000 (day in_progress))) "trip-1" = Some t'
    ∧ BusTrip.students_on_board t'
      = count_scans board
          (scan_log
             (fst (handleScanStudent driver1 "trip-1" (loaded (day in_progress))
                     student1 exit 2000 (day in_progress))) "trip-1")
        - count_scans exit
            (scan_log
               (fst (handleScanStudent driver1 "trip-1"
                       (loaded (day in_progress)) student1 exit 2000
                       (day in_progress))) "trip-1")
    ∧ (0 <= BusTrip.students_on_board t'
       ↔ count_scans exit
           (scan_log
              (fst (handleScanStudent driver1 "trip-1"
                      (loaded (day in_progress)) student1 exit 2000
                      (day in_progress))) "trip-1")
         <= count_scans board
              (scan_log
                 (fst (handleScanStudent driver1 "trip-1"
                         (loaded (day in_progress)) student1 exit 2000
                         (day in_progress))) "trip-1")).
Proof.
  apply (students_on_board_is_signed_count driver1 "trip-1"
           (loaded (day in_progress)) student1 exit 2000 (day in_progress)
           (trip1 in_progress)).
  - reflexivity.
  - reflexivity.
  - reflexivity.
  - simpl. lia.
Defined.

(** C1 (counterexample).  An admin of the school, whose trip screen lists the
    students, taps the same student three times, the screen reloading in
    between: the taps record board, exit, exit (a student with a board scan
    stays 'On Bus'), and students_on_board of the trip is -1, below 0 and not
    the clamped value 0. *)
Lemma students_on_board_negative :
  let d3 :=
    tap_student 0 2002 (tap_student 0 2001 (tap_student 0 2000 (day in_progress)))
  in
  List.map Scan.scan_type (scan_log d3 "trip-1") = [board; exit; exit]
  ∧ ∃ t, find_trip d3 "trip-1" = Some t
         ∧ BusTrip.students_on_board t = -1
         ∧ ¬ (0 <= BusTrip.students_on_board t)
         ∧ BusTrip.students_on_board t
           ≠ Z.max 0 (count_scans board (scan_log d3 "trip-1")
                      - count_scans exit (scan_log d3 "trip-1")).
Proof.
  cbv zeta. split; [vm_compute; reflexivity|].
  eexists. split; [vm_compute; reflexivity|].
  split; [reflexivity|]. split; [cbn; lia|]. vm_compute. discriminate.
Qed.

(** ** C2: repeated scans *)

Lemma count_scans_app k l1 l2 :
  count_scans k (l1 ++ l2) = count_scans k l1 + count_scans k l2.
Proof. unfold count_scans. rewrite List.filter_app, length_app. lia. Qed.

Lemma signed_count_snoc d d' id e :
  student_bus_scans d' = student_bus_scans d ++ [e] →
  Scan.trip_id e = id →
  signed_count d' id = signed_count d id + scan_delta e.
Proof.
  intros Hs He. unfold signed_count, scan_log. rewrite Hs, List.filter_app.
  cbn [List.filter]. rewrite bool_decide_eq_true_2 by done.
  rewrite !count_scans_app.
  assert (H1 : ∀ k, count_scans k [e]
                    = if bool_decide (Scan.scan_type e = k) then 1 else 0).
  { intros k. unfold count_scans. cbn [List.filter].
    by destruct (bool_decide (Scan.scan_type e = k)). }
  rewrite !H1. unfold scan_delta.
  destruct (Scan.scan_type e); cbn [bool_decide decide_rel]; simpl; lia.
Qed.

(** C2 (amended).  Calling handleScanStudent twice in succession with the same
    type for the same student is not idempotent: both calls return without an
    error dialog, each appends its own scan event, and the second moves
    students_on_board by one more (+1 for board, -1 for exit). *)
Theorem repeated_scan_appends_again s id scr1 scr2 student k now1 now2 d t :
  find_trip d id = Some t →
  bus_trips_driver s t = true →
  stops_known d scr1 = true →
  stops_known d scr2 = true →
  Z.of_nat (length (student_bus_scans d)) + 1 < 2147483647 →
  ∃ t1 t2,
    snd (handleScanStudent s id scr1 student k now1 d) = quiet
    ∧ snd (handleScanStudent s id scr2 student k now2
             (fst (handleScanStudent s id scr1 student k now1 d))) = quiet
    ∧ student_bus_scans
        (fst (handleScanStudent s id scr2 student k now2
                (fst (handleScanStudent s id scr1 student k now1 d))))
      = student_bus_scans d
        ++ [scan_sent id scr1 student k now1; scan_sent id scr2 student k now2]
    ∧ find_trip (fst (handleScanStudent s id scr1 student k now1 d)) id
      = Some t1
    ∧ find_trip
        (fst (handleScanStudent s id scr2 student k now2
                (fst (handleScanStudent s id scr1 student k now1 d)))) id
      = Some t2
    ∧ BusTrip.students_on_board t2
      = BusTrip.students_on_board t1
        + match k with board => 1 | exit => -1 end.
Proof.
  intros Hf Hp Hk1 Hk2 Hlen.
  destruct (handleScanStudent_effect s id scr1 student k now1 d t Hf Hp Hk1)
    as (Hs1 & Hf1 & _ & _ & Hst1 & _); [lia|].
  set (d1 := fst (handleScanStudent s id scr1 student k now1 d)) in *.
  destruct (handleScanStudent_effect s id scr2 student k now2 d1 _ Hf1)
    as (Hs2 & Hf2 & _).
  - rewrite set_students_on_board_policy. exact Hp.
  - rewrite (stops_known_frame d d1) by exact Hst1. exact Hk2.
  - rewrite Hs1, length_app. simpl length. lia.
  - set (d2 := fst (handleScanStudent s id scr2 student k now2 d1)) in *.
    eexists _, _. split; [reflexivity|]. split; [reflexivity|].
    split; [rewrite Hs2, Hs1, <- app_assoc; reflexivity|].
    split; [exact Hf1|]. split; [exact Hf2|].
    cbn [BusTrip.students_on_board set_students_on_board].
    rewrite (signed_count_snoc d1 d2 id _ Hs2) by reflexivity.
    unfold scan_delta. cbn [Scan.scan_type scan_sent]. by destruct k.
Qed.

Lemma repeated_scan_appends_again_witness :
  ∃ t1 t2,
    snd (handleScanStudent driver1 "trip-1" (loaded (day in_progress))
           student1 board 2000 (day in_progress)) = quiet
    ∧ snd (handleScanStudent driver1 "trip-1" (loaded (day in_progress))
             student1 board 2001
             (fst (handleScanStudent driver1 "trip-1"
                     (loaded (day in_progress)) student1 board 2000
                     (day in_progress)))) = quiet
    ∧ student_bus_scans
        (fst (handleScanStudent driver1 "trip-1" (loaded (day in_progress))
                student1 board 2001
                (fst (handleScanStudent driver1 "trip-1"
                        (loaded (day in_progress)) student1 board 2000
                        (day in_progress)))))
      = student_bus_scans (day in_progress)
        ++ [scan_sent "trip-1" (loaded (day in_progress)) student1 board 2000;
            scan_sent "trip-1" (loaded (day in_progress)) student1 board 2001]
    ∧ find_trip
        (fst (handleScanStudent driver1 "trip-1" (loaded (day in_progress))
                student1 board 2000 (day in_progress))) "trip-1"
      = Some t1
    ∧ find_trip
        (fst (handleScanStudent driver1 "trip-1" (loaded (day in_progress))
                student1 board 2001
                (fst (handleScanStudent driver1 "trip-1"
                        (loaded (day in_progress)) student1 board 2000
                        (day in_progress))))) "trip-1"
      = Some t2
    ∧ BusTrip.students_on_board t2 = BusTrip.students_on_board t1 + 1.
Proof.
  apply (repeated_scan_appends_again driver1 "trip-1"
           (loaded (day in_progress)) (loaded (day in_progress)) student1
           board 2000 2001 (day in_progress) (trip1 in_progress)).
  - reflexivity.
  - reflexivity.
  - reflexivity.
  - reflexivity.
  - simpl. lia.
Defined.

(** C2 (counterexample).  Two board scans in succession for the same student:
    the log holds two board events of that student and students_on_board goes
    from 1 to 2. *)
Lemma repeated_scan_is_not_idempotent :
  let d1 :=
    fst (handleScanStudent driver1 "trip-1" (loaded (day in_progress))
           student1 board 2000 (day in_progress)) in
  let r2 :=
    handleScanStudent driver1 "trip-1" (loaded d1) student1 board 2001 d1 in
  snd r2 = quiet
  ∧ List.map (fun sc => (Scan.student_id sc, Scan.scan_type sc))
      (scan_log (fst r2) "trip-1") = [("S1", board); ("S1", board)]
  ∧ length (scan_log (fst r2) "trip-1") ≠ length (scan_log d1 "trip-1")
  ∧ BusTrip.students_on_board <$> find_trip d1 "trip-1" = Some 1
  ∧ BusTrip.students_on_board <$> find_trip (fst r2) "trip-1" = Some 2.
Proof.
  cbv zeta. repeat split; try (vm_compute; reflexivity).
  vm_compute. discriminate.
Qed.

(** ** Stop events, the stop pointer, telemetry and the end of a trip *)

Lemma insert_bus_stop_events_ok s NEW d t :
  find_trip d (StopEvent.trip_id NEW) = Some t →
  bus_trips_driver s t = true →
  stop_exists d (StopEvent.stop_id NEW) = true →
  int4 (StopEvent.students_boarded NEW) = true →
  int4 (StopEvent.students_exited NEW) = true →
  insert_bus_stop_events s NEW d
  = Ok (with_bus_stop_events (bus_stop_events d ++ [NEW]) d).
Proof.
  intros Hf Hp Hstop Hb He. unfold insert_bus_stop_events.
  rewrite Hb, He, (find_trip_writer _ _ _ _ Hf Hp), (find_trip_exists _ _ _ Hf),
    Hstop. reflexivity.
Qed.

(** Whether it is accepted or refused, the statement appends at most the one
    row and touches no other table. *)
Lemma insert_bus_stop_events_cases s NEW d :
  attempt (insert_bus_stop_events s NEW d) d = d
  ∨ attempt (insert_bus_stop_events s NEW d) d
    = with_bus_stop_events (bus_stop_events d ++ [NEW]) d.
Proof.
  unfold insert_bus_stop_events.
  repeat match goal with
         | |- context [guard ?b ?e] => destruct b; cbn [guard bind attempt]
         end; auto.
Qed.

Lemma insert_bus_stop_events_bus_trips s NEW d :
  bus_trips (attempt (insert_bus_stop_events s NEW d) d) = bus_trips d.
Proof.
  destruct (insert_bus_stop_events_cases s NEW d) as [-> | ->]; reflexivity.
Qed.

Lemma find_trip_frame d d' id :
  bus_trips d' = bus_trips d → find_trip d' id = find_trip d id.
Proof. unfold find_trip. intros ->. reflexivity. Qed.

(** The UPDATE of handleArriveAtStop, on any database. *)
Lemma update_current_stop_index_ok s id n d :
  int4 n = true →
  update_bus_trips s id
    (fun t => _ ←r guard (int4 n) numeric_value_out_of_range ;
              Ok (set_current_stop_index n t)) d
  = Ok (with_bus_trips
          (List.map
             (fun x => if updatable s id x then set_current_stop_index n x
                       else x) (bus_trips d)) d).
Proof.
  intros Hn. apply update_bus_trips_ok.
  - intros x _ _. rewrite Hn. reflexivity.
  - intros x _ _. by apply same_status_quiet.
Qed.

Lemma handleArriveAtStop_trip s id stop db_now d t :
  find_trip d id = Some t →
  bus_trips_driver s t = true →
  int4 (BusStop.stop_number stop) = true →
  find_trip (fst (handleArriveAtStop s id stop db_now d)) id
  = Some (set_current_stop_index (BusStop.stop_number stop) t).
Proof.
  intros Hf Hp Hn. unfold handleArriveAtStop. cbn [fst].
  set (d1 := attempt (insert_bus_stop_events _ _ d) d).
  assert (H1 : bus_trips d1 = bus_trips d)
    by apply insert_bus_stop_events_bus_trips.
  rewrite update_current_stop_index_ok by exact Hn. cbn [attempt].
  apply (find_trip_map s id
           (set_current_stop_index (BusStop.stop_number stop)) d1);
    [done|done| |done].
  by rewrite (find_trip_frame d d1).
Qed.

Lemma handleArriveAtStop_events s id stop db_now d t :
  find_trip d id = Some t →
  bus_trips_driver s t = true →
  stop_exists d (BusStop.id stop) = true →
  int4 (BusStop.stop_number stop) = true →
  bus_stop_events (fst (handleArriveAtStop s id stop db_now d))
  = bus_stop_events d
    ++ [StopEvent.mk id (BusStop.id stop) arrived
          (BusStop.scheduled_time stop) db_now 0 0].
Proof.
  intros Hf Hp Hs Hn. unfold handleArriveAtStop. cbn [fst].
  rewrite (insert_bus_stop_events_ok s _ d t) by done. cbn [attempt].
  rewrite update_current_stop_index_ok by exact Hn. reflexivity.
Qed.

Lemma handleDepartFromStop_events s id stop b e db_now d t :
  find_trip d id = Some t →
  bus_trips_driver s t = true →
  stop_exists d (BusStop.id stop) = true →
  int4 b = true → int4 e = true →
  bus_stop_events (fst (handleDepartFromStop s id stop b e db_now d))
  = bus_stop_events d
    ++ [StopEvent.mk id (BusStop.id stop) departed None db_now b e].
Proof.
  intros Hf Hp Hs Hb He. unfold handleDepartFromStop. cbn [fst].
  rewrite (insert_bus_stop_events_ok s _ d t) by done. reflexivity.
Qed.

Lemma handleEndTrip_eq s id now d :
  fst (handleEndTrip s id now d)
  = with_bus_trips
      (List.map (fun x => if updatable s id x then set_completed now x else x)
         (bus_trips d)) d.
Proof.
  unfold handleEndTrip. cbn [fst].
  rewrite (update_bus_trips_ok _ _ _ (set_completed now)); [reflexivity|done|].
  intros x _ _. reflexivity.
Qed.

Lemma updateLocation_effect s id location now db_now d t :
  find_trip d id = Some t →
  bus_trips_driver s t = true →
  fix_fits location = true →
  bus_location_history (updateLocation s id location now db_now d)
  = bus_location_history d ++ [fix_sent id location db_now]
  ∧ find_trip (updateLocation s id location now db_now d) id
    = Some (snapshot_of location now t)
  ∧ bus_stop_events (updateLocation s id location now db_now d)
    = bus_stop_events d
  ∧ student_bus_scans (updateLocation s id location now db_now d)
    = student_bus_scans d.
Proof.
  intros Hf Hp Hfit. unfold fix_fits in Hfit.
  apply andb_prop in Hfit as [Hfit Hacc].
  unfold updateLocation. fold (fix_sent id location db_now).
  rewrite (update_bus_trips_ok _ _ _ (snapshot_of location now)).
  2:{ intros x _ _. rewrite Hfit. reflexivity. }
  2:{ intros x _ _. by apply same_status_quiet. }
  cbn [attempt]. set (d1 := with_bus_trips _ d).
  assert (Hf1 : find_trip d1 id = Some (snapshot_of location now t))
    by (by apply (find_trip_map s id (snapshot_of location now) d)).
  unfold insert_bus_location_history.
  cbn [fix_sent LocationFix.latitude LocationFix.longitude LocationFix.speed
       LocationFix.heading LocationFix.accuracy LocationFix.trip_id].
  rewrite Hfit, Hacc, (find_trip_writer s d1 id _ Hf1 Hp),
    (find_trip_exists _ _ _ Hf1).
  cbn [andb guard bind attempt]. repeat split; try reflexivity.
  exact Hf1.
Qed.

(** ** C5: the stop pointer *)

(** C5 (amended).  handleArriveAtStop sets current_stop_index of the trip to
    the stop_number of the stop it is given, whatever the current value: the
    pointer does not go down across the call exactly when that stop_number is
    at least the current value, and nothing keeps it from going down. *)
Theorem arrival_sets_current_stop_index s id stop db_now d t :
  find_trip d id = Some t →
  bus_trips_driver s t = true →
  int4 (BusStop.stop_number stop) = true →
  ∃ t',
    find_trip (fst (handleArriveAtStop s id stop db_now d)) id = Some t'
    ∧ BusTrip.current_stop_index t' = BusStop.stop_number stop
    ∧ (BusTrip.current_stop_index t <= BusTrip.current_stop_index t'
       ↔ BusTrip.current_stop_index t <= BusStop.stop_number stop).
Proof.
  intros Hf Hp Hn. eexists. split.
  - by apply handleArriveAtStop_trip.
  - cbn [BusTrip.current_stop_index set_current_stop_index]. split; [done|lia].
Qed.

Lemma arrival_sets_current_stop_index_witness :
  ∃ t',
    find_trip
      (fst (handleArriveAtStop driver1 "trip-1"
              (BusStop.mk "stop-2" 2 None false false) 2000 (day in_progress)))
      "trip-1" = Some t'
    ∧ BusTrip.current_stop_index t' = 2
    ∧ (BusTrip.current_stop_index (trip1 in_progress)
       <= BusTrip.current_stop_index t'
       ↔ BusTrip.current_stop_index (trip1 in_progress) <= 2).
Proof.
  apply (arrival_sets_current_stop_index driver1 "trip-1"
           (BusStop.mk "stop-2" 2 None false false) 2000 (day in_progress)
           (trip1 in_progress)); reflexivity.
Defined.

(** C5 (counterexample).  The driver selects the third stop and arrives, then
    selects the first stop and arrives: current_stop_index goes from 3 down
    to 1. *)
Lemma current_stop_index_decreases :
  let d1 :=
    fst (press_stop_button driver1 "trip-1"
           (select_stop 2 (loaded (day in_progress))) 2000 (day in_progress)) in
  let d2 :=
    fst (press_stop_button driver1 "trip-1" (select_stop 0 (loaded d1)) 2001 d1)
  in
  List.map (fun e => (StopEvent.stop_id e, StopEvent.event_type e))
    (bus_stop_events d2) = [("stop-3", arrived); ("stop-1", arrived)]
  ∧ ∃ t1 t2,
      find_trip d1 "trip-1" = Some t1 ∧ find_trip d2 "trip-1" = Some t2
      ∧ BusTrip.current_stop_index t1 = 3
      ∧ BusTrip.current_stop_index t2 = 1
      ∧ ¬ (BusTrip.current_stop_index t1 <= BusTrip.current_stop_index t2).
Proof.
  cbv zeta. split; [vm_compute; reflexivity|].
  eexists _, _. split; [vm_compute; reflexivity|].
  split; [vm_compute; reflexivity|].
  split; [reflexivity|]. split; [reflexivity|]. cbn. lia.
Qed.

(** ** C7: the end of a trip *)

(** C7 (amended).  handleEndTrip on an in_progress trip sets status to
    completed and actual_end to the device's current time.  It appends no
    stop event: the stop-event log is the same before and after, so a stop
    that never received an arrival stays without a terminal event. *)
Theorem endTrip_completes_and_logs_nothing s id now d t :
  find_trip d id = Some t →
  bus_trips_driver s t = true →
  BusTrip.status t = in_progress →
  ∃ t',
    find_trip (fst (handleEndTrip s id now d)) id = Some t'
    ∧ BusTrip.status t' = completed
    ∧ BusTrip.actual_end t' = Some now
    ∧ bus_stop_events (fst (handleEndTrip s id now d)) = bus_stop_events d.
Proof.
  intros Hf Hp _. rewrite handleEndTrip_eq. eexists. split.
  - by apply (find_trip_map s id (set_completed now) d).
  - repeat split.
Qed.

Lemma endTrip_completes_and_logs_nothing_witness :
  ∃ t',
    find_trip (fst (handleEndTrip driver1 "trip-1" 9000 (day in_progress)))
      "trip-1" = Some t'
    ∧ BusTrip.status t' = completed
    ∧ BusTrip.actual_end t' = Some 9000
    ∧ bus_stop_events (fst (handleEndTrip driver1 "trip-1" 9000
                              (day in_progress)))
      = bus_stop_events (day in_progress).
Proof.
  apply (endTrip_completes_and_logs_nothing driver1 "trip-1" 9000
           (day in_progress) (trip1 in_progress)); reflexivity.
Defined.

(** C7 (counterexample).  The driver arrives at the first two stops and ends
    the trip: the trip is completed, and the third stop, which never received
    an arrival, has no skipped event (its log is empty). *)
Lemma endTrip_leaves_stop_open :
  let d1 :=
    fst (press_stop_button driver1 "trip-1"
           (select_stop 0 (loaded (day in_progress))) 2000 (day in_progress)) in
  let d2 :=
    fst (press_stop_button driver1 "trip-1" (select_stop 1 (loaded d1)) 2001 d1)
  in
  let d3 := fst (handleEndTrip driver1 "trip-1" 9000 d2) in
  BusTrip.status <$> find_trip d3 "trip-1" = Some completed
  ∧ existsb (fun st => bool_decide (Stop.id st = "stop-3")) (bus_stops d3)
    = true
  ∧ stop_log d3 "trip-1" "stop-1" = [arrived]
  ∧ stop_log d3 "trip-1" "stop-3" = []
  ∧ ¬ In skipped (stop_log d3 "trip-1" "stop-3").
Proof.
  cbv zeta. repeat split; try (vm_compute; reflexivity).
  vm_compute. tauto.
Qed.

(** ** C8: position fixes *)

(** C8 (amended).  For a fix whose numbers fit their columns, sent by a
    session that may write to the trip, updateLocation appends the fix to the
    location history and overwrites the trip's current latitude, longitude,
    speed and heading with those of the fix and last_location_update with the
    device's current time.  The overwrite is unconditional: neither the time
    of the fix nor the stored last_location_update is read. *)
Theorem updateLocation_appends_and_overwrites s id location now db_now d t :
  find_trip d id = Some t →
  bus_trips_driver s t = true →
  fix_fits location = true →
  bus_location_history (updateLocation s id location now db_now d)
  = bus_location_history d ++ [fix_sent id location db_now]
  ∧ ∃ t',
      find_trip (updateLocation s id location now db_now d) id = Some t'
      ∧ BusTrip.current_latitude t' = Some (Location.latitude location)
      ∧ BusTrip.current_longitude t' = Some (Location.longitude location)
      ∧ BusTrip.current_speed t' = Location.speed location
      ∧ BusTrip.current_heading t' = Location.heading location
      ∧ BusTrip.last_location_update t' = Some now.
Proof.
  intros Hf Hp Hfit.
  destruct (updateLocation_effect s id location now db_now d t Hf Hp Hfit)
    as (Hh & Ht & _).
  split; [exact Hh|]. eexists. split; [exact Ht|]. repeat split.
Qed.

Lemma updateLocation_appends_and_overwrites_witness :
  bus_location_history
    (updateLocation driver1 "trip-1" fix_late 5100 5101 (day in_progress))
  = bus_location_history (day in_progress) ++ [fix_sent "trip-1" fix_late 5101]
  ∧ ∃ t',
      find_trip
        (updateLocation driver1 "trip-1" fix_late 5100 5101 (day in_progress))
        "trip-1" = Some t'
      ∧ BusTrip.current_latitude t' = Some (Location.latitude fix_late)
      ∧ BusTrip.current_longitude t' = Some (Location.longitude fix_late)
      ∧ BusTrip.current_speed t' = Location.speed fix_late
      ∧ BusTrip.current_heading t' = Location.heading fix_late
      ∧ BusTrip.last_location_update t' = Some 5100.
Proof.
  apply (updateLocation_appends_and_overwrites driver1 "trip-1" fix_late 5100
           5101 (day in_progress) (trip1 in_progress)); reflexivity.
Defined.

(** C8 (counterexample).  The fix taken at 5000 is stored at 5100.  The fix
    taken earlier, at 1000, is delivered afterwards: it is appended to the
    history, and it also replaces the snapshot, so the trip shows the older
    position.  When the device clock has been set back (the call runs at
    4000), last_location_update itself goes back from 5100 to 4000. *)
Lemma stale_fix_overwrites_snapshot :
  let d1 := updateLocation driver1 "trip-1" fix_late 5100 5101 (day in_progress)
  in
  let d2 := updateLocation driver1 "trip-1" fix_early 6000 6001 d1 in
  let d2' := updateLocation driver1 "trip-1" fix_early 4000 5102 d1 in
  Location.timestamp fix_early < Location.timestamp fix_late
  ∧ (∃ t1, find_trip d1 "trip-1" = Some t1
           ∧ BusTrip.current_latitude t1 = Some (Location.latitude fix_late)
           ∧ BusTrip.last_location_update t1 = Some 5100)
  ∧ (∃ t2, find_trip d2 "trip-1" = Some t2
           ∧ BusTrip.current_latitude t2 = Some (Location.latitude fix_early)
           ∧ BusTrip.current_latitude t2 ≠ Some (Location.latitude fix_late))
  ∧ (∃ t2', find_trip d2' "trip-1" = Some t2'
            ∧ BusTrip.current_latitude t2' = Some (Location.latitude fix_early)
            ∧ BusTrip.last_location_update t2' = Some 4000)
  ∧ List.map LocationFix.latitude (bus_location_history d2)
    = [Location.latitude fix_late; Location.latitude fix_early].
Proof.
  cbv zeta. split; [reflexivity|].
  split; [eexists; split; [vm_compute; reflexivity|]; split; reflexivity|].
  split.
  { eexists. split; [vm_compute; reflexivity|]. split; [reflexivity|].
    cbn. discriminate. }
  split; [eexists; split; [vm_compute; reflexivity|]; split; reflexivity|].
  vm_compute. reflexivity.
Qed.

(** ** C6: writes to a trip that is not in progress *)

(** C6 (amended).  The handlers do not read the status of the trip.  For a
    trip whose status is not in_progress (completed and cancelled included),
    a telemetry fix, a stop event and a scan sent by a session that may write
    to the trip are accepted as they are for a trip in progress: the row is
    appended, the trip's snapshot, stop pointer and occupancy count are
    updated, no dialog reports an error, and the status stays as it was. *)
Theorem writes_ignore_trip_status
  s id scr stop student k location now db_now d t :
  find_trip d id = Some t →
  BusTrip.status t ≠ in_progress →
  bus_trips_driver s t = true →
  stops_known d scr = true →
  stop_exists d (BusStop.id stop) = true →
  int4 (BusStop.stop_number stop) = true →
  fix_fits location = true →
  Z.of_nat (length (student_bus_scans d)) < 2147483647 →
  (bus_location_history (updateLocation s id location now db_now d)
   = bus_location_history d ++ [fix_sent id location db_now]
   ∧ find_trip (updateLocation s id location now db_now d) id
     = Some (snapshot_of location now t))
  ∧ (snd (handleArriveAtStop s id stop db_now d) = quiet
     ∧ bus_stop_events (fst (handleArriveAtStop s id stop db_now d))
       = bus_stop_events d
         ++ [StopEvent.mk id (BusStop.id stop) arrived
               (BusStop.scheduled_time stop) db_now 0 0]
     ∧ find_trip (fst (handleArriveAtStop s id stop db_now d)) id
       = Some (set_current_stop_index (BusStop.stop_number stop) t))
  ∧ (snd (handleDepartFromStop s id stop 0 0 db_now d) = quiet
     ∧ bus_stop_events (fst (handleDepartFromStop s id stop 0 0 db_now d))
       = bus_stop_events d
         ++ [StopEvent.mk id (BusStop.id stop) departed None db_now 0 0])
  ∧ (snd (handleScanStudent s id scr student k db_now d) = quiet
     ∧ student_bus_scans (fst (handleScanStudent s id scr student k db_now d))
       = student_bus_scans d ++ [scan_sent id scr student k db_now]
     ∧ find_trip (fst (handleScanStudent s id scr student k db_now d)) id
       = Some (set_students_on_board
                 (signed_count
                    (fst (handleScanStudent s id scr student k db_now d)) id)
                 t))
  ∧ BusTrip.status (snapshot_of location now t) = BusTrip.status t.
Proof.
  intros Hf _ Hp Hk Hs Hn Hfit Hlen.
  destruct (updateLocation_effect s id location now db_now d t Hf Hp Hfit)
    as (Hh & Ht & _).
  destruct (handleScanStudent_effect s id scr student k db_now d t Hf Hp Hk Hlen)
    as (Hsc & Hft & _).
  split; [split; assumption|].
  split.
  { split; [reflexivity|]. split.
    - by apply (handleArriveAtStop_events s id stop db_now d t).
    - by apply handleArriveAtStop_trip. }
  split.
  { split; [reflexivity|].
    by apply (handleDepartFromStop_events s id stop 0 0 db_now d t). }
  split; [|reflexivity].
  split; [reflexivity|]. split; assumption.
Qed.

Lemma writes_ignore_trip_status_witness :
  BusTrip.status (trip1 cancelled) ≠ in_progress
  ∧ bus_location_history
      (updateLocation driver1 "trip-1" fix_late 5100 5101 (day cancelled))
    = [fix_sent "trip-1" fix_late 5101]
  ∧ bus_stop_events
      (fst (handleArriveAtStop driver1 "trip-1" stop1 5101 (day cancelled)))
    = [StopEvent.mk "trip-1" "stop-1" arrived None 5101 0 0]
  ∧ student_bus_scans
      (fst (handleScanStudent driver1 "trip-1" (loaded (day cancelled))
              student1 board 5101 (day cancelled)))
    = [scan_sent "trip-1" (loaded (day cancelled)) student1 board 5101].
Proof.
  assert (Hst : BusTrip.status (trip1 cancelled) ≠ in_progress) by discriminate.
  pose proof
    (writes_ignore_trip_status driver1 "trip-1" (loaded (day cancelled)) stop1
       student1 board fix_late 5100 5101 (day cancelled) (trip1 cancelled)
       eq_refl Hst eq_refl eq_refl eq_refl eq_refl eq_refl
       ltac:(simpl; lia)) as (Hloc & Harr & _ & Hscan & _).
  split; [exact Hst|].
  split; [exact (proj1 Hloc)|].
  split; [exact (proj1 (proj2 Harr))|].
  exact (proj1 (proj2 Hscan)).
Defined.

(** C6 (counterexample).  On a completed trip, a scan, an arrival and a fix
    are all stored, no call fails, and the occupancy count, the stop pointer
    and the snapshot of the closed trip change. *)
Lemma closed_trip_accepts_writes :
  let d := day completed in
  let r1 := handleScanStudent driver1 "trip-1" (loaded d) student1 board 5101 d
  in
  let r2 := handleArriveAtStop driver1 "trip-1" stop1 5102 (fst r1) in
  let d3 := updateLocation driver1 "trip-1" fix_late 5103 5104 (fst r2) in
  BusTrip.status <$> find_trip d "trip-1" = Some completed
  ∧ snd r1 = quiet ∧ snd r2 = quiet
  ∧ length (student_bus_scans d3) = 1%nat
  ∧ length (bus_stop_events d3) = 1%nat
  ∧ length (bus_location_history d3) = 1%nat
  ∧ (BusTrip.students_on_board <$> find_trip d "trip-1",
     BusTrip.students_on_board <$> find_trip d3 "trip-1") = (Some 0, Some 1)
  ∧ (BusTrip.current_stop_index <$> find_trip d "trip-1",
     BusTrip.current_stop_index <$> find_trip d3 "trip-1") = (Some 0, Some 1)
  ∧ find_trip d3 "trip-1" ≠ find_trip d "trip-1"
  ∧ BusTrip.status <$> find_trip d3 "trip-1" = Some completed.
Proof.
  cbv zeta. repeat split; try (vm_compute; reflexivity).
  vm_compute. discriminate.
Qed.

(** ** C9: alerts and their feed items *)

(** The INSERT of the trigger does not type: the priority is a CASE of string
    literals, of type text, for a column of type feed_priority.  The error is
    raised before the policy of feed_items is looked at. *)
Lemma create_bus_alert_feed_item_raises s NEW d :
  create_bus_alert_feed_item s NEW d = Err datatype_mismatch.
Proof. reflexivity. Qed.

(** A failure of the feed trigger is a failure of the INSERT that fired it:
    INSERT INTO bus_alerts raises for every caller, row and database. *)
Lemma insert_bus_alerts_raises s NEW d :
  ∃ e, insert_bus_alerts s NEW d = Err e.
Proof.
  unfold insert_bus_alerts.
  destruct (bus_alerts_manage s NEW); cbn [guard bind]; [|eauto].
  destruct (negb (alert_id_taken d (Alert.id NEW))); cbn [guard bind]; [|eauto].
  match goal with
  | |- context [guard ?b foreign_key_violation] =>
      destruct b; cbn [guard bind]; [|eauto]
  end.
  match goal with
  | |- context [guard ?b foreign_key_violation] =>
      destruct b; cbn [guard bind]; [|eauto]
  end.
  rewrite create_bus_alert_feed_item_raises. eauto.
Qed.

(** A row that passes the policy and the constraints of bus_alerts reaches the
    trigger, and the error is the one of the trigger. *)
Lemma insert_bus_alerts_admitted s NEW d :
  bus_alerts_manage s NEW = true →
  alert_id_taken d (Alert.id NEW) = false →
  match Alert.trip_id NEW with
  | None => true
  | Some tid => trip_exists d tid
  end = true →
  match Alert.route_id NEW with
  | None => true
  | Some rid => route_exists d rid
  end = true →
  insert_bus_alerts s NEW d = Err datatype_mismatch.
Proof.
  intros Hman Hid Htrip Hroute. unfold insert_bus_alerts.
  rewrite Hman, Hid, Htrip, Hroute. reflexivity.
Qed.

Lemma alerts_policy_needs_admin_or_driver s a :
  role s ≠ admin → role s ≠ driver → bus_alerts_manage s a = false.
Proof.
  intros Ha Hd. unfold bus_alerts_manage.
  rewrite !bool_decide_eq_false_2 by done. apply andb_false_r.
Qed.

(** handleSendAlert awaits the INSERT and drops its error. *)
Lemma handleSendAlert_db s id scr new_id db_now d :
  fst (handleSendAlert s id scr new_id db_now d) = d.
Proof.
  unfold handleSendAlert.
  destruct (match trip scr with
            | Some t => _
            | None => _
            end) as [[[bus_number route_number] route_id]|];
    cbn [fst]; [|reflexivity].
  match goal with
  | |- context [insert_bus_alerts s ?a d] =>
      destruct (insert_bus_alerts_raises s a d) as [e ->]
  end. reflexivity.
Qed.

(** C9.  Send Alert stores no alert, whoever sends it and whatever the status
    of the trip.  The INSERT of the alert fires create_bus_alert_feed_item,
    whose own INSERT into feed_items raises; the failure of this fan-out rolls
    the alert back.  The handler does not look at the error of the INSERT: on
    a screen that holds the trip with its route and bus it shows 'Alert sent to
    school'. *)
Theorem send_alert_stores_nothing s id scr new_id db_now d :
  fst (handleSendAlert s id scr new_id db_now d) = d
  ∧ bus_alerts (fst (handleSendAlert s id scr new_id db_now d)) = bus_alerts d
  ∧ (∀ t r b,
       trip scr = Some (Trip.mk t (Some r) (Some b)) →
       snd (handleSendAlert s id scr new_id db_now d)
       = dialog "Success" "Alert sent to school")
  ∧ (∀ a,
       create_bus_alert_feed_item s a
         (with_bus_alerts (bus_alerts d ++ [a]) d) = Err datatype_mismatch
       ∧ attempt (insert_bus_alerts s a d) d = d).
Proof.
  split; [apply handleSendAlert_db|].
  split; [by rewrite handleSendAlert_db|]. split.
  - intros t r b Ht. unfold handleSendAlert. rewrite Ht. reflexivity.
  - intros a. split; [apply create_bus_alert_feed_item_raises|].
    by destruct (insert_bus_alerts_raises s a d) as [e ->].
Qed.

(** C9 (the failing input).  The driver of an in_progress trip sends a delay
    alert from a loaded screen.  The policy of bus_alerts admits the row, the
    trigger raises datatype_mismatch, the statement is rolled back and no
    alert is stored; the screen says 'Alert sent to school'.  The same INSERT
    sent by an admin of the school fails in the same way. *)
Lemma driver_alert_is_lost :
  let d := day in_progress in
  let a :=
    Alert.mk "alert-1" "school-1" (Some "trip-1") (Some "route-1") delay info
      "Bus 12 - Running Late" (Some "Route R1 has reported a delay") false
      (Some "driver-1") 3000 in
  BusTrip.status <$> find_trip d "trip-1" = Some in_progress
  ∧ bus_alerts_manage driver1 a = true
  ∧ insert_bus_alerts driver1 a d = Err datatype_mismatch
  ∧ insert_bus_alerts admin1 a d = Err datatype_mismatch
  ∧ handleSendAlert driver1 "trip-1" (loaded d) "alert-1" 3000 d
    = (attempt (insert_bus_alerts driver1 a d) d,
       dialog "Success" "Alert sent to school")
  ∧ bus_alerts (fst (handleSendAlert driver1 "trip-1" (loaded d) "alert-1"
                       3000 d)) = [].
Proof. cbv zeta. repeat split; vm_compute; reflexivity. Qed.

(** ** Board scans and the boarded flag *)

Lemma boardedStudents_has_board_scan d id sid :
  bool_decide (sid ∈ boardedStudents d id) = has_board_scan d id sid.
Proof.
  apply eq_true_iff_eq. rewrite bool_decide_eq_true.
  unfold boardedStudents, has_board_scan.
  rewrite elem_of_list_to_set, list_elem_of_In, in_map_iff, existsb_exists.
  split.
  - intros (sc & Hsid & Hin). apply filter_In in Hin as [Hin Hb].
    apply filter_In in Hin as [Hin Ht]. exists sc. split; [done|].
    rewrite Ht, Hb, bool_decide_eq_true_2 by done. reflexivity.
  - intros (sc & Hin & H). apply andb_prop in H as [H Hb].
    apply andb_prop in H as [Ht Hs]. apply bool_decide_eq_true in Hs.
    exists sc. split; [done|]. apply filter_In. split; [|done].
    apply filter_In. by split.
Qed.

(** ** C3: one trip per route, date and direction *)

Lemma trip_key_taken_by d t :
  In t (bus_trips d) →
  trip_key_taken d (BusTrip.route_id t) (BusTrip.trip_date t)
    (BusTrip.trip_type t) = true.
Proof.
  intros Hin. apply existsb_exists. exists t. split; [done|].
  rewrite !bool_decide_eq_true_2 by done. reflexivity.
Qed.

(** UNIQUE(route_id, trip_date, trip_type): whatever else the body holds, the
    INSERT of a row whose key is taken raises, inside the statement itself. *)
Lemma insert_bus_trips_key_taken s new_id body d :
  trip_key_taken d (TripInsert.route_id body) (TripInsert.trip_date body)
    (TripInsert.trip_type body) = true →
  ∃ e, insert_bus_trips s new_id body d = Err e.
Proof.
  intros Hkey. unfold insert_bus_trips.
  destruct (json_to_uuid (TripInsert.bus_id body)) as [[b|]|e];
    cbn [bind]; [| |eauto];
    (destruct (bus_trips_driver_on s _ _); cbn [guard bind]; [|eauto]);
    [|eauto].
  destruct (negb (trip_id_taken d new_id)); cbn [guard bind]; [|eauto].
  rewrite Hkey. cbn [negb guard bind]. eauto.
Qed.

(** With a well-formed body, a caller the policy admits and a fresh id, the
    error is the unique violation. *)
Lemma insert_bus_trips_unique_violation s new_id body d b :
  TripInsert.bus_id body = JString b →
  bus_trips_driver_on s (TripInsert.school_id body) (TripInsert.driver_id body)
  = true →
  trip_id_taken d new_id = false →
  trip_key_taken d (TripInsert.route_id body) (TripInsert.trip_date body)
    (TripInsert.trip_type body) = true →
  insert_bus_trips s new_id body d = Err unique_violation.
Proof.
  intros Hb Hp Hid Hkey. unfold insert_bus_trips.
  rewrite Hb, Hp, Hid, Hkey. reflexivity.
Qed.

(** The body startTrip sends never carries a UUID as bus_id (it carries the
    embedded bus object, or null), so its INSERT is refused on every
    database. *)
Remark startTrip_body_is_refused s route today currentHour now new_id d :
  ∃ e,
    snd (startTrip s None route today currentHour now new_id d)
    = failed_to_start e
    ∧ fst (startTrip s None route today currentHour now new_id d) = d.
Proof.
  unfold startTrip, insert_bus_trips, bus_id_of_route.
  cbn [TripInsert.bus_id].
  destruct (BusRoute.bus route) as [b|]; [destruct (bool_decide _)|];
    cbn [json_to_uuid bind]; eauto;
    (destruct (bus_trips_driver_on s _ _); cbn [guard bind]; eauto).
Qed.

(** The only error of the trigger of bus_trips is the refusal of its feed
    item by the policy of feed_items. *)
Lemma insert_feed_items_all_err s fs d e :
  insert_feed_items_all s fs d = Err e → e = insufficient_privilege.
Proof.
  revert d. induction fs as [|f fs IH]; intros d; cbn [insert_feed_items_all];
    [done|].
  unfold insert_feed_items at 1.
  destruct (staff_can_create_feed_items s f); cbn [guard bind];
    [apply IH|by intros [= <-]].
Qed.

Lemma create_bus_feed_item_err s o n d e :
  create_bus_feed_item s o n d = Err e → e = insufficient_privilege.
Proof.
  unfold create_bus_feed_item. destruct (_ && _); [|done].
  apply insert_feed_items_all_err.
Qed.

Lemma trip_key_taken_iff d route_id trip_date trip_type :
  trip_key_taken d route_id trip_date trip_type = true
  ↔ ∃ t, In t (bus_trips d) ∧ trip_key t = (route_id, trip_date, trip_type).
Proof.
  unfold trip_key_taken, trip_key. rewrite existsb_exists. split.
  - intros (t & Hin & H). apply andb_prop in H as [H H3].
    apply andb_prop in H as [H1 H2].
    apply bool_decide_eq_true in H1, H2, H3. exists t. split; [done|].
    by rewrite H1, H2, H3.
  - intros (t & Hin & [= H1 H2 H3]). exists t. split; [done|].
    by rewrite !bool_decide_eq_true_2.
Qed.

(** With a well-formed body, a caller the policy admits and a fresh id, the
    INSERT raises the unique violation exactly when the key is taken. *)
Lemma insert_bus_trips_unique_iff s new_id body d b :
  TripInsert.bus_id body = JString b →
  bus_trips_driver_on s (TripInsert.school_id body) (TripInsert.driver_id body)
  = true →
  trip_id_taken d new_id = false →
  insert_bus_trips s new_id body d = Err unique_violation
  ↔ trip_key_taken d (TripInsert.route_id body) (TripInsert.trip_date body)
      (TripInsert.trip_type body) = true.
Proof.
  intros Hb Hp Hid. split;
    [|by apply (insert_bus_trips_unique_violation s new_id body d b)].
  unfold insert_bus_trips. rewrite Hb, Hp, Hid.
  cbn [json_to_uuid bind guard negb].
  destruct (trip_key_taken d _ _ _); [done|]. cbn [negb guard bind].
  destruct (route_exists d _ && bus_exists d b); cbn [guard bind]; [|done].
  match goal with
  | |- context [create_bus_feed_item s None ?NEW ?d1] =>
      destruct (create_bus_feed_item s None NEW d1) as [d'|e] eqn:E;
      cbn [bind]; [done|]
  end.
  apply create_bus_feed_item_err in E. by rewrite E.
Qed.

Lemma single_In {A} (l : list A) a : single l = Some a → In a l.
Proof. destruct l as [|x [|y l]]; [done| |done]. intros [= ->]. by left. Qed.

Lemma fetch_activeTrip_holds s today d a :
  fetch_activeTrip s today d = Some a →
  In a (bus_trips d) ∧ BusTrip.driver_id a = uid s
  ∧ BusTrip.trip_date a = today ∧ BusTrip.status a = in_progress.
Proof.
  unfold fetch_activeTrip. intros H. apply single_In in H.
  apply filter_In in H as [Hin H]. apply andb_prop in H as [H H3].
  apply andb_prop in H as [H1 H2].
  by apply bool_decide_eq_true in H1, H2, H3.
Qed.

(** C3 (amended).  The code has no error ActiveTripExists and startTrip does
    not look for a trip of the (route_id, date, trip_type) it is about to
    start.  What startTrip refuses on is the active trip the home screen
    holds: then it shows the 'Active Trip' dialog leading to that trip and
    sends nothing, whatever the route.  The held trip is what fetchData found:
    the driver's own trip of today with status in_progress; a scheduled trip,
    or the trip of another driver, is never held, also when it has the key of
    the trip to start.  The check of the key is the constraint
    UNIQUE(route_id, trip_date, trip_type), evaluated inside the INSERT and so
    atomic with the creation: an INSERT that passes the type, policy and id
    checks raises unique_violation exactly when a trip with its key exists,
    whatever the status of that trip. *)
Theorem startTrip_guard_and_trip_key s route today currentHour now new_id d :
  (∀ a,
     startTrip s (Some a) route today currentHour now new_id d
     = (d, go_to_trip (BusTrip.id a)))
  ∧ (∀ x,
       snd (startTrip s None route today currentHour now new_id d)
       ≠ go_to_trip x)
  ∧ (∀ a,
       fetch_activeTrip s today d = Some a →
       In a (bus_trips d) ∧ BusTrip.driver_id a = uid s
       ∧ BusTrip.trip_date a = today ∧ BusTrip.status a = in_progress)
  ∧ (∀ t,
       BusTrip.status t ≠ in_progress ∨ BusTrip.driver_id t ≠ uid s →
       fetch_activeTrip s today d ≠ Some t)
  ∧ (∀ id' body bus_id,
       TripInsert.bus_id body = JString bus_id →
       bus_trips_driver_on s (TripInsert.school_id body)
         (TripInsert.driver_id body) = true →
       trip_id_taken d id' = false →
       insert_bus_trips s id' body d = Err unique_violation
       ↔ ∃ t,
           In t (bus_trips d)
           ∧ trip_key t
             = (TripInsert.route_id body, TripInsert.trip_date body,
                TripInsert.trip_type body)).
Proof.
  split; [reflexivity|]. split.
  { intros x. unfold startTrip.
    by destruct (insert_bus_trips _ _ _ _) as [[d' t]|e]. }
  split; [intros a; apply fetch_activeTrip_holds|]. split.
  { intros t Hno Hheld. apply fetch_activeTrip_holds in Hheld.
    destruct Hheld as (_ & Hd & _ & Hs), Hno as [Hno|Hno]; by apply Hno. }
  intros id' body bus_id Hb Hp Hid.
  rewrite (insert_bus_trips_unique_iff s id' body d bus_id Hb Hp Hid).
  apply trip_key_taken_iff.
Qed.

(** C3 (counterexample).  A scheduled trip exists for (route-1, 2024-05-01,
    morning).  The driver's home screen, freshly loaded, holds no active trip;
    startTrip for the same route, date and direction does not answer with the
    'Active Trip' dialog but sends its INSERT and shows 'Failed to start
    trip', as it does on a table without any trip. *)
Lemma scheduled_trip_raises_no_active_trip_dialog :
  let d := day scheduled in
  let none := with_bus_trips [] (day scheduled) in
  BusTrip.status <$> find_trip d "trip-1" = Some scheduled
  ∧ trip_key_taken d (BusRoute.id route1) "2024-05-01" (suggestedTripType 8)
    = true
  ∧ fetch_activeTrip driver1 "2024-05-01" d = None
  ∧ startTrip driver1 (fetch_activeTrip driver1 "2024-05-01" d) route1
      "2024-05-01" 8 7000 "trip-2" d
    = (d, failed_to_start invalid_text_representation)
  ∧ startTrip driver1 (fetch_activeTrip driver1 "2024-05-01" none) route1
      "2024-05-01" 8 7000 "trip-2" none
    = (none, failed_to_start invalid_text_representation).
Proof. cbv zeta. repeat split; vm_compute; reflexivity. Qed.

(** The dialog, on the day of the driver's trip in progress: the freshly
    loaded home screen holds trip-1, and startTrip leads to it. *)
Example active_trip_dialog_case :
  fetch_activeTrip driver1 "2024-05-01" (day in_progress)
  = Some (trip1 in_progress)
  ∧ startTrip driver1 (fetch_activeTrip driver1 "2024-05-01" (day in_progress))
      route1 "2024-05-01" 8 7000 "trip-2" (day in_progress)
    = (day in_progress, go_to_trip "trip-1").
Proof. split; reflexivity. Qed.

(** The check of the key, on an INSERT of an admin: a completed trip holds
    the key of trip-1 and the INSERT is refused; the key of the next day is
    free and the INSERT is accepted. *)
Example trip_key_check_cases :
  insert_bus_trips admin1 "trip-2"
    (TripInsert.mk "school-1" "route-1" (JString "bus-1") "driver-1"
       "2024-05-01" morning scheduled None None)
    (day completed)
  = Err unique_violation
  ∧ fst <$> (match
               insert_bus_trips admin1 "trip-2"
                 (TripInsert.mk "school-1" "route-1" (JString "bus-1")
                    "driver-1" "2024-05-02" morning scheduled None None)
                 (day completed)
             with
             | Ok r => Some r
             | Err _ => None
             end)
    = Some
        (with_bus_trips
           [trip1 completed;
            BusTrip.mk "trip-2" "school-1" "route-1" "bus-1" "driver-1"
              "2024-05-02" morning scheduled None None None None None None
              None None 0 0]
           (day completed)).
Proof. split; vm_compute; reflexivity. Qed.

(** ** C4: the log of a stop *)

(** *** Only the two stop handlers write stop events *)

Lemma insert_feed_items_all_events s fs d d' :
  insert_feed_items_all s fs d = Ok d' →
  bus_stop_events d' = bus_stop_events d.
Proof.
  revert d. induction fs as [|f fs IH]; intros d; cbn [insert_feed_items_all].
  - by intros [= <-].
  - unfold insert_feed_items at 1.
    destruct (staff_can_create_feed_items s f); cbn [guard bind]; [|done].
    intros H. by rewrite (IH _ H).
Qed.

Lemma create_bus_feed_item_events s o n d d' :
  create_bus_feed_item s o n d = Ok d' →
  bus_stop_events d' = bus_stop_events d.
Proof.
  unfold create_bus_feed_item. destruct (_ && _).
  - apply insert_feed_items_all_events.
  - by intros [= <-].
Qed.

Lemma fire_events s changed d d' :
  fire_on_bus_trip_status_change s changed d = Ok d' →
  bus_stop_events d' = bus_stop_events d.
Proof.
  revert d. induction changed as [|[o n] rest IH]; intros d;
    cbn [fire_on_bus_trip_status_change].
  - by intros [= <-].
  - destruct (create_bus_feed_item s (Some o) n d) as [d1|e] eqn:E;
      cbn [bind]; [|done].
    intros H. rewrite (IH _ H). by apply create_bus_feed_item_events in E.
Qed.

Lemma update_bus_trips_events s id set d :
  bus_stop_events (attempt (update_bus_trips s id set d) d)
  = bus_stop_events d.
Proof.
  unfold update_bus_trips.
  destruct (update_where (updatable s id) set (bus_trips d)) as [upd|e];
    cbn [bind attempt]; [|done].
  destruct (fire_on_bus_trip_status_change s (snd upd) _) as [d'|e] eqn:E;
    cbn [attempt]; [|done].
  by apply fire_events in E.
Qed.

Lemma handleArriveAtStop_cases s id stop db_now d :
  bus_stop_events (fst (handleArriveAtStop s id stop db_now d))
  = bus_stop_events d
  ∨ bus_stop_events (fst (handleArriveAtStop s id stop db_now d))
    = bus_stop_events d
      ++ [StopEvent.mk id (BusStop.id stop) arrived
            (BusStop.scheduled_time stop) db_now 0 0].
Proof.
  unfold handleArriveAtStop. cbn [fst]. rewrite update_bus_trips_events.
  match goal with
  | |- context [insert_bus_stop_events s ?e d] =>
      destruct (insert_bus_stop_events_cases s e d) as [-> | ->]
  end; auto.
Qed.

Lemma handleDepartFromStop_cases s id stop b e db_now d :
  bus_stop_events (fst (handleDepartFromStop s id stop b e db_now d))
  = bus_stop_events d
  ∨ bus_stop_events (fst (handleDepartFromStop s id stop b e db_now d))
    = bus_stop_events d
      ++ [StopEvent.mk id (BusStop.id stop) departed None db_now b e].
Proof.
  unfold handleDepartFromStop. cbn [fst].
  match goal with
  | |- context [insert_bus_stop_events s ?ev d] =>
      destruct (insert_bus_stop_events_cases s ev d) as [-> | ->]
  end; auto.
Qed.

Lemma handleScanStudent_events s id scr student k db_now d :
  bus_stop_events (fst (handleScanStudent s id scr student k db_now d))
  = bus_stop_events d.
Proof.
  unfold handleScanStudent, insert_student_bus_scans. cbn [fst].
  repeat match goal with
         | |- context [guard ?b ?e] => destruct b; cbn [guard bind attempt]
         end; try reflexivity.
  unfold update_trip_student_count.
  match goal with
  | |- context [update_bus_trips s ?i ?f ?d1] =>
      pose proof (update_bus_trips_events s i f d1) as H;
      destruct (update_bus_trips s i f d1)
  end; cbn [attempt] in *; [exact H|reflexivity].
Qed.

Lemma updateLocation_events s id location now db_now d :
  bus_stop_events (updateLocation s id location now db_now d)
  = bus_stop_events d.
Proof.
  unfold updateLocation.
  match goal with
  | |- context [attempt (insert_bus_location_history s ?r ?d1) ?d1] =>
      assert (H : bus_stop_events
                    (attempt (insert_bus_location_history s r d1) d1)
                  = bus_stop_events d1)
  end.
  { unfold insert_bus_location_history.
    repeat match goal with
           | |- context [guard ?b ?e] => destruct b; cbn [guard bind attempt]
           end; reflexivity. }
  rewrite H. apply update_bus_trips_events.
Qed.

Lemma handleEndTrip_events s id now d :
  bus_stop_events (fst (handleEndTrip s id now d)) = bus_stop_events d.
Proof. rewrite handleEndTrip_eq. reflexivity. Qed.

Lemma handleSendAlert_events s id scr new_id db_now d :
  bus_stop_events (fst (handleSendAlert s id scr new_id db_now d))
  = bus_stop_events d.
Proof. by rewrite handleSendAlert_db. Qed.

(** *** What the screen knows about a stop *)

Lemma filter_filter_andb {A} (f g : A → bool) l :
  List.filter f (List.filter g l) = List.filter (fun x => g x && f x) l.
Proof.
  induction l as [|x l IH]; [reflexivity|]. cbn [List.filter].
  destruct (g x); cbn [andb List.filter]; [|exact IH].
  destruct (f x); by rewrite IH.
Qed.

(** The Map built by forEach holds, for each stop, the event types of its
    events in log order. *)
Lemma eventsByStop_lookup evs sid :
  default [] (eventsByStop evs !! sid)
  = List.map StopEvent.event_type
      (List.filter (fun e => bool_decide (StopEvent.stop_id e = sid)) evs).
Proof.
  unfold eventsByStop. induction evs as [|e evs IH] using rev_ind.
  - cbn. by rewrite lookup_empty.
  - rewrite fold_left_app. cbn [fold_left].
    set (m := fold_left _ evs ∅) in *.
    rewrite List.filter_app, List.map_app, <- IH. cbn [List.filter].
    destruct (bool_decide (StopEvent.stop_id e = sid)) eqn:E.
    + apply bool_decide_eq_true in E. subst sid.
      destruct (m !! StopEvent.stop_id e) as [l|] eqn:Hm.
      * rewrite Hm, lookup_insert_eq. reflexivity.
      * rewrite !lookup_insert_eq. reflexivity.
    + apply bool_decide_eq_false in E.
      destruct (m !! StopEvent.stop_id e) as [l|] eqn:Hm.
      * rewrite Hm, lookup_insert_ne by done. cbn. by rewrite app_nil_r.
      * rewrite lookup_insert_eq, !lookup_insert_ne by done.
        cbn. by rewrite app_nil_r.
Qed.

Lemma stopsWithEvents_flags d id route_id st :
  In st (stopsWithEvents d id route_id) →
  BusStop.arrived st = includes (stop_log d id (BusStop.id st)) arrived
  ∧ BusStop.departed st = includes (stop_log d id (BusStop.id st)) departed.
Proof.
  unfold stopsWithEvents. intros Hin.
  apply in_map_iff in Hin as (x & <- & _).
  cbn [BusStop.arrived BusStop.departed BusStop.id].
  rewrite eventsByStop_lookup, filter_filter_andb. split; reflexivity.
Qed.

Lemma stops_at_In l i st : stops_at l i = Some st → In st l.
Proof.
  unfold stops_at. destruct (i <? 0); [done|]. intros H.
  apply list_elem_of_In. by eapply list_elem_of_lookup_2.
Qed.

(** *** How a press changes the log of a stop *)

Lemma stop_log_frame d d' id sid :
  bus_stop_events d' = bus_stop_events d → stop_log d' id sid = stop_log d id sid.
Proof. unfold stop_log. intros ->. reflexivity. Qed.

Lemma stop_log_snoc d d' id sid e :
  bus_stop_events d' = bus_stop_events d ++ [e] →
  stop_log d' id sid
  = stop_log d id sid
    ++ (if bool_decide (StopEvent.trip_id e = id)
           && bool_decide (StopEvent.stop_id e = sid)
        then [StopEvent.event_type e] else []).
Proof.
  unfold stop_log. intros ->. rewrite List.filter_app, List.map_app.
  cbn [List.filter]. by destruct (_ && _).
Qed.

Lemma stop_log_ok_not_arrived l :
  stop_log_ok l → includes l arrived = false → l = [].
Proof. intros [-> | [-> | ->]]; [done|discriminate|discriminate]. Qed.

Lemma stop_log_ok_not_departed l :
  stop_log_ok l → includes l arrived = true → includes l departed = false →
  l = [arrived].
Proof. intros [-> | [-> | ->]]; [discriminate|done|discriminate]. Qed.

Lemma stop_log_ok_counts l :
  stop_log_ok l →
  (count_events arrived l <= 1)%nat
  ∧ (count_events departed l + count_events skipped l <= 1)%nat
  ∧ (∀ l1 x l2, l = l1 ++ x :: l2 → x = departed ∨ x = skipped → l2 = []).
Proof.
  intros [-> | [-> | ->]]; (split; [vm_compute; lia|]);
    (split; [vm_compute; lia|]); intros l1 x l2 Hl Hx.
  - by destruct l1.
  - destruct l1 as [|? [|? ?]]; cbn in Hl; simplify_eq; try done;
      by destruct Hx.
  - destruct l1 as [|? [|? [|? ?]]]; cbn in Hl; simplify_eq; try done;
      by destruct Hx.
Qed.

(** A press of the button of the current-stop card, on a screen whose stop
    flags were loaded from this database, keeps every stop log in order. *)
Lemma press_stop_button_keeps s id route_id scr db_now d :
  stops scr = stopsWithEvents d id route_id →
  (∀ sid, stop_log_ok (stop_log d id sid)) →
  ∀ sid, stop_log_ok (stop_log (fst (press_stop_button s id scr db_now d)) id sid).
Proof.
  intros Hfresh Hinv sid. unfold press_stop_button.
  destruct (stops_at (stops scr) (currentStopIndex scr)) as [cur|] eqn:Hcur;
    [|apply Hinv].
  apply stops_at_In in Hcur. rewrite Hfresh in Hcur.
  apply stopsWithEvents_flags in Hcur as [Harr Hdep].
  unfold stop_button_of. destruct (BusStop.arrived cur) eqn:Ea; cbn [negb].
  - destruct (BusStop.departed cur) eqn:Ed; cbn [negb]; [apply Hinv|].
    pose proof (stop_log_ok_not_departed _ (Hinv (BusStop.id cur))
                  (eq_sym Harr) (eq_sym Hdep)) as Hlog.
    match goal with
    | |- context [handleDepartFromStop s id cur ?b ?e db_now d] =>
        destruct (handleDepartFromStop_cases s id cur b e db_now d) as [H|H]
    end.
    + rewrite (stop_log_frame d _ id sid H). apply Hinv.
    + rewrite (stop_log_snoc d _ id sid _ H).
      cbn [StopEvent.trip_id StopEvent.stop_id StopEvent.event_type].
      rewrite bool_decide_eq_true_2 by done. cbn [andb].
      destruct (bool_decide (BusStop.id cur = sid)) eqn:E.
      * apply bool_decide_eq_true in E. subst sid. rewrite Hlog.
        right. right. reflexivity.
      * rewrite app_nil_r. apply Hinv.
  - pose proof (stop_log_ok_not_arrived _ (Hinv (BusStop.id cur))
                  (eq_sym Harr)) as Hlog.
    destruct (handleArriveAtStop_cases s id cur db_now d) as [H|H].
    + rewrite (stop_log_frame d _ id sid H). apply Hinv.
    + rewrite (stop_log_snoc d _ id sid _ H).
      cbn [StopEvent.trip_id StopEvent.stop_id StopEvent.event_type].
      rewrite bool_decide_eq_true_2 by done. cbn [andb].
      destruct (bool_decide (BusStop.id cur = sid)) eqn:E.
      * apply bool_decide_eq_true in E. subst sid. rewrite Hlog.
        right. left. reflexivity.
      * rewrite app_nil_r. apply Hinv.
Qed.


Lemma fetchTripData_stops s id d scr0 scr :
  loads s id d scr0 scr →
  ∃ route_id, stops scr = stopsWithEvents d id route_id.
Proof.
  intros [[t Ht] ->]. unfold fetchTripData. rewrite Ht. cbv zeta.
  destruct (studentsData s d id t); cbn [fst stops]; eauto.
Qed.

Lemma driver_step_keeps s id d d' :
  driver_step s id d d' →
  (∀ sid, stop_log_ok (stop_log d id sid)) →
  ∀ sid, stop_log_ok (stop_log d' id sid).
Proof.
  intros Hstep Hinv sid.
  destruct Hstep as [d scr0 scr db_now Hfetch
                    | d scr0 scr index db_now Hfetch
                    | d scr0 scr index student db_now Hfetch Hin
                    | d location now db_now
                    | d scr new_id db_now
                    | d now].
  - apply fetchTripData_stops in Hfetch as [r Hr].
    by apply (press_stop_button_keeps s id r).
  - apply fetchTripData_stops in Hfetch as [r Hr].
    by apply (press_stop_button_keeps s id r).
  - unfold press_student.
    rewrite (stop_log_frame d _ id sid (handleScanStudent_events _ _ _ _ _ _ _)).
    apply Hinv.
  - rewrite (stop_log_frame d _ id sid (updateLocation_events _ _ _ _ _ _)).
    apply Hinv.
  - rewrite (stop_log_frame d _ id sid (handleSendAlert_events _ _ _ _ _ _)).
    apply Hinv.
  - rewrite (stop_log_frame d _ id sid (handleEndTrip_events _ _ _ _)).
    apply Hinv.
Qed.

(** C4 (amended).  The handlers append stop events unconditionally:
    handleArriveAtStop never fails with AlreadyArrived, and the table has no
    constraint on repeated events.  What keeps the log of a stop in order is
    the screen: it offers 'Arrive' only while no arrived event of the stop is
    loaded, 'Depart' only while an arrived and no departed event is loaded,
    and nothing afterwards; no handler writes a skipped event.  So, starting
    from logs in order (empty, arrived, or arrived then departed), as long as
    each press acts on a screen loaded from the current database, every
    (trip, stop) pair has at most one arrived event, at most one terminal
    event, and no event after a terminal one. *)
Theorem stop_logs_stay_in_order s id d d' :
  rtc (driver_step s id) d d' →
  (∀ sid, stop_log_ok (stop_log d id sid)) →
  ∀ sid,
    stop_log_ok (stop_log d' id sid)
    ∧ (count_events arrived (stop_log d' id sid) <= 1)%nat
    ∧ (count_events departed (stop_log d' id sid)
       + count_events skipped (stop_log d' id sid) <= 1)%nat
    ∧ (∀ l1 x l2,
         stop_log d' id sid = l1 ++ x :: l2 →
         x = departed ∨ x = skipped → l2 = []).
Proof.
  intros Hrun. induction Hrun as [d|d d1 d' Hstep _ IH]; intros Hinv sid.
  - split; [apply Hinv|]. apply stop_log_ok_counts, Hinv.
  - apply IH. by apply (driver_step_keeps s id d).
Qed.

Lemma stop_logs_stay_in_order_witness :
  stop_log day_departed "trip-1" "stop-1" = [arrived; departed]
  ∧ stop_log_ok (stop_log day_departed "trip-1" "stop-1")
  ∧ (count_events arrived (stop_log day_departed "trip-1" "stop-1") <= 1)%nat
  ∧ (count_events departed (stop_log day_departed "trip-1" "stop-1")
     + count_events skipped (stop_log day_departed "trip-1" "stop-1") <= 1)%nat
  ∧ (∀ l1 x l2,
       stop_log day_departed "trip-1" "stop-1" = l1 ++ x :: l2 →
       x = departed ∨ x = skipped → l2 = []).
Proof.
  split; [vm_compute; reflexivity|].
  apply (stop_logs_stay_in_order driver1 "trip-1" (day in_progress)
           day_departed).
  - eapply rtc_l.
    + apply (step_stop_button_at driver1 "trip-1" (day in_progress) blank
               (loaded (day in_progress)) 0%nat 2000).
      split; [vm_compute; eauto|reflexivity].
    + eapply rtc_l; [|apply rtc_refl].
      apply (step_stop_button_at driver1 "trip-1" day_arrived blank
               (loaded day_arrived) 0%nat 2001).
      split; [vm_compute; eauto|reflexivity].
  - intros sid. left. reflexivity.
Defined.

(** C4 (counterexample).  handleArriveAtStop is called twice for the first
    stop (a press repeated before the screen has reloaded): both calls return
    without an error and two arrived events are stored.  After a departure a
    further call stores an arrived event behind the terminal one. *)
Lemma second_arrival_is_stored :
  let r1 := handleArriveAtStop driver1 "trip-1" stop1 2000 (day in_progress) in
  let r2 := handleArriveAtStop driver1 "trip-1" stop1 2001 (fst r1) in
  let r3 := handleDepartFromStop driver1 "trip-1" stop1 0 0 2002 (fst r2) in
  let r4 := handleArriveAtStop driver1 "trip-1" stop1 2003 (fst r3) in
  stop_log (fst r1) "trip-1" "stop-1" = [arrived]
  ∧ snd r2 = quiet
  ∧ stop_log (fst r2) "trip-1" "stop-1" = [arrived; arrived]
  ∧ count_events arrived (stop_log (fst r2) "trip-1" "stop-1") = 2%nat
  ∧ snd r4 = quiet
  ∧ stop_log (fst r4) "trip-1" "stop-1" = [arrived; arrived; departed; arrived].
Proof. cbv zeta. repeat split; vm_compute; reflexivity. Qed.

(** * Further properties of the driver screens and the migration *)

(** ** The shape of an UPDATE of bus_trips *)

Lemma with_bus_trips_same d : with_bus_trips (bus_trips d) d = d.
Proof. by destruct d. Qed.

Lemma update_where_shape hit set ts rows changed :
  update_where hit set ts = Ok (rows, changed) →
  Forall2 (fun o n => n = o ∨ (hit o = true ∧ set o = Ok n)) ts rows
  ∧ (∀ o n, In (o, n) changed → set o = Ok n).
Proof.
  revert rows changed. induction ts as [|t ts IH]; intros rows changed;
    cbn [update_where].
  - intros [= <- <-]. split; [constructor|intros ? ? []].
  - destruct (hit t) eqn:Hh.
    + destruct (set t) as [t'|e] eqn:Hs; cbn [bind]; [|done].
      destruct (update_where hit set ts) as [[rows' changed']|e];
        cbn [bind fst snd]; [|done].
      intros [= <- <-]. destruct (IH _ _ eq_refl) as [IH1 IH2]. split.
      * constructor; [right; done|exact IH1].
      * intros o n [[= <- <-]|Hin]; [done|by apply IH2].
    + destruct (update_where hit set ts) as [[rows' changed']|e];
        cbn [bind fst snd]; [|done].
      intros [= <- <-]. destruct (IH _ _ eq_refl) as [IH1 IH2]. split.
      * constructor; [left; done|exact IH1].
      * exact IH2.
Qed.

Lemma updated_row_refl s id set ts :
  Forall2 (updated_row s id set) ts ts.
Proof. induction ts; constructor; [by left|done]. Qed.

(** An UPDATE whose new rows cannot fire the feed trigger changes bus_trips
    only, row by row; when it raises, nothing changes. *)
Lemma attempt_update_shape s id set d :
  (∀ t t', set t = Ok t' → feed_trigger_fires t t' = false) →
  ∃ rows,
    attempt (update_bus_trips s id set d) d = with_bus_trips rows d
    ∧ Forall2 (updated_row s id set) (bus_trips d) rows.
Proof.
  intros Hquiet. unfold update_bus_trips.
  destruct (update_where (updatable s id) set (bus_trips d))
    as [[rows changed]|e] eqn:E; cbn [bind fst snd attempt].
  - apply update_where_shape in E as [Hrows Hch].
    rewrite fire_skip by (intros o n Hin; apply Hquiet; by apply Hch).
    cbn [attempt]. eauto.
  - exists (bus_trips d). split; [by rewrite with_bus_trips_same|].
    apply updated_row_refl.
Qed.




(** ** Every handler of the trip screen writes on behalf of its trip only *)

Lemma same_trip_refl t : same_trip t t.
Proof. by repeat split. Qed.

Lemma same_trip_trans a b c : same_trip a b → same_trip b c → same_trip a c.
Proof.
  unfold same_trip. intros H1 H2.
  destruct H1 as (?&?&?&?&?&?&?&?&?), H2 as (?&?&?&?&?&?&?&?&?).
  repeat split; congruence.
Qed.

Lemma rows_same id ts :
  Forall2 (fun o n => n = o ∨ (BusTrip.id o = id ∧ same_trip o n)) ts ts.
Proof. induction ts; constructor; [by left|done]. Qed.

Lemma writes_to_refl id d : writes_to id d d.
Proof.
  constructor; try reflexivity;
    try (exists []; split; [by rewrite app_nil_r|constructor]).
  - apply rows_same.
  - exists []. by rewrite app_nil_r.
Qed.

Lemma writes_to_trans id d1 d2 d3 :
  writes_to id d1 d2 → writes_to id d2 d3 → writes_to id d1 d3.
Proof.
  intros [B1 R1 S1 A1 T1 (h1&H1&Hh1) (e1&E1&He1) (s1&C1&Hs1) (x1&X1&Hx1)
            (f1&F1)]
         [B2 R2 S2 A2 T2 (h2&H2&Hh2) (e2&E2&He2) (s2&C2&Hs2) (x2&X2&Hx2)
            (f2&F2)].
  constructor; try congruence.
  - revert T2. generalize (bus_trips d3).
    induction T1 as [|o m ts ms Hom _ IH]; intros l T2;
      inversion T2 as [|m' n ms' ns Hmn T2']; subst; constructor; [|by apply IH].
    destruct Hom as [-> | [Hid Hst]]; [exact Hmn|].
    destruct Hmn as [-> | [Hid' Hst']]; [by right|].
    right. split; [done|]. by eapply same_trip_trans.
  - exists (h1 ++ h2). rewrite H2, H1, app_assoc. split; [done|].
    by apply Forall_app.
  - exists (e1 ++ e2). rewrite E2, E1, app_assoc. split; [done|].
    by apply Forall_app.
  - exists (s1 ++ s2). rewrite C2, C1, app_assoc. split; [done|].
    by apply Forall_app.
  - exists (x1 ++ x2). rewrite X2, X1, app_assoc. split; [done|].
    by apply Forall_app.
  - exists (f1 ++ f2). by rewrite F2, F1, app_assoc.
Qed.

(** An UPDATE of the trip whose column list stays outside [same_trip]. *)
Lemma attempt_update_writes_to s id set d :
  (∀ t t', set t = Ok t' → BusTrip.status t' = BusTrip.status t
                            ∨ BusTrip.status t' = completed) →
  (∀ t t', set t = Ok t' → same_trip t t') →
  writes_to id d (attempt (update_bus_trips s id set d) d).
Proof.
  intros Hst Hsame.
  destruct (attempt_update_shape s id set d) as (rows & -> & Hrows).
  { intros t t' Hs. destruct (Hst t t' Hs) as [H|H].
    - by apply same_status_quiet.
    - unfold feed_trigger_fires. by rewrite H. }
  constructor; try reflexivity;
    try (exists []; split; [by rewrite app_nil_r|constructor]).
  - cbn [bus_trips with_bus_trips].
    induction Hrows as [|o n ts ns Hon _ IH]; constructor; [|exact IH].
    destruct Hon as [-> | [Hu Hs]]; [by left|right].
    apply andb_prop in Hu as [Hid _]. apply bool_decide_eq_true in Hid.
    split; [done|by apply Hsame].
  - exists []. by rewrite app_nil_r.
Qed.

Lemma writes_to_stop_event s id NEW d :
  StopEvent.trip_id NEW = id →
  writes_to id d (attempt (insert_bus_stop_events s NEW d) d).
Proof.
  intros Hid.
  destruct (insert_bus_stop_events_cases s NEW d) as [-> | ->];
    [apply writes_to_refl|].
  constructor; try reflexivity;
    try (exists []; split; [by rewrite app_nil_r|constructor]).
  - apply rows_same.
  - exists [NEW]. split; [done|]. by constructor.
  - exists []. by rewrite app_nil_r.
Qed.

Lemma writes_to_history s id NEW d :
  LocationFix.trip_id NEW = id →
  writes_to id d (attempt (insert_bus_location_history s NEW d) d).
Proof.
  intros Hid. unfold insert_bus_location_history.
  repeat match goal with
         | |- context [guard ?b ?e] => destruct b; cbn [guard bind attempt]
         end; try apply writes_to_refl.
  constructor; try reflexivity;
    try (exists []; split; [by rewrite app_nil_r|constructor]).
  - apply rows_same.
  - exists [NEW]. split; [done|]. by constructor.
  - exists []. by rewrite app_nil_r.
Qed.

Lemma writes_to_scan_append id NEW d :
  Scan.trip_id NEW = id →
  writes_to id d (with_student_bus_scans (student_bus_scans d ++ [NEW]) d).
Proof.
  intros Hid.
  constructor; try reflexivity;
    try (exists []; split; [by rewrite app_nil_r|constructor]).
  - apply rows_same.
  - exists [NEW]. split; [done|]. by constructor.
  - exists []. by rewrite app_nil_r.
Qed.

Lemma updateLocation_writes_to s id location now db_now d :
  writes_to id d (updateLocation s id location now db_now d).
Proof.
  unfold updateLocation.
  match goal with
  | |- writes_to id d (attempt _ (attempt ?upd d)) =>
      apply (writes_to_trans id d (attempt upd d))
  end.
  - apply attempt_update_writes_to.
    + intros t t' H. guarded H. by left.
    + intros t t' H. guarded H. by repeat split.
  - by apply writes_to_history.
Qed.

Lemma handleArriveAtStop_writes_to s id stop db_now d :
  writes_to id d (fst (handleArriveAtStop s id stop db_now d)).
Proof.
  unfold handleArriveAtStop. cbn [fst].
  match goal with
  | |- writes_to id d (attempt _ (attempt ?ins d)) =>
      apply (writes_to_trans id d (attempt ins d))
  end.
  - by apply writes_to_stop_event.
  - apply attempt_update_writes_to.
    + intros t t' H. guarded H. by left.
    + intros t t' H. guarded H. by repeat split.
Qed.

Lemma handleDepartFromStop_writes_to s id stop b e db_now d :
  writes_to id d (fst (handleDepartFromStop s id stop b e db_now d)).
Proof.
  unfold handleDepartFromStop. cbn [fst]. by apply writes_to_stop_event.
Qed.

Lemma insert_student_bus_scans_cases s NEW d :
  (∃ e, insert_student_bus_scans s NEW d = Err e)
  ∨ insert_student_bus_scans s NEW d
    = update_trip_student_count s NEW
        (with_student_bus_scans (student_bus_scans d ++ [NEW]) d).
Proof.
  unfold insert_student_bus_scans.
  destruct (trip_writer s d (Scan.trip_id NEW)); cbn [guard bind]; [|eauto].
  destruct (trip_exists d (Scan.trip_id NEW)); cbn [guard bind]; [|eauto].
  destruct (match Scan.stop_id NEW with
            | Some sid => stop_exists d sid
            | None => true
            end); cbn [guard bind]; eauto.
Qed.

Lemma handleScanStudent_writes_to s id scr student k db_now d :
  writes_to id d (fst (handleScanStudent s id scr student k db_now d)).
Proof.
  unfold handleScanStudent. cbn [fst].
  match goal with
  | |- context [insert_student_bus_scans s ?NEW d] =>
      destruct (insert_student_bus_scans_cases s NEW d) as [[e ->] | ->]
  end; [apply writes_to_refl|].
  unfold update_trip_student_count. cbn [Scan.trip_id].
  match goal with
  | |- context [update_bus_trips s id ?f ?d1] =>
      pose proof (attempt_update_writes_to s id f d1) as H;
      destruct (update_bus_trips s id f d1) as [d'|e] eqn:E
  end; cbn [attempt] in *; [|apply writes_to_refl].
  match type of E with
  | update_bus_trips _ _ _ ?d1 = _ => apply (writes_to_trans id d d1)
  end; [by apply writes_to_scan_append|].
  apply H.
  - intros t t' Hs. guarded Hs. by left.
  - intros t t' Hs. guarded Hs. by repeat split.
Qed.

Lemma handleEndTrip_writes_to s id now d :
  writes_to id d (fst (handleEndTrip s id now d)).
Proof.
  unfold handleEndTrip. cbn [fst]. apply attempt_update_writes_to.
  - intros t t' [= <-]. by right.
  - intros t t' [= <-]. by repeat split.
Qed.

Lemma handleSendAlert_writes_to s id scr new_id db_now d :
  writes_to id d (fst (handleSendAlert s id scr new_id db_now d)).
Proof. rewrite handleSendAlert_db. apply writes_to_refl. Qed.

Lemma driver_step_writes_to s id d d' :
  driver_step s id d d' → writes_to id d d'.
Proof.
  intros [d0 scr0 scr db_now _
         | d0 scr0 scr index db_now _
         | d0 scr0 scr index student db_now _ _
         | d0 location now db_now
         | d0 scr new_id db_now
         | d0 now].
  - unfold press_stop_button.
    destruct (stops_at _ _) as [cur|]; [|apply writes_to_refl].
    destruct (stop_button_of cur);
      [apply handleArriveAtStop_writes_to|apply handleDepartFromStop_writes_to
      |apply writes_to_refl].
  - unfold press_stop_button.
    destruct (stops_at _ _) as [cur|]; [|apply writes_to_refl].
    destruct (stop_button_of cur);
      [apply handleArriveAtStop_writes_to|apply handleDepartFromStop_writes_to
      |apply writes_to_refl].
  - apply handleScanStudent_writes_to.
  - apply updateLocation_writes_to.
  - apply handleSendAlert_writes_to.
  - apply handleEndTrip_writes_to.
Qed.

Lemma run_writes_to s id d d' :
  rtc (driver_step s id) d d' → writes_to id d d'.
Proof.
  induction 1 as [d|d d1 d' Hstep _ IH]; [apply writes_to_refl|].
  eapply writes_to_trans; [by eapply driver_step_writes_to|exact IH].
Qed.

(** The run of the concrete day: arrive at the first stop, depart from it. *)
Lemma day_run :
  rtc (driver_step driver1 "trip-1") (day in_progress) day_departed.
Proof.
  eapply rtc_l.
  - apply (step_stop_button_at driver1 "trip-1" (day in_progress) blank
             (loaded (day in_progress)) 0%nat 2000).
    split; [vm_compute; eauto|reflexivity].
  - eapply rtc_l; [|apply rtc_refl].
    apply (step_stop_button_at driver1 "trip-1" day_arrived blank
             (loaded day_arrived) 0%nat 2001).
    split; [vm_compute; eauto|reflexivity].
Qed.

(** ** Reloading the screen after a write *)

Lemma single_filter {A} (p : A → bool) l t :
  single (List.filter p l) = Some t → List.filter p l = [t].
Proof.
  unfold single. destruct (List.filter p l) as [|x [|y r]]; [done| |done].
  by intros [= ->].
Qed.


Lemma insert_by_stop_number_perm x l :
  Permutation (insert_by_stop_number x l) (x :: l).
Proof.
  induction l as [|y l IH]; [done|]. cbn [insert_by_stop_number].
  destruct (Stop.stop_number x <=? Stop.stop_number y); [done|].
  rewrite IH. apply perm_swap.
Qed.

Lemma order_by_stop_number_perm l : Permutation (order_by_stop_number l) l.
Proof.
  induction l as [|x l IH]; [done|]. unfold order_by_stop_number in *.
  cbn [fold_right]. rewrite insert_by_stop_number_perm. by constructor.
Qed.

Lemma has_board_scan_grows d d' id sid ss :
  student_bus_scans d' = student_bus_scans d ++ ss →
  has_board_scan d id sid = true → has_board_scan d' id sid = true.
Proof.
  unfold has_board_scan. intros ->. rewrite existsb_app. by intros ->.
Qed.



Lemma embedded_student_id s d a st :
  embedded_student s d a = Some st →
  SchoolStudent.id st = Assignment.student_id a.
Proof.
  intros H. apply find_some in H as [_ H]. by apply bool_decide_eq_true in H.
Qed.

(** The student list is built exactly when the session sees the student of
    every assignment of the roster, and then it is the roster, row by row. *)
Lemma studentsData_eq s d id t :
  studentsData s d id t
  = if sees_roster s d t
    then Some (List.map (student_row d id t) (roster d t)) else None.
Proof.
  unfold studentsData, sees_roster, roster, student_row. cbv zeta.
  destruct (bool_decide (BusTrip.trip_type t = morning));
    match goal with
    | |- context [List.filter ?p (student_bus_assignments d)] =>
        generalize (List.filter p (student_bus_assignments d))
    end;
    intros L; induction L as [|a L IH]; try reflexivity;
    cbn [mapM forallb List.map];
    destruct (embedded_student s d a) as [st|] eqn:E; cbn; try reflexivity;
    rewrite IH, (embedded_student_id _ _ _ _ E),
      boardedStudents_has_board_scan;
    by destruct (forallb _ L).
Qed.

Lemma fetchTripData_quiet s id d scr0 scr :
  fetchTripData s id d scr0 = (scr, quiet) →
  ∃ t,
    tripQuery d id = Some t
    ∧ sees_roster s d t = true
    ∧ scr
      = mkscreen
          (Some (Trip.mk t (find_route d (BusTrip.route_id t))
                   (find_bus d (BusTrip.bus_id t))))
          (stopsWithEvents d id (BusTrip.route_id t))
          (List.map (student_row d id t) (roster d t))
          (BusTrip.current_stop_index t) (alertType scr0).
Proof.
  unfold fetchTripData. destruct (tripQuery d id) as [t|]; [|discriminate].
  cbv zeta. rewrite studentsData_eq.
  destruct (sees_roster s d t) eqn:Hsee; [|discriminate]. intros [= <-].
  exists t. by repeat split.
Qed.


Lemma filter_same_rows id ts rows :
  Forall2 (fun o n => n = o ∨ (BusTrip.id o = id ∧ same_trip o n)) ts rows →
  Forall2 (fun o n => same_trip o n)
    (List.filter (fun t => bool_decide (BusTrip.id t = id)) ts)
    (List.filter (fun t => bool_decide (BusTrip.id t = id)) rows).
Proof.
  induction 1 as [|o n ts rows Hon _ IH]; [constructor|].
  assert (Hs : same_trip o n).
  { destruct Hon as [-> | [_ Hs]]; [apply same_trip_refl|exact Hs]. }
  cbn [List.filter]. destruct Hs as (Hid & Hrest). rewrite Hid.
  destruct (bool_decide (BusTrip.id o = id)); [|exact IH].
  constructor; [by split|exact IH].
Qed.

Lemma tripQuery_same_rows id d d' t :
  Forall2 (fun o n => n = o ∨ (BusTrip.id o = id ∧ same_trip o n))
    (bus_trips d) (bus_trips d') →
  tripQuery d id = Some t →
  ∃ t', tripQuery d' id = Some t' ∧ same_trip t t'.
Proof.
  intros H Hq. apply single_filter in Hq. apply filter_same_rows in H.
  unfold tripQuery. rewrite Hq in H.
  inversion H as [|? t' ? l' Hs Hnil Ht Hl]; subst.
  inversion Hnil; subst. exists t'. by split.
Qed.

Lemma roster_same d d' t t' :
  student_bus_assignments d' = student_bus_assignments d →
  same_trip t t' → roster d' t' = roster d t.
Proof.
  intros Ha (_ & _ & Hr & _ & _ & _ & Hk & _). unfold roster.
  by rewrite Ha, Hr, Hk.
Qed.

(** A screen that has loaded in full loads in full again after any writes on
    behalf of the trip, with the same students; only the boarded flags are
    read again. *)
Lemma reload_students s id d d' scr0 scr scr1 :
  writes_to id d d' →
  fetchTripData s id d scr0 = (scr, quiet) →
  ∃ t scr',
    tripQuery d id = Some t
    ∧ students scr = List.map (student_row d id t) (roster d t)
    ∧ fetchTripData s id d' scr1 = (scr', quiet)
    ∧ students scr' = List.map (student_row d' id t) (roster d t).
Proof.
  intros [_ _ _ Ha Hrows _ _ _ _ _ Hst Hg] Hload.
  apply fetchTripData_quiet in Hload as (t & Hq & Hsee & ->).
  destruct (tripQuery_same_rows id d d' t Hrows Hq) as (t' & Hq' & Hsame).
  exists t. eexists. split; [exact Hq|]. split; [reflexivity|].
  unfold fetchTripData. rewrite Hq'. cbv zeta. rewrite studentsData_eq.
  assert (Hsee' : sees_roster s d' t' = true).
  { rewrite <- Hsee. unfold sees_roster.
    rewrite (roster_same d d' t t') by done.
    unfold embedded_student, view_students, is_guardian_of.
    by rewrite Hst, Hg. }
  rewrite Hsee'. split; [reflexivity|]. cbn [students].
  rewrite (roster_same d d' t t') by done. apply map_ext. intros a.
  unfold student_row. destruct Hsame as (_ & _ & _ & _ & _ & _ & Hk & _).
  by rewrite Hk.
Qed.

(** The run of the taps: an admin of the school boards the student of the
    route and taps the row again. *)
Lemma taps_run :
  rtc (driver_step admin1 "trip-1") (day in_progress)
    (tap_student 0 2001 (tap_student 0 2000 (day in_progress))).
Proof.
  eapply rtc_l.
  - apply (step_student admin1 "trip-1" (day in_progress) blank
             (loaded_by admin1 (day in_progress)) 0%nat student1 2000).
    + split; [vm_compute; eauto|reflexivity].
    + vm_compute. auto.
  - eapply rtc_l; [|apply rtc_refl].
    match goal with
    | |- driver_step _ _ ?d1 ?d2 =>
        assert (d2 = fst (press_student admin1 "trip-1"
                            (select_stop 0 (loaded_by admin1 d1))
                            (Student.mk "S1" (Some "stop-1") true) 2001 d1))
          as -> by (vm_compute; reflexivity);
        apply (step_student admin1 "trip-1" d1 blank (loaded_by admin1 d1)
                 0%nat (Student.mk "S1" (Some "stop-1") true) 2001)
    end.
    + split; [vm_compute; eauto|reflexivity].
    + vm_compute. auto.
Qed.

(** ** C10: who is shown as on the bus *)




(** The same day on the screen of an admin: board, exit, and a further exit. *)
Example boarded_after_exit :
  let d2 := tap_student 0 2001 (tap_student 0 2000 (day in_progress)) in
  List.map Scan.scan_type (scan_log d2 "trip-1") = [board; exit]
  ∧ List.map Student.boarded (students (loaded_by admin1 d2)) = [true]
  ∧ List.map Scan.scan_type (scan_log (tap_student 0 2002 d2) "trip-1")
    = [board; exit; exit].
Proof. cbv zeta. repeat split; vm_compute; reflexivity. Qed.

(** The driver of the day is no guardian of the student of the route: the
    policy of students hides the student, building the student list throws,
    and the screen holds the trip and its stops, no student, and the dialog
    'Failed to load trip data'. *)
Example driver_screen_lists_no_student :
  embedded_student driver1 (day in_progress)
    (Assignment.mk "S1" (Some "route-1") (Some "stop-1") None None true)
  = None
  ∧ snd (fetchTripData driver1 "trip-1" (day in_progress) blank)
    = dialog "Error" "Failed to load trip data"
  ∧ students (loaded (day in_progress)) = []
  ∧ List.map BusStop.id (stops (loaded (day in_progress)))
    = ["stop-1"; "stop-2"; "stop-3"]
  ∧ snd (fetchTripData admin1 "trip-1" (day in_progress) blank) = quiet.
Proof. repeat split; vm_compute; reflexivity. Qed.

(** ** X1: the logs only grow *)

(** X1.  Over any sequence of actions on the trip screen (stop button, student
    tap, position fix, alert, End Trip), no row of a log is deleted or
    rewritten: the location history, the stop events, the scans, the alerts
    and the feed items of the start are a prefix of those of the end.  The
    tables of routes, buses, stops and assignments are not written, and
    bus_trips keeps the number of its rows. *)
Theorem logs_only_grow s id d d' :
  rtc (driver_step s id) d d' →
  (∃ hs, bus_location_history d' = bus_location_history d ++ hs)
  ∧ (∃ es, bus_stop_events d' = bus_stop_events d ++ es)
  ∧ (∃ ss, student_bus_scans d' = student_bus_scans d ++ ss)
  ∧ (∃ xs, bus_alerts d' = bus_alerts d ++ xs)
  ∧ (∃ fs, feed_items d' = feed_items d ++ fs)
  ∧ bus_routes d' = bus_routes d ∧ buses d' = buses d
  ∧ bus_stops d' = bus_stops d
  ∧ student_bus_assignments d' = student_bus_assignments d
  ∧ length (bus_trips d') = length (bus_trips d).
Proof.
  intros Hrun. apply run_writes_to in Hrun.
  destruct Hrun as [B R S A T (hs&H&_) (es&E&_) (ss&C&_) (xs&X&_) F].
  repeat split; eauto. symmetry. by eapply Forall2_length.
Qed.

Lemma logs_only_grow_witness :
  (∃ hs, bus_location_history day_departed
         = bus_location_history (day in_progress) ++ hs)
  ∧ (∃ es, bus_stop_events day_departed
           = bus_stop_events (day in_progress) ++ es)
  ∧ (∃ ss, student_bus_scans day_departed
           = student_bus_scans (day in_progress) ++ ss)
  ∧ (∃ xs, bus_alerts day_departed = bus_alerts (day in_progress) ++ xs)
  ∧ (∃ fs, feed_items day_departed = feed_items (day in_progress) ++ fs)
  ∧ bus_routes day_departed = bus_routes (day in_progress)
  ∧ buses day_departed = buses (day in_progress)
  ∧ bus_stops day_departed = bus_stops (day in_progress)
  ∧ student_bus_assignments day_departed
    = student_bus_assignments (day in_progress)
  ∧ length (bus_trips day_departed) = length (bus_trips (day in_progress)).
Proof.
  exact (logs_only_grow driver1 "trip-1" (day in_progress) day_departed
           day_run).
Defined.

(** ** X2: trips do not interfere *)

Lemma find_trip_other_rows id id' ts rows :
  Forall2 (fun o n => n = o ∨ (BusTrip.id o = id ∧ same_trip o n)) ts rows →
  id' ≠ id →
  List.find (fun t => bool_decide (BusTrip.id t = id')) rows
  = List.find (fun t => bool_decide (BusTrip.id t = id')) ts.
Proof.
  intros H Hne. induction H as [|o n ts rows Hon _ IH]; [done|].
  cbn [List.find]. rewrite IH.
  destruct Hon as [-> | [Hid Hs]]; [done|].
  destruct Hs as (Hn & _).
  rewrite !bool_decide_eq_false_2 by congruence. reflexivity.
Qed.

Lemma filter_app_none {A} (f : A → bool) l extra :
  Forall (fun x => f x = false) extra →
  List.filter f (l ++ extra) = List.filter f l.
Proof.
  intros H. rewrite List.filter_app.
  assert (E : List.filter f extra = []).
  { induction H as [|x xs Hx _ IH]; [done|]. cbn [List.filter].
    by rewrite Hx. }
  by rewrite E, app_nil_r.
Qed.

(** X2.  Whatever is done on the screen of one trip, every other trip stays
    as it was: its row (snapshot, stop pointer, occupancy count, status) and
    its fix log, stop-event log and scan log are unchanged. *)
Theorem other_trips_are_untouched s id id' d d' :
  rtc (driver_step s id) d d' →
  id' ≠ id →
  find_trip d' id' = find_trip d id'
  ∧ fix_log d' id' = fix_log d id'
  ∧ event_log d' id' = event_log d id'
  ∧ scan_log d' id' = scan_log d id'.
Proof.
  intros Hrun Hne. apply run_writes_to in Hrun.
  destruct Hrun as [_ _ _ _ T (hs&H&Hh) (es&E&He) (ss&C&Hs) _ _].
  split; [by apply (find_trip_other_rows id)|].
  unfold fix_log, event_log, scan_log. rewrite H, E, C.
  repeat split; apply filter_app_none;
    (eapply Forall_impl; [eassumption|]); cbn beta; intros x <-;
    by apply bool_decide_eq_false_2.
Qed.

Lemma two_trips_run :
  rtc (driver_step admin1 "trip-1") two_trips
    (fst (handleScanStudent admin1 "trip-1" (loaded_by admin1 two_trips)
            student1 board 2000 two_trips)).
Proof.
  apply rtc_once.
  pose proof (step_student admin1 "trip-1" two_trips blank
                (loaded_by admin1 two_trips) 0%nat student1 2000) as H.
  apply H; [split; [vm_compute; eauto|reflexivity]|vm_compute; auto].
Qed.

Lemma other_trips_are_untouched_witness :
  find_trip
    (fst (handleScanStudent admin1 "trip-1" (loaded_by admin1 two_trips)
            student1 board 2000 two_trips)) "trip-2" = find_trip two_trips "trip-2"
  ∧ fix_log
      (fst (handleScanStudent admin1 "trip-1" (loaded_by admin1 two_trips)
              student1 board 2000 two_trips)) "trip-2" = fix_log two_trips "trip-2"
  ∧ event_log
      (fst (handleScanStudent admin1 "trip-1" (loaded_by admin1 two_trips)
              student1 board 2000 two_trips)) "trip-2" = event_log two_trips "trip-2"
  ∧ scan_log
      (fst (handleScanStudent admin1 "trip-1" (loaded_by admin1 two_trips)
              student1 board 2000 two_trips)) "trip-2" = scan_log two_trips "trip-2".
Proof.
  apply (other_trips_are_untouched admin1 "trip-1" "trip-2" two_trips _
           two_trips_run).
  discriminate.
Defined.

(** ** X3: a trip keeps its identity *)

Lemma find_trip_same_rows id ts rows t :
  Forall2 (fun o n => n = o ∨ (BusTrip.id o = id ∧ same_trip o n)) ts rows →
  List.find (fun x => bool_decide (BusTrip.id x = id)) ts = Some t →
  ∃ t', List.find (fun x => bool_decide (BusTrip.id x = id)) rows = Some t'
        ∧ same_trip t t'.
Proof.
  intros H. induction H as [|o n ts rows Hon _ IH]; [done|].
  cbn [List.find]. intros Hf.
  assert (Hid : BusTrip.id n = BusTrip.id o ∧ same_trip o n).
  { destruct Hon as [-> | [_ Hs]]; [split; [done|apply same_trip_refl]|].
    split; [apply Hs|done]. }
  destruct Hid as [Hid Hs]. rewrite Hid.
  destruct (bool_decide (BusTrip.id o = id)); [|by apply IH].
  injection Hf as <-. eauto.
Qed.

Lemma trip_keys_same id ts rows :
  Forall2 (fun o n => n = o ∨ (BusTrip.id o = id ∧ same_trip o n)) ts rows →
  List.map trip_key rows = List.map trip_key ts
  ∧ List.map BusTrip.id rows = List.map BusTrip.id ts.
Proof.
  induction 1 as [|o n ts rows Hon _ [IH1 IH2]]; [done|].
  cbn [List.map]. rewrite IH1, IH2.
  destruct Hon as [-> | [_ (?&?&?&?&?&?&?&?&?)]]; [done|].
  unfold trip_key. split; congruence.
Qed.

(** X3.  No action on the trip screen changes what identifies a trip: after
    any sequence of actions the trip is still found under its id, with the
    same school, route, bus, driver, date, direction, scheduled and actual
    start; the ids and the (route_id, trip_date, trip_type) keys of bus_trips
    are the same list, so the table still satisfies its UNIQUE constraint. *)
Theorem trip_keeps_its_identity s id d d' t :
  rtc (driver_step s id) d d' →
  find_trip d id = Some t →
  (∃ t', find_trip d' id = Some t' ∧ same_trip t t')
  ∧ List.map BusTrip.id (bus_trips d') = List.map BusTrip.id (bus_trips d)
  ∧ List.map trip_key (bus_trips d') = List.map trip_key (bus_trips d)
  ∧ (trip_keys_unique d → trip_keys_unique d').
Proof.
  intros Hrun Hf. apply run_writes_to in Hrun.
  destruct Hrun as [_ _ _ _ T _ _ _ _ _].
  destruct (trip_keys_same id _ _ T) as [Hk Hi].
  split; [by apply (find_trip_same_rows id _ _ t T)|].
  split; [done|]. split; [done|].
  unfold trip_keys_unique. by rewrite Hk.
Qed.

Lemma trip_keeps_its_identity_witness :
  (∃ t', find_trip day_departed "trip-1" = Some t'
         ∧ same_trip (trip1 in_progress) t')
  ∧ List.map BusTrip.id (bus_trips day_departed)
    = List.map BusTrip.id (bus_trips (day in_progress))
  ∧ List.map trip_key (bus_trips day_departed)
    = List.map trip_key (bus_trips (day in_progress))
  ∧ (trip_keys_unique (day in_progress) → trip_keys_unique day_departed).
Proof.
  apply (trip_keeps_its_identity driver1 "trip-1" (day in_progress)
           day_departed (trip1 in_progress) day_run).
  reflexivity.
Defined.

(** ** X4: writes without permission *)




(** ** X5: who writes alerts and feed items *)

Lemma attempt_update_feed s id set d :
  (∀ t t', set t = Ok t' → feed_trigger_fires t t' = false) →
  feed_items (attempt (update_bus_trips s id set d) d) = feed_items d
  ∧ bus_alerts (attempt (update_bus_trips s id set d) d) = bus_alerts d.
Proof.
  intros Hq. destruct (attempt_update_shape s id set d Hq) as (rows & -> & _).
  by split.
Qed.

Lemma insert_bus_location_history_cases s NEW d :
  attempt (insert_bus_location_history s NEW d) d = d
  ∨ attempt (insert_bus_location_history s NEW d) d
    = with_bus_location_history (bus_location_history d ++ [NEW]) d.
Proof.
  unfold insert_bus_location_history.
  repeat match goal with
         | |- context [guard ?b ?e] => destruct b; cbn [guard bind attempt]
         end; auto.
Qed.

(** X5.  Of the handlers of the trip screen only Send Alert addresses
    bus_alerts and feed_items: a position fix, an arrival, a departure, a scan
    and End Trip leave both tables as they were, for every caller and every
    database (the trigger on bus_trips writes a feed item only when a trip
    enters in_progress, which none of these updates does). *)
Theorem only_alerts_reach_the_feed
  s id scr stop student k b e location now db_now d :
  (feed_items (updateLocation s id location now db_now d) = feed_items d
   ∧ bus_alerts (updateLocation s id location now db_now d) = bus_alerts d)
  ∧ (feed_items (fst (handleArriveAtStop s id stop db_now d)) = feed_items d
     ∧ bus_alerts (fst (handleArriveAtStop s id stop db_now d))
       = bus_alerts d)
  ∧ (feed_items (fst (handleDepartFromStop s id stop b e db_now d))
     = feed_items d
     ∧ bus_alerts (fst (handleDepartFromStop s id stop b e db_now d))
       = bus_alerts d)
  ∧ (feed_items (fst (handleScanStudent s id scr student k db_now d))
     = feed_items d
     ∧ bus_alerts (fst (handleScanStudent s id scr student k db_now d))
       = bus_alerts d)
  ∧ (feed_items (fst (handleEndTrip s id now d)) = feed_items d
     ∧ bus_alerts (fst (handleEndTrip s id now d)) = bus_alerts d).
Proof.
  split; [|split; [|split; [|split]]].
  - unfold updateLocation.
    match goal with
    | |- context [attempt (insert_bus_location_history s ?r ?d1) ?d1] =>
        destruct (insert_bus_location_history_cases s r d1) as [-> | ->]
    end; cbn [feed_items bus_alerts with_bus_location_history];
      apply attempt_update_feed; intros t t' H; guarded H;
      by apply same_status_quiet.
  - unfold handleArriveAtStop. cbn [fst].
    match goal with
    | |- context [update_bus_trips s id ?f ?d1] =>
        destruct (attempt_update_feed s id f d1) as [-> ->]
    end.
    + intros t t' H. guarded H. by apply same_status_quiet.
    + match goal with
      | |- context [insert_bus_stop_events s ?ev d] =>
          destruct (insert_bus_stop_events_cases s ev d) as [-> | ->]
      end; by split.
  - unfold handleDepartFromStop. cbn [fst].
    match goal with
    | |- context [insert_bus_stop_events s ?ev d] =>
        destruct (insert_bus_stop_events_cases s ev d) as [-> | ->]
    end; by split.
  - unfold handleScanStudent. cbn [fst].
    match goal with
    | |- context [insert_student_bus_scans s ?NEW d] =>
        destruct (insert_student_bus_scans_cases s NEW d) as [[err ->] | ->]
    end; [by split|].
    unfold update_trip_student_count. cbn [Scan.trip_id].
    match goal with
    | |- context [update_bus_trips s id ?f ?d1] =>
        pose proof (attempt_update_feed s id f d1) as H;
        destruct (update_bus_trips s id f d1) as [d'|err]
    end; cbn [attempt] in *; [|by split].
    apply H. intros t t' Hs. guarded Hs. by apply same_status_quiet.
  - rewrite handleEndTrip_eq. by split.
Qed.

(** ** X6: INSERT INTO bus_alerts *)

(** X6.  bus_alerts accepts no row.  An INSERT is refused for every caller and
    leaves the database as it was: with insufficient_privilege when the policy
    bus_alerts_manage does not admit the row (another school, or a caller who
    is neither admin nor driver), and, for a row the policy admits whose id is
    fresh and whose trip and route exist, with datatype_mismatch from the
    trigger create_bus_alert_feed_item, whatever the severity of the alert. *)
Theorem bus_alerts_accepts_no_row s a d :
  (∃ e, insert_bus_alerts s a d = Err e)
  ∧ attempt (insert_bus_alerts s a d) d = d
  ∧ (bus_alerts_manage s a = false →
     insert_bus_alerts s a d = Err insufficient_privilege)
  ∧ (role s ≠ admin → role s ≠ driver →
     insert_bus_alerts s a d = Err insufficient_privilege)
  ∧ (bus_alerts_manage s a = true →
     alert_id_taken d (Alert.id a) = false →
     (∀ tid, Alert.trip_id a = Some tid → trip_exists d tid = true) →
     (∀ rid, Alert.route_id a = Some rid → route_exists d rid = true) →
     insert_bus_alerts s a d = Err datatype_mismatch).
Proof.
  assert (Hno : bus_alerts_manage s a = false →
                insert_bus_alerts s a d = Err insufficient_privilege).
  { intros H. unfold insert_bus_alerts. by rewrite H. }
  split; [apply insert_bus_alerts_raises|].
  split; [by destruct (insert_bus_alerts_raises s a d) as [e ->]|].
  split; [exact Hno|]. split.
  - intros Ha Hd. by apply Hno, alerts_policy_needs_admin_or_driver.
  - intros Hman Hid Htrip Hroute. apply insert_bus_alerts_admitted; try done.
    + destruct (Alert.trip_id a) as [tid|]; [by apply Htrip|done].
    + destruct (Alert.route_id a) as [rid|]; [by apply Hroute|done].
Qed.

(** ** X7: startTrip as it is written *)

(** X7.  startTrip never creates a trip.  When the screen holds an active
    trip it shows the 'Active Trip' dialog; otherwise it sends an INSERT whose
    bus_id is the embedded bus object of the route (or null when the route
    has no bus number), which bus_trips refuses on every database.  In both
    cases the database is unchanged and no trip is opened. *)
Theorem startTrip_never_creates_a_trip
  s activeTrip route today currentHour now new_id d :
  fst (startTrip s activeTrip route today currentHour now new_id d) = d
  ∧ (∀ t,
       snd (startTrip s activeTrip route today currentHour now new_id d)
       ≠ trip_started t)
  ∧ (activeTrip = None →
     ∃ e,
       snd (startTrip s activeTrip route today currentHour now new_id d)
       = failed_to_start e
       ∧ (e = invalid_text_representation ∨ e = insufficient_privilege
          ∨ e = not_null_violation)).
Proof.
  unfold startTrip. destruct activeTrip as [held|].
  { split; [done|]. split; [done|discriminate]. }
  unfold insert_bus_trips, bus_id_of_route. cbn [TripInsert.bus_id].
  destruct (BusRoute.bus route) as [b|]; [destruct (bool_decide _)|];
    cbn [json_to_uuid bind];
    try (destruct (bus_trips_driver_on s _ _); cbn [guard bind]);
    (split; [done|]); (split; [done|]); intros _; eauto 6.
Qed.

(** ** X8, X9, X10: INSERT INTO bus_trips *)

Lemma insert_feed_items_all_shape s fs d d' :
  insert_feed_items_all s fs d = Ok d' →
  d' = with_feed_items (feed_items d ++ fs) d
  ∧ Forall (fun f => staff_can_create_feed_items s f = true) fs.
Proof.
  revert d. induction fs as [|f fs IH]; intros d; cbn [insert_feed_items_all].
  - intros [= <-]. rewrite app_nil_r. by destruct d.
  - unfold insert_feed_items at 1.
    destruct (staff_can_create_feed_items s f) eqn:Hf; cbn [guard bind];
      [|done].
    intros H. destruct (IH _ H) as [-> Hall]. split; [|by constructor].
    cbn [feed_items with_feed_items]. rewrite <- app_assoc. by destruct d.
Qed.

Lemma insert_feed_items_all_ok s fs d :
  Forall (fun f => staff_can_create_feed_items s f = true) fs →
  insert_feed_items_all s fs d = Ok (with_feed_items (feed_items d ++ fs) d).
Proof.
  revert d. induction fs as [|f fs IH]; intros d Hall;
    cbn [insert_feed_items_all].
  - rewrite app_nil_r. by destruct d.
  - inversion Hall as [|? ? Hf Hrest]; subst. unfold insert_feed_items at 1.
    rewrite Hf. cbn [guard bind]. rewrite IH by done.
    cbn [feed_items with_feed_items]. rewrite <- app_assoc. by destruct d.
Qed.

Lemma create_bus_feed_item_shape s o n d d' :
  create_bus_feed_item s o n d = Ok d' →
  ∃ fs, d' = with_feed_items (feed_items d ++ fs) d.
Proof.
  unfold create_bus_feed_item. destruct (_ && _).
  - intros H. apply insert_feed_items_all_shape in H as [-> _]. eauto.
  - intros [= <-]. exists []. rewrite app_nil_r. by destruct d.
Qed.

Lemma trip_key_free d t :
  trip_key_taken d (BusTrip.route_id t) (BusTrip.trip_date t)
    (BusTrip.trip_type t) = false →
  ¬ In (trip_key t) (List.map trip_key (bus_trips d)).
Proof.
  intros Hfree Hin. apply in_map_iff in Hin as (x & Hk & Hin).
  unfold trip_key in Hk. injection Hk as H1 H2 H3.
  assert (trip_key_taken d (BusTrip.route_id t) (BusTrip.trip_date t)
            (BusTrip.trip_type t) = true); [|congruence].
  apply existsb_exists. exists x. split; [done|].
  by rewrite !bool_decide_eq_true_2.
Qed.

(** X8.  A (route_id, trip_date, trip_type) key is used once.  An INSERT into
    bus_trips is refused when any trip has the key, whatever its status: a
    completed or cancelled trip blocks a second run of the route in the same
    direction on the same day.  An INSERT that is accepted appends exactly
    the new row, with the key and the id of the request and with stop pointer
    and occupancy count 0, and leaves the keys of the table pairwise
    different. *)
Theorem trip_key_is_used_once s new_id body d :
  (∀ t,
     In t (bus_trips d) →
     trip_key t
     = (TripInsert.route_id body, TripInsert.trip_date body,
        TripInsert.trip_type body) →
     ∃ e, insert_bus_trips s new_id body d = Err e)
  ∧ (∀ d' NEW,
       insert_bus_trips s new_id body d = Ok (d', NEW) →
       bus_trips d' = bus_trips d ++ [NEW]
       ∧ BusTrip.id NEW = new_id
       ∧ trip_key NEW
         = (TripInsert.route_id body, TripInsert.trip_date body,
            TripInsert.trip_type body)
       ∧ BusTrip.current_stop_index NEW = 0
       ∧ BusTrip.students_on_board NEW = 0
       ∧ (trip_keys_unique d → trip_keys_unique d')).
Proof.
  split.
  - intros t Hin Hk. apply insert_bus_trips_key_taken.
    pose proof (trip_key_taken_by d t Hin) as H. unfold trip_key in Hk.
    injection Hk as <- <- <-. exact H.
  - intros d' NEW. unfold insert_bus_trips.
    destruct (json_to_uuid (TripInsert.bus_id body)) as [[bus|]|e];
      cbn [bind]; [| |done];
      (destruct (bus_trips_driver_on s _ _); cbn [guard bind]; [|done]);
      [|done].
    destruct (negb (trip_id_taken d new_id)); cbn [guard bind]; [|done].
    destruct (trip_key_taken d _ _ _) eqn:Hfree; cbn [negb guard bind];
      [done|].
    destruct (route_exists d _ && bus_exists d bus); cbn [guard bind];
      [|done].
    destruct (create_bus_feed_item s None _ _) as [d1|e] eqn:E;
      cbn [bind]; [|done].
    intros [= <- <-]. apply create_bus_feed_item_shape in E as (fs & ->).
    cbn [bus_trips with_feed_items with_bus_trips].
    repeat split. unfold trip_keys_unique.
    cbn [bus_trips with_feed_items with_bus_trips].
    rewrite List.map_app. cbn [List.map]. intros Hnd.
    apply NoDup_app. split; [done|]. split.
    + intros k Hk Hk'. apply list_elem_of_In in Hk, Hk'.
      destruct Hk' as [<-|[]]. revert Hk. by apply trip_key_free.
    + apply NoDup_singleton.
Qed.

Lemma route_and_bus_exist s d route_id bus_id r b :
  route_and_bus_seen s d route_id bus_id r b →
  route_exists d route_id && bus_exists d bus_id = true.
Proof.
  intros [Hr Hb]. apply andb_true_intro. split.
  - assert (Hin : In r (List.filter
                          (fun x => bus_routes_select s x
                                    && bool_decide (Route.id x = route_id))
                          (bus_routes d))) by (rewrite Hr; by left).
    apply filter_In in Hin as [Hin H]. apply andb_prop in H as [_ H].
    apply existsb_exists. eauto.
  - assert (Hin : In b (List.filter
                          (fun x => buses_select s x
                                    && bool_decide (Bus.id x = bus_id))
                          (buses d))) by (rewrite Hb; by left).
    apply filter_In in Hin as [Hin H]. apply andb_prop in H as [_ H].
    apply existsb_exists. eauto.
Qed.

(** A well-formed INSERT the policy admits, with a fresh id and a free key,
    comes down to the trigger. *)
Lemma insert_bus_trips_to_trigger s new_id body d bus_id r b :
  TripInsert.bus_id body = JString bus_id →
  bus_trips_driver_on s (TripInsert.school_id body) (TripInsert.driver_id body)
  = true →
  trip_id_taken d new_id = false →
  trip_key_taken d (TripInsert.route_id body) (TripInsert.trip_date body)
    (TripInsert.trip_type body) = false →
  route_and_bus_seen s d (TripInsert.route_id body) bus_id r b →
  insert_bus_trips s new_id body d
  = (d' ←r create_bus_feed_item s None (trip_of_body new_id bus_id body)
             (with_bus_trips
                (bus_trips d ++ [trip_of_body new_id bus_id body]) d) ;
     Ok (d', trip_of_body new_id bus_id body)).
Proof.
  intros Hb Hp Hid Hkey Hseen. unfold insert_bus_trips.
  rewrite Hb, Hp, Hid, Hkey. cbn [json_to_uuid bind guard negb].
  rewrite (route_and_bus_exist _ _ _ _ _ _ Hseen). reflexivity.
Qed.

(** X9.  When an admin of the school inserts a trip (well-formed body, fresh
    id, free key, route and bus visible), the trip is appended; if it is
    inserted as in_progress the trigger appends one feed item 'Bus <number>
    is on the way' / 'Route <number> (<name>) has started' with priority
    normal and the ids of the trip, route and bus as metadata; for any other
    status no feed item is written. *)
Theorem admin_trip_is_announced s new_id body d bus_id r b :
  role s = admin →
  TripInsert.school_id body = user_school_id s →
  TripInsert.bus_id body = JString bus_id →
  trip_id_taken d new_id = false →
  trip_key_taken d (TripInsert.route_id body) (TripInsert.trip_date body)
    (TripInsert.trip_type body) = false →
  route_and_bus_seen s d (TripInsert.route_id body) bus_id r b →
  ∃ d',
    insert_bus_trips s new_id body d = Ok (d', trip_of_body new_id bus_id body)
    ∧ bus_trips d' = bus_trips d ++ [trip_of_body new_id bus_id body]
    ∧ feed_items d'
      = feed_items d
        ++ (if bool_decide (TripInsert.status body = in_progress)
            then [feed_item_of_trip (trip_of_body new_id bus_id body) r b]
            else []).
Proof.
  intros Hrole Hschool Hb Hid Hkey Hseen.
  rewrite (insert_bus_trips_to_trigger s new_id body d bus_id r b);
    try done.
  2:{ unfold bus_trips_driver_on, same_school.
      rewrite Hschool, Hrole, !bool_decide_eq_true_2 by done.
      apply orb_true_r. }
  unfold create_bus_feed_item.
  cbn [trip_of_body BusTrip.status BusTrip.route_id BusTrip.bus_id andb
       buses bus_routes with_bus_trips].
  rewrite andb_true_r.
  destruct (bool_decide (TripInsert.status body = in_progress)).
  - destruct Hseen as [-> ->]. cbn [flat_map List.map app].
    rewrite insert_feed_items_all_ok.
    + cbn [bind]. eexists. split; [reflexivity|]. by split.
    + constructor; [|constructor].
      unfold staff_can_create_feed_items, same_school.
      cbn [FeedItem.school_id BusTrip.school_id trip_of_body].
      rewrite Hschool, Hrole.
      by rewrite (bool_decide_eq_true_2 (user_school_id s = user_school_id s)).
  - cbn [bind]. eexists. split; [reflexivity|]. split; [done|].
    cbn [feed_items with_bus_trips]. by rewrite app_nil_r.
Qed.

Lemma admin_trip_is_announced_witness :
  ∃ d',
    insert_bus_trips admin1 "trip-3" (body2 in_progress) (day completed)
    = Ok (d', trip_of_body "trip-3" "bus-1" (body2 in_progress))
    ∧ bus_trips d'
      = bus_trips (day completed)
        ++ [trip_of_body "trip-3" "bus-1" (body2 in_progress)]
    ∧ feed_items d'
      = feed_items (day completed)
        ++ (if bool_decide (TripInsert.status (body2 in_progress) = in_progress)
            then [feed_item_of_trip
                    (trip_of_body "trip-3" "bus-1" (body2 in_progress))
                    (Route.mk "route-1" "school-1" "R1" "North" None)
                    (Bus.mk "bus-1" "school-1" "12")]
            else []).
Proof.
  apply (admin_trip_is_announced admin1 "trip-3" (body2 in_progress)
           (day completed) "bus-1"); try reflexivity.
  split; reflexivity.
Defined.

(** X10.  A driver cannot insert a trip as in_progress, even with a
    well-formed body for the driver's own trip, a fresh id and a free key:
    when the route and the bus are visible, the feed item the trigger writes
    is refused by the policy of feed_items, and the INSERT of the trip is
    rolled back with it. *)
Theorem driver_trip_start_is_rolled_back s new_id body d bus_id r b :
  role s = driver →
  TripInsert.school_id body = user_school_id s →
  TripInsert.driver_id body = uid s →
  TripInsert.bus_id body = JString bus_id →
  TripInsert.status body = in_progress →
  trip_id_taken d new_id = false →
  trip_key_taken d (TripInsert.route_id body) (TripInsert.trip_date body)
    (TripInsert.trip_type body) = false →
  route_and_bus_seen s d (TripInsert.route_id body) bus_id r b →
  insert_bus_trips s new_id body d = Err insufficient_privilege.
Proof.
  intros Hrole Hschool Hdrv Hb Hst Hid Hkey Hseen.
  rewrite (insert_bus_trips_to_trigger s new_id body d bus_id r b);
    try done.
  2:{ unfold bus_trips_driver_on, same_school. rewrite Hschool, Hdrv.
      rewrite (bool_decide_eq_true_2 (user_school_id s = user_school_id s))
        by done.
      by rewrite (bool_decide_eq_true_2 (uid s = uid s)). }
  unfold create_bus_feed_item.
  cbn [trip_of_body BusTrip.status BusTrip.route_id BusTrip.bus_id andb
       buses bus_routes with_bus_trips].
  rewrite Hst. destruct Hseen as [-> ->].
  cbn [bool_decide decide_rel andb flat_map List.map app
       insert_feed_items_all].
  unfold insert_feed_items, staff_can_create_feed_items.
  rewrite Hrole. cbn. by rewrite andb_false_r.
Qed.

Lemma driver_trip_start_is_rolled_back_witness :
  insert_bus_trips driver1 "trip-3" (body2 in_progress) (day completed)
  = Err insufficient_privilege.
Proof.
  apply (driver_trip_start_is_rolled_back driver1 "trip-3" (body2 in_progress)
           (day completed) "bus-1"
           (Route.mk "route-1" "school-1" "R1" "North" None)
           (Bus.mk "bus-1" "school-1" "12")); try reflexivity.
  split; reflexivity.
Defined.

(** ** X11: what the parent's screen finds *)

Lemma filter_key_unique (ts : list BusTrip.row) t :
  NoDup (List.map trip_key ts) → In t ts →
  List.filter (fun x => bool_decide (trip_key x = trip_key t)) ts = [t].
Proof.
  induction ts as [|x ts IH]; [done|]. cbn [List.map List.filter].
  intros Hnd Hin. apply NoDup_cons in Hnd as [Hx Hnd].
  assert (Hnone : ∀ l : list BusTrip.row,
            ¬ In (trip_key t) (List.map trip_key l) →
            List.filter (fun y => bool_decide (trip_key y = trip_key t)) l
            = []).
  { induction l as [|y l IHl]; [done|]. cbn [List.map List.filter].
    intros Hn. rewrite bool_decide_eq_false_2 by (intros E; apply Hn; by left).
    apply IHl. intros H. apply Hn. by right. }
  destruct Hin as [-> | Hin].
  - rewrite bool_decide_eq_true_2 by done. f_equal. apply Hnone.
    intros H. apply Hx. by apply list_elem_of_In.
  - rewrite bool_decide_eq_false_2.
    + by apply IH.
    + intros E. apply Hx. rewrite E. apply list_elem_of_In.
      by apply in_map.
Qed.

(** X11.  On a table that satisfies UNIQUE(route_id, trip_date, trip_type),
    the trip query of the parent's screen finds the trip of the key exactly
    while it is scheduled or in_progress; once that trip is completed or
    cancelled the query finds nothing (the screen shows 'No Active Trip'). *)
Theorem parent_sees_the_open_trip d t :
  trip_keys_unique d →
  In t (bus_trips d) →
  parent_trip_query (BusTrip.route_id t) (BusTrip.trip_date t)
    (BusTrip.trip_type t) d
  = (if bool_decide (BusTrip.status t = scheduled)
        || bool_decide (BusTrip.status t = in_progress)
     then Some t else None).
Proof.
  intros Hnd Hin. unfold parent_trip_query.
  assert (E : ∀ x : BusTrip.row,
            bool_decide (BusTrip.route_id x = BusTrip.route_id t)
            && bool_decide (BusTrip.trip_date x = BusTrip.trip_date t)
            && bool_decide (BusTrip.trip_type x = BusTrip.trip_type t)
            = bool_decide (trip_key x = trip_key t)).
  { intros x. apply eq_true_iff_eq.
    rewrite !andb_true_iff, !bool_decide_eq_true. unfold trip_key.
    split; [intros [[-> ->] ->]; done|intros [= -> -> ->]; done]. }
  rewrite (filter_ext _
             (fun x => bool_decide (trip_key x = trip_key t)
                       && (bool_decide (BusTrip.status x = scheduled)
                           || bool_decide (BusTrip.status x = in_progress))))
    by (intros x; by rewrite E).
  rewrite <- (filter_filter_andb
                (fun x => bool_decide (BusTrip.status x = scheduled)
                          || bool_decide (BusTrip.status x = in_progress))
                (fun x => bool_decide (trip_key x = trip_key t))).
  rewrite (filter_key_unique _ t Hnd Hin). cbn [List.filter].
  by destruct (_ || _).
Qed.

Lemma parent_sees_the_open_trip_witness :
  parent_trip_query "route-1" "2024-05-01" morning (day in_progress)
  = Some (trip1 in_progress)
  ∧ parent_trip_query "route-1" "2024-05-01" morning (day completed) = None.
Proof.
  split.
  - apply (parent_sees_the_open_trip (day in_progress) (trip1 in_progress)).
    + unfold trip_keys_unique. cbn. apply NoDup_singleton.
    + by left.
  - apply (parent_sees_the_open_trip (day completed) (trip1 completed)).
    + unfold trip_keys_unique. cbn. apply NoDup_singleton.
    + by left.
Defined.

(** ** X12: getTimeAgo *)

(** X12.  getTimeAgo of a timestamp that is less than a minute old, or lies in
    the future of the device clock, is 'Just now'; from one minute to under
    an hour it is the whole minutes and ' min ago'; from an hour on it is the
    whole hours and the remaining minutes, which are below 60 and add up with
    the hours to the whole minutes. *)
Theorem getTimeAgo_cases now_ms timestamp_ms :
  (now_ms - timestamp_ms < 60000 → getTimeAgo now_ms timestamp_ms = "Just now")
  ∧ (60000 <= now_ms - timestamp_ms < 3600000 →
     getTimeAgo now_ms timestamp_ms
     = pretty ((now_ms - timestamp_ms) / 60000) +:+ " min ago"
     ∧ 1 <= (now_ms - timestamp_ms) / 60000 < 60)
  ∧ (3600000 <= now_ms - timestamp_ms →
     ∃ h m,
       getTimeAgo now_ms timestamp_ms
       = pretty h +:+ "h " +:+ pretty m +:+ "m ago"
       ∧ 1 <= h ∧ 0 <= m < 60
       ∧ 60 * h + m = (now_ms - timestamp_ms) / 60000
       ∧ h = (now_ms - timestamp_ms) / 3600000).
Proof.
  unfold getTimeAgo. cbv zeta. set (diff := now_ms - timestamp_ms).
  split; [|split].
  - intros H. assert (diff / 60000 < 1) by (apply Z.div_lt_upper_bound; lia).
    destruct (Z.ltb_spec (diff / 60000) 1); [done|lia].
  - intros [H1 H2].
    assert (1 <= diff / 60000) by (apply Z.div_le_lower_bound; lia).
    assert (diff / 60000 < 60) by (apply Z.div_lt_upper_bound; lia).
    destruct (Z.ltb_spec (diff / 60000) 1); [lia|].
    destruct (Z.ltb_spec (diff / 60000) 60); [done|lia].
  - intros H.
    assert (60 <= diff / 60000) by (apply Z.div_le_lower_bound; lia).
    destruct (Z.ltb_spec (diff / 60000) 1); [lia|].
    destruct (Z.ltb_spec (diff / 60000) 60); [lia|].
    exists (diff / 60000 / 60), (Z.rem (diff / 60000) 60).
    split; [done|]. rewrite Z.rem_mod_nonneg by lia.
    pose proof (Z.mod_pos_bound (diff / 60000) 60 ltac:(lia)).
    pose proof (Z.div_mod (diff / 60000) 60 ltac:(lia)).
    split; [apply Z.div_le_lower_bound; lia|].
    split; [lia|]. split; [lia|].
    rewrite Z.div_div by lia. reflexivity.
Qed.

(** ** X13: the counters of the admin's bus page *)

Lemma insert_by_status_desc_perm x l :
  Permutation (insert_by_status_desc x l) (x :: l).
Proof.
  induction l as [|y l IH]; [done|]. cbn [insert_by_status_desc].
  destruct (_ <=? _); [done|]. rewrite IH. apply perm_swap.
Qed.

Lemma insert_by_status_desc_sorted x l :
  Sorted
    (fun a b => status_rank (BusTrip.status b) <= status_rank (BusTrip.status a))
    l →
  Sorted
    (fun a b => status_rank (BusTrip.status b) <= status_rank (BusTrip.status a))
    (insert_by_status_desc x l).
Proof.
  induction 1 as [|y l Hs IH Hhd]; cbn [insert_by_status_desc].
  - by repeat constructor.
  - destruct (status_rank (BusTrip.status y) <=? status_rank (BusTrip.status x))
      eqn:E.
    + apply Z.leb_le in E. by repeat constructor.
    + apply Z.leb_gt in E. constructor; [exact IH|].
      destruct Hhd as [|z l Hyz]; cbn [insert_by_status_desc].
      * constructor. lia.
      * destruct (_ <=? _); constructor; [lia|done].
Qed.

(** The list sorted by insertion is a result of the query. *)
Lemma admin_activeTrips_is_result s today d :
  is_activeTrips s today d (admin_activeTrips s today d).
Proof.
  unfold is_activeTrips, admin_activeTrips.
  generalize (activeTrips_rows s today d) as l. intros l. split.
  - induction l as [|x l IH]; [done|]. cbn [fold_right].
    rewrite insert_by_status_desc_perm. by constructor.
  - apply Sorted_StronglySorted; [intros a b c; lia|].
    induction l as [|x l IH]; [constructor|]. cbn [fold_right].
    by apply insert_by_status_desc_sorted.
Qed.

Lemma filter_perm {A} (f : A → bool) l l' :
  Permutation l l' → Permutation (List.filter f l) (List.filter f l').
Proof.
  induction 1 as [|x l l' _ IH|x y l|l l' l'' _ IH1 _ IH2]; cbn [List.filter].
  - done.
  - destruct (f x); [by constructor|done].
  - destruct (f x), (f y); try done. apply perm_swap.
  - by etransitivity.
Qed.

Lemma sum_perm (l l' : list Z) :
  Permutation l l' → fold_right Z.add 0 l = fold_right Z.add 0 l'.
Proof.
  induction 1 as [|x l l' _ IH|x y l|l l' l'' _ IH1 _ IH2]; cbn [fold_right];
    lia.
Qed.

Lemma filter_all_true {A} (f : A → bool) l :
  Forall (fun x => f x = true) l → List.filter f l = l.
Proof.
  induction 1 as [|x l Hx _ IH]; [done|]. cbn [List.filter].
  by rewrite Hx, IH.
Qed.

Lemma filter_all_false {A} (f : A → bool) l :
  Forall (fun x => f x = false) l → List.filter f l = [].
Proof.
  induction 1 as [|x l Hx _ IH]; [done|]. cbn [List.filter]. by rewrite Hx.
Qed.

Lemma fold_left_sum (l : list BusTrip.row) acc :
  fold_left (fun sum t => sum + BusTrip.students_on_board t) l acc
  = acc + fold_right Z.add 0 (List.map BusTrip.students_on_board l).
Proof.
  revert acc. induction l as [|t l IH]; intros acc; cbn; [lia|].
  rewrite IH. lia.
Qed.

(** A list of scheduled and in_progress trips with the status descending is
    its scheduled trips followed by its trips in progress. *)
Lemma sorted_by_status_split l :
  Forall
    (fun t => BusTrip.status t = scheduled ∨ BusTrip.status t = in_progress) l →
  StronglySorted
    (fun a b => status_rank (BusTrip.status b) <= status_rank (BusTrip.status a))
    l →
  l = scheduledTrips l ++ inProgressTrips l.
Proof.
  unfold scheduledTrips, inProgressTrips.
  intros Hst Hs. induction Hs as [|x l _ IH Hx]; [done|].
  inversion Hst as [|? ? Hxs Hl]; subst. cbn [List.filter].
  destruct Hxs as [E|E]; rewrite E; decide_consts; cbn [app].
  - f_equal. by apply IH.
  - assert (Hall : Forall (fun t => BusTrip.status t = in_progress) l).
    { rewrite List.Forall_forall in Hx, Hl |- *. intros t Hin.
      specialize (Hx t Hin). destruct (Hl t Hin) as [Ht|Ht]; [|done].
      rewrite E, Ht in Hx. cbn in Hx. lia. }
    rewrite filter_all_false, filter_all_true; [done| |].
    + eapply Forall_impl; [exact Hall|]. cbn beta. by intros t ->.
    + eapply Forall_impl; [exact Hall|]. cbn beta. by intros t ->.
Qed.

Lemma activeTrips_of_status s today d st :
  st = scheduled ∨ st = in_progress →
  List.filter (fun t => bool_decide (BusTrip.status t = st))
    (activeTrips_rows s today d)
  = trips_of_day s today st d.
Proof.
  intros Hst. unfold activeTrips_rows, trips_of_day.
  rewrite filter_filter_andb. apply filter_ext. intros t.
  destruct (bool_decide (BusTrip.status t = st)) eqn:E;
    [|by rewrite !andb_false_r].
  apply bool_decide_eq_true in E. rewrite E.
  destruct Hst as [-> | ->]; decide_consts; cbn [orb];
    by rewrite !andb_true_r.
Qed.

(** X13.  The admin's bus page lists the trips of the day that the admin
    sees (those of the admin's school) and that are scheduled or in progress,
    the scheduled ones first; the order within a status is left to the
    database.  Whatever that order, 'Buses Active' and 'Scheduled' count the
    two groups and add up to the length of the list, and 'Students On Buses'
    is the sum of students_on_board over the trips in progress of the school
    only. *)
Theorem admin_page_counters s today d activeTrips :
  is_activeTrips s today d activeTrips →
  activeTrips = scheduledTrips activeTrips ++ inProgressTrips activeTrips
  ∧ Permutation (scheduledTrips activeTrips) (trips_of_day s today scheduled d)
  ∧ Permutation (inProgressTrips activeTrips)
      (trips_of_day s today in_progress d)
  ∧ (length (inProgressTrips activeTrips)
     + length (scheduledTrips activeTrips)
     = length activeTrips)%nat
  ∧ length (inProgressTrips activeTrips)
    = length (trips_of_day s today in_progress d)
  ∧ length (scheduledTrips activeTrips)
    = length (trips_of_day s today scheduled d)
  ∧ totalStudentsOnBuses activeTrips
    = fold_right Z.add 0
        (List.map BusTrip.students_on_board
           (trips_of_day s today in_progress d))
  ∧ Forall (fun t => BusTrip.school_id t = user_school_id s) activeTrips.
Proof.
  intros [Hperm Hsorted].
  assert (Hrows : Forall
            (fun t => (BusTrip.status t = scheduled
                       ∨ BusTrip.status t = in_progress)
                      ∧ BusTrip.school_id t = user_school_id s)
            activeTrips).
  { apply List.Forall_forall. intros t Hin.
    apply (Permutation_in _ Hperm) in Hin. unfold activeTrips_rows in Hin.
    apply filter_In in Hin as [_ H]. apply andb_prop in H as [H Hst].
    apply andb_prop in H as [Hsel _].
    rewrite bus_trips_select_school in Hsel. unfold same_school in Hsel.
    apply bool_decide_eq_true in Hsel. split; [|done].
    apply orb_prop in Hst as [Hst|Hst]; apply bool_decide_eq_true in Hst;
      auto. }
  assert (Hsplit : activeTrips
                   = scheduledTrips activeTrips ++ inProgressTrips activeTrips).
  { apply sorted_by_status_split; [|done].
    eapply Forall_impl; [exact Hrows|]. cbn beta. by intros t [H _]. }
  assert (HS : Permutation (scheduledTrips activeTrips)
                 (trips_of_day s today scheduled d)).
  { rewrite <- activeTrips_of_status by auto. by apply filter_perm. }
  assert (HI : Permutation (inProgressTrips activeTrips)
                 (trips_of_day s today in_progress d)).
  { rewrite <- activeTrips_of_status by auto. by apply filter_perm. }
  split; [exact Hsplit|]. split; [exact HS|]. split; [exact HI|].
  split; [rewrite Hsplit at 3; rewrite length_app; lia|].
  split; [by apply Permutation_length|].
  split; [by apply Permutation_length|]. split.
  - unfold totalStudentsOnBuses. rewrite fold_left_sum.
    rewrite (sum_perm _ _ (Permutation_map BusTrip.students_on_board HI)).
    lia.
  - eapply Forall_impl; [exact Hrows|]. cbn beta. by intros t [_ H].
Qed.

Lemma admin_page_counters_witness :
  let activeTrips := admin_activeTrips admin1 "2024-05-01" two_schools in
  List.map BusTrip.id activeTrips = ["trip-3"; "trip-1"]
  ∧ activeTrips = scheduledTrips activeTrips ++ inProgressTrips activeTrips
  ∧ Permutation (scheduledTrips activeTrips)
      (trips_of_day admin1 "2024-05-01" scheduled two_schools)
  ∧ Permutation (inProgressTrips activeTrips)
      (trips_of_day admin1 "2024-05-01" in_progress two_schools)
  ∧ (length (inProgressTrips activeTrips)
     + length (scheduledTrips activeTrips)
     = length activeTrips)%nat
  ∧ length (inProgressTrips activeTrips)
    = length (trips_of_day admin1 "2024-05-01" in_progress two_schools)
  ∧ length (scheduledTrips activeTrips)
    = length (trips_of_day admin1 "2024-05-01" scheduled two_schools)
  ∧ totalStudentsOnBuses activeTrips
    = fold_right Z.add 0
        (List.map BusTrip.students_on_board
           (trips_of_day admin1 "2024-05-01" in_progress two_schools))
  ∧ Forall (fun t => BusTrip.school_id t = user_school_id admin1) activeTrips.
Proof.
  cbv zeta. split; [vm_compute; reflexivity|].
  apply (admin_page_counters admin1 "2024-05-01" two_schools
           (admin_activeTrips admin1 "2024-05-01" two_schools)).
  apply admin_activeTrips_is_result.
Defined.

(** The trip of the other school is not counted: one bus active and nobody on
    board for the admin of school-1. *)
Example admin_counts_the_own_school :
  let activeTrips := admin_activeTrips admin1 "2024-05-01" two_schools in
  length (inProgressTrips activeTrips) = 1%nat
  ∧ length (scheduledTrips activeTrips) = 1%nat
  ∧ totalStudentsOnBuses activeTrips = 0.
Proof. cbv zeta. repeat split; vm_compute; reflexivity. Qed.

(** ** X14, X15: End Trip *)

Lemma filter_after_end_trip s id now (p : BusTrip.row → bool) l :
  (∀ x, p (set_completed now x) = false) →
  (∀ x, In x (List.filter p l) → updatable s id x = true) →
  List.filter p
    (List.map (fun x => if updatable s id x then set_completed now x else x) l)
  = [].
Proof.
  intros Hp. induction l as [|x l IH]; [done|].
  cbn [List.map List.filter]. intros Hall.
  destruct (updatable s id x) eqn:Hu.
  - rewrite Hp. apply IH. intros y Hy. apply Hall.
    destruct (p x); [by right|done].
  - destruct (p x) eqn:Hpx.
    + rewrite (Hall x) in Hu; [done|by left].
    + apply IH. intros y Hy. by apply Hall.
Qed.

(** X14.  The active trip of the home screen is the one trip of the driver
    with today's date and status in_progress.  After the driver has ended it
    on the trip screen, the query of fetchData finds no active trip: a home
    screen that fetches again (on mount or on pull-to-refresh) holds none, and
    its startTrip no longer answers with the 'Active Trip' dialog.  End Trip
    itself returns to the home screen without a fetch: as long as the screen
    holds the trip it had loaded, startTrip still answers 'Active Trip' and
    leads to the ended trip. *)
Theorem end_trip_and_the_home_screen
  s today now d t route currentHour now' new_id :
  fetch_activeTrip s today d = Some t →
  bus_trips_driver s t = true →
  let d' := fst (handleEndTrip s (BusTrip.id t) now d) in
  (In t (bus_trips d) ∧ BusTrip.driver_id t = uid s
   ∧ BusTrip.trip_date t = today ∧ BusTrip.status t = in_progress)
  ∧ fetch_activeTrip s today d' = None
  ∧ (∀ x,
       snd (startTrip s (fetch_activeTrip s today d') route today currentHour
              now' new_id d')
       ≠ go_to_trip x)
  ∧ startTrip s (Some t) route today currentHour now' new_id d'
    = (d', go_to_trip (BusTrip.id t)).
Proof.
  intros Hf Hp d'.
  assert (Hnone : fetch_activeTrip s today d' = None).
  { unfold fetch_activeTrip in *. apply single_filter in Hf.
    unfold d'. rewrite handleEndTrip_eq. cbn [bus_trips with_bus_trips].
    rewrite filter_after_end_trip; [done| |].
    - intros x. cbn [set_completed BusTrip.status].
      rewrite (bool_decide_eq_false_2 (completed = in_progress)) by done.
      apply andb_false_r.
    - intros x Hx. rewrite Hf in Hx. destruct Hx as [<-|[]].
      unfold updatable. by rewrite Hp, bool_decide_eq_true_2. }
  split; [by apply fetch_activeTrip_holds|]. split; [exact Hnone|].
  split; [|reflexivity].
  intros x. rewrite Hnone. unfold startTrip.
  by destruct (insert_bus_trips _ _ _ _) as [[d2 t2]|e].
Qed.

Lemma end_trip_and_the_home_screen_witness :
  let d' := fst (handleEndTrip driver1 "trip-1" 9000 (day in_progress)) in
  fetch_activeTrip driver1 "2024-05-01" (day in_progress)
  = Some (trip1 in_progress)
  ∧ BusTrip.status <$> find_trip d' "trip-1" = Some completed
  ∧ fetch_activeTrip driver1 "2024-05-01" d' = None
  ∧ (∀ x,
       snd (startTrip driver1 (fetch_activeTrip driver1 "2024-05-01" d')
              route1 "2024-05-01" 8 9100 "trip-2" d')
       ≠ go_to_trip x)
  ∧ startTrip driver1 (Some (trip1 in_progress)) route1 "2024-05-01" 8 9100
      "trip-2" d'
    = (d', go_to_trip "trip-1").
Proof.
  cbv zeta. split; [reflexivity|]. split; [vm_compute; reflexivity|].
  apply (end_trip_and_the_home_screen driver1 "2024-05-01" 9000
           (day in_progress) (trip1 in_progress) route1 8 9100 "trip-2");
    reflexivity.
Defined.

(** X15.  End Trip has no guard on the status.  On a trip that is scheduled,
    cancelled or already completed it sets status completed and actual_end to
    the time of the call all the same: a cancelled trip becomes completed,
    and ending a completed trip again moves its actual_end. *)
Theorem end_trip_has_no_status_guard s id now d t :
  find_trip d id = Some t →
  bus_trips_driver s t = true →
  BusTrip.status t ≠ in_progress →
  handleEndTrip s id now d
  = (with_bus_trips
       (List.map (fun x => if updatable s id x then set_completed now x else x)
          (bus_trips d)) d, quiet)
  ∧ ∃ t',
      find_trip (fst (handleEndTrip s id now d)) id = Some t'
      ∧ BusTrip.status t' = completed
      ∧ BusTrip.actual_end t' = Some now
      ∧ same_trip t t'.
Proof.
  intros Hf Hp _. split.
  - rewrite (surjective_pairing (handleEndTrip s id now d)).
    by rewrite handleEndTrip_eq.
  - rewrite handleEndTrip_eq. eexists. split.
    + by apply (find_trip_map s id (set_completed now) d).
    + by repeat split.
Qed.

Lemma end_trip_has_no_status_guard_witness :
  BusTrip.status (trip1 cancelled) ≠ in_progress
  ∧ ∃ t',
      find_trip
        (fst (handleEndTrip driver1 "trip-1" 9500
                (fst (handleEndTrip driver1 "trip-1" 9000 (day cancelled)))))
        "trip-1" = Some t'
      ∧ BusTrip.status t' = completed
      ∧ BusTrip.actual_end t' = Some 9500
      ∧ same_trip (set_completed 9000 (trip1 cancelled)) t'.
Proof.
  split; [discriminate|].
  apply (end_trip_has_no_status_guard driver1 "trip-1" 9500
           (fst (handleEndTrip driver1 "trip-1" 9000 (day cancelled)))
           (set_completed 9000 (trip1 cancelled))).
  - reflexivity.
  - reflexivity.
  - discriminate.
Defined.

(** ** X16: the current stop after an arrival *)





(** The case of stops numbered from 1: after the arrival at the first stop
    the card shows the second stop; after the arrival at the third and last
    stop there is no current stop. *)
Example card_moves_to_the_next_stop :
  BusStop.id <$> stops_at (stops (loaded day_arrived))
                   (currentStopIndex (loaded day_arrived)) = Some "stop-2"
  ∧ stops_at
      (stops
         (loaded
            (fst (press_stop_button driver1 "trip-1"
                    (select_stop 2 (loaded (day in_progress))) 2000
                    (day in_progress)))))
      (currentStopIndex
         (loaded
            (fst (press_stop_button driver1 "trip-1"
                    (select_stop 2 (loaded (day in_progress))) 2000
                    (day in_progress))))) = None.
Proof. split; vm_compute; reflexivity. Qed.

(** ** X17: the button of a stop *)

(** X17.  On a loaded screen the button of a stop follows the stop's event
    log of this trip: 'Arrive at Stop' while the log holds no arrived event
    (an empty log, and also a log of skipped events only), 'Depart from Stop'
    while it holds an arrived and no departed event, and the 'Completed'
    badge once it holds both.  Events of other trips and of other stops do
    not count. *)
Theorem stop_button_follows_the_log d id route_id st :
  In st (stopsWithEvents d id route_id) →
  stop_button_of st
  = (if negb (includes (stop_log d id (BusStop.id st)) arrived)
     then arrive_button
     else if negb (includes (stop_log d id (BusStop.id st)) departed)
          then depart_button
          else completed_badge)
  ∧ (Forall (fun x => x = skipped) (stop_log d id (BusStop.id st)) →
     stop_button_of st = arrive_button).
Proof.
  intros Hin. apply stopsWithEvents_flags in Hin as [Ha Hd].
  unfold stop_button_of. rewrite Ha, Hd. split; [done|].
  intros Hall.
  assert (includes (stop_log d id (BusStop.id st)) arrived = false) as ->;
    [|done].
  unfold includes. induction Hall as [|x l -> _ IH]; [done|].
  cbn [existsb]. by rewrite IH.
Qed.

Lemma stop_button_follows_the_log_witness :
  stop_button_of (BusStop.mk "stop-1" 1 None true false)
  = (if negb (includes (stop_log day_arrived "trip-1" "stop-1") arrived)
     then arrive_button
     else if negb (includes (stop_log day_arrived "trip-1" "stop-1") departed)
          then depart_button
          else completed_badge)
  ∧ (Forall (fun x => x = skipped) (stop_log day_arrived "trip-1" "stop-1") →
     stop_button_of (BusStop.mk "stop-1" 1 None true false) = arrive_button).
Proof.
  apply (stop_button_follows_the_log day_arrived "trip-1" "route-1"
           (BusStop.mk "stop-1" 1 None true false)).
  vm_compute. auto.
Defined.

(** ** X18: the scan of a tap *)

Lemma handleScanStudent_scans s id scr student k db_now d :
  student_bus_scans (fst (handleScanStudent s id scr student k db_now d))
  = student_bus_scans d
  ∨ student_bus_scans (fst (handleScanStudent s id scr student k db_now d))
    = student_bus_scans d ++ [scan_sent id scr student k db_now].
Proof.
  unfold handleScanStudent. cbn [fst].
  fold (scan_sent id scr student k db_now).
  destruct (insert_student_bus_scans_cases s
              (scan_sent id scr student k db_now) d) as [[e ->] | ->];
    [by left|].
  unfold update_trip_student_count.
  match goal with
  | |- context [update_bus_trips s ?i ?f ?d1] =>
      destruct (attempt_update_shape s i f d1) as (rows & Hrows & _);
      [|destruct (update_bus_trips s i f d1) as [d'|err]]
  end.
  - intros t t' H. guarded H. by apply same_status_quiet.
  - cbn [attempt] in *. subst d'. by right.
  - by left.
Qed.

(** X18.  A tap on a student row stores at most one scan, and that scan is
    for the tapped student on this trip, of type exit if the student is shown
    as boarded and board otherwise, and attributed to the stop of the current
    stop card, which is the student's own assigned stop. *)
Theorem tap_scans_the_student_at_their_stop s id scr student db_now d :
  In student (studentsAtCurrentStop scr) →
  student_bus_scans (fst (press_student s id scr student db_now d))
  = student_bus_scans d
  ∨ ∃ sc,
      student_bus_scans (fst (press_student s id scr student db_now d))
      = student_bus_scans d ++ [sc]
      ∧ Scan.trip_id sc = id
      ∧ Scan.student_id sc = Student.id student
      ∧ Scan.scan_type sc = (if Student.boarded student then exit else board)
      ∧ Scan.stop_id sc = Student.stop_id student
      ∧ is_Some (Scan.stop_id sc).
Proof.
  intros Hin. unfold press_student.
  destruct (handleScanStudent_scans s id scr student
              (if Student.boarded student then exit else board) db_now d)
    as [H|H]; [by left|right].
  eexists. split; [exact H|]. unfold scan_sent.
  cbn [Scan.trip_id Scan.student_id Scan.scan_type Scan.stop_id].
  unfold studentsAtCurrentStop in Hin.
  destruct (stops_at (stops scr) (currentStopIndex scr)) as [cur|];
    [|by destruct Hin].
  apply filter_In in Hin as [_ Hst]. apply bool_decide_eq_true in Hst.
  rewrite Hst. cbn. repeat split. eauto.
Qed.

Lemma tap_scans_the_student_at_their_stop_witness :
  student_bus_scans
    (fst (press_student admin1 "trip-1" (loaded_by admin1 (day in_progress))
            student1 2000 (day in_progress)))
  = student_bus_scans (day in_progress)
  ∨ ∃ sc,
      student_bus_scans
        (fst (press_student admin1 "trip-1"
                (loaded_by admin1 (day in_progress)) student1 2000
                (day in_progress)))
      = student_bus_scans (day in_progress) ++ [sc]
      ∧ Scan.trip_id sc = "trip-1"
      ∧ Scan.student_id sc = Student.id student1
      ∧ Scan.scan_type sc = (if Student.boarded student1 then exit else board)
      ∧ Scan.stop_id sc = Student.stop_id student1
      ∧ is_Some (Scan.stop_id sc).
Proof.
  apply (tap_scans_the_student_at_their_stop admin1 "trip-1"
           (loaded_by admin1 (day in_progress)) student1 2000
           (day in_progress)).
  vm_compute. auto.
Defined.

(** ** X19: a fix with an accuracy out of range *)

(** X19.  The accuracy of a fix is written to the history only.  A fix whose
    latitude, longitude, speed and heading fit their columns but whose
    accuracy does not fit DECIMAL(6,2) (10 km and more) still replaces the
    snapshot of the trip, while its history row is refused: the position is
    shown and no trace of the fix is kept. *)
Theorem vague_fix_moves_the_snapshot_only
  s id location now db_now d t :
  find_trip d id = Some t →
  bus_trips_driver s t = true →
  numeric_fits 10 (Location.latitude location)
  && numeric_fits 11 (Location.longitude location)
  && numeric_fits_opt 5 (Location.speed location)
  && numeric_fits_opt 5 (Location.heading location) = true →
  numeric_fits_opt 6 (Location.accuracy location) = false →
  bus_location_history (updateLocation s id location now db_now d)
  = bus_location_history d
  ∧ find_trip (updateLocation s id location now db_now d) id
    = Some (snapshot_of location now t).
Proof.
  intros Hf Hp Hfit Hacc. unfold updateLocation.
  rewrite (update_bus_trips_ok _ _ _ (snapshot_of location now)).
  2:{ intros x _ _. rewrite Hfit. reflexivity. }
  2:{ intros x _ _. by apply same_status_quiet. }
  cbn [attempt]. unfold insert_bus_location_history.
  cbn [LocationFix.latitude LocationFix.longitude LocationFix.speed
       LocationFix.heading LocationFix.accuracy].
  rewrite Hfit, Hacc. cbn [andb guard bind attempt]. split; [done|].
  by apply (find_trip_map s id (snapshot_of location now) d).
Qed.

Lemma vague_fix_moves_the_snapshot_only_witness :
  bus_location_history
    (updateLocation driver1 "trip-1" fix_vague 5100 5101 (day in_progress))
  = bus_location_history (day in_progress)
  ∧ find_trip
      (updateLocation driver1 "trip-1" fix_vague 5100 5101 (day in_progress))
      "trip-1" = Some (snapshot_of fix_vague 5100 (trip1 in_progress)).
Proof.
  apply (vague_fix_moves_the_snapshot_only driver1 "trip-1" fix_vague 5100
           5101 (day in_progress) (trip1 in_progress)); reflexivity.
Defined.

(** ** X20: the events of the stop button *)

(** X20.  A press of the stop button stores at most one stop event, for this
    trip and the stop of the current-stop card.  An arrival carries the
    scheduled time of the stop and the counts 0 and 0; a departure carries as
    students_boarded the number of students of that stop shown as boarded
    (at most the students on the screen) and always 0 as students_exited. *)
Theorem stop_button_event s id scr db_now d :
  bus_stop_events (fst (press_stop_button s id scr db_now d))
  = bus_stop_events d
  ∨ ∃ cur e,
      stops_at (stops scr) (currentStopIndex scr) = Some cur
      ∧ bus_stop_events (fst (press_stop_button s id scr db_now d))
        = bus_stop_events d ++ [e]
      ∧ StopEvent.trip_id e = id
      ∧ StopEvent.stop_id e = BusStop.id cur
      ∧ StopEvent.students_exited e = 0
      ∧ 0 <= StopEvent.students_boarded e <= Z.of_nat (length (students scr))
      ∧ ((StopEvent.event_type e = arrived
          ∧ BusStop.arrived cur = false
          ∧ StopEvent.students_boarded e = 0
          ∧ StopEvent.scheduled_time e = BusStop.scheduled_time cur)
         ∨ (StopEvent.event_type e = departed
            ∧ BusStop.arrived cur = true ∧ BusStop.departed cur = false
            ∧ StopEvent.students_boarded e
              = Z.of_nat
                  (length
                     (List.filter Student.boarded
                        (studentsAtCurrentStop scr))))).
Proof.
  unfold press_stop_button.
  destruct (stops_at (stops scr) (currentStopIndex scr)) as [cur|] eqn:Hcur;
    [|by left].
  unfold stop_button_of.
  destruct (BusStop.arrived cur) eqn:Ha; cbn [negb].
  - destruct (BusStop.departed cur) eqn:Hd; cbn [negb]; [by left|].
    match goal with
    | |- context [handleDepartFromStop s id cur ?b ?e db_now d] =>
        destruct (handleDepartFromStop_cases s id cur b e db_now d) as [H|H]
    end; [by left|right].
    eexists cur, _. split; [done|]. split; [exact H|].
    cbn [StopEvent.trip_id StopEvent.stop_id StopEvent.students_exited
         StopEvent.students_boarded StopEvent.event_type].
    repeat split; try lia; [|right; by repeat split].
    apply inj_le. unfold studentsAtCurrentStop. rewrite Hcur.
    etransitivity; [apply filter_length_le|apply filter_length_le].
  - destruct (handleArriveAtStop_cases s id cur db_now d) as [H|H];
      [by left|right].
    eexists cur, _. split; [done|]. split; [exact H|].
    cbn [StopEvent.trip_id StopEvent.stop_id StopEvent.students_exited
         StopEvent.students_boarded StopEvent.event_type
         StopEvent.scheduled_time].
    repeat split; try lia. left. by repeat split.
Qed.

(** ** X21: the On Board figure of the status bar *)

Lemma boarded_count_le {A} (f g : A → Student.t) l :
  (∀ a, Student.boarded (f a) = true → Student.boarded (g a) = true) →
  (length (List.filter Student.boarded (List.map f l))
   ≤ length (List.filter Student.boarded (List.map g l)))%nat.
Proof.
  intros H. induction l as [|a l IH]; [done|]. cbn [List.map List.filter].
  destruct (Student.boarded (f a)) eqn:E.
  - rewrite (H _ E). cbn [length]. lia.
  - destruct (Student.boarded (g a)); cbn [length]; lia.
Qed.

(** X21.  The 'On Board' figure of the driver's status bar never drops.  Over
    any sequence of actions on the trip screen, a screen loaded afterwards
    lists the same students and shows a figure at least as high as a screen
    loaded before: the figure counts students with some board scan, so an
    exit scan does not lower it, while the students_on_board column of the
    trip does go down. *)
Theorem on_board_figure_never_drops s id d d' scr0 scr0' scr scr' :
  rtc (driver_step s id) d d' →
  fetchTripData s id d scr0 = (scr, quiet) →
  fetchTripData s id d' scr0' = (scr', quiet) →
  (studentsOnBoard scr ≤ studentsOnBoard scr')%nat
  ∧ List.map Student.id (students scr') = List.map Student.id (students scr)
  ∧ List.map Student.stop_id (students scr')
    = List.map Student.stop_id (students scr).
Proof.
  intros Hrun Hl Hl'. apply run_writes_to in Hrun.
  destruct (reload_students s id d d' scr0 scr scr0' Hrun Hl)
    as (t & scr2 & _ & Hst & Hre & Hst').
  rewrite Hl' in Hre. injection Hre as <-.
  destruct Hrun as [_ _ _ _ _ _ _ (ss & Hss & _) _ _ _ _].
  unfold studentsOnBoard. rewrite Hst, Hst', !map_map.
  split; [|done].
  apply boarded_count_le. intros a. unfold student_row.
  cbn [Student.boarded]. by apply has_board_scan_grows with ss.
Qed.

Lemma on_board_figure_never_drops_witness :
  Nat.le (studentsOnBoard (loaded_by admin1 (day in_progress)))
    (studentsOnBoard
       (loaded_by admin1
          (tap_student 0 2001 (tap_student 0 2000 (day in_progress)))))
  ∧ List.map Student.id
      (students
         (loaded_by admin1
            (tap_student 0 2001 (tap_student 0 2000 (day in_progress)))))
    = List.map Student.id (students (loaded_by admin1 (day in_progress)))
  ∧ List.map Student.stop_id
      (students
         (loaded_by admin1
            (tap_student 0 2001 (tap_student 0 2000 (day in_progress)))))
    = List.map Student.stop_id (students (loaded_by admin1 (day in_progress))).
Proof.
  apply (on_board_figure_never_drops admin1 "trip-1" (day in_progress)
           (tap_student 0 2001 (tap_student 0 2000 (day in_progress)))
           blank blank).
  - exact taps_run.
  - reflexivity.
  - reflexivity.
Defined.

(** After a board and an exit of the one student of the route, the column of
    the trip is back at 0 and the status bar shows 1. *)
Example on_board_figure_and_column_differ :
  let d2 := tap_student 0 2001 (tap_student 0 2000 (day in_progress)) in
  studentsOnBoard (loaded_by admin1 d2) = 1%nat
  ∧ option_map BusTrip.students_on_board (find_trip d2 "trip-1") = Some 0.
Proof. cbv zeta. split; vm_compute; reflexivity. Qed.

(** ** X22: the stop list of the screen *)

Lemma insert_by_stop_number_sorted x l :
  Sorted (fun a b => Stop.stop_number a <= Stop.stop_number b) l →
  Sorted (fun a b => Stop.stop_number a <= Stop.stop_number b)
    (insert_by_stop_number x l).
Proof.
  induction 1 as [|y l Hs IH Hhd]; cbn [insert_by_stop_number].
  - by repeat constructor.
  - destruct (Stop.stop_number x <=? Stop.stop_number y) eqn:E.
    + apply Z.leb_le in E. by repeat constructor.
    + apply Z.leb_gt in E. constructor; [exact IH|].
      destruct Hhd as [|z l Hyz]; cbn [insert_by_stop_number].
      * constructor. lia.
      * destruct (Stop.stop_number x <=? Stop.stop_number z);
          constructor; [lia|done].
Qed.

Lemma order_by_stop_number_sorted l :
  StronglySorted (fun a b => Stop.stop_number a <= Stop.stop_number b)
    (order_by_stop_number l).
Proof.
  apply Sorted_StronglySorted; [intros a b c; lia|].
  induction l as [|x l IH]; [constructor|].
  unfold order_by_stop_number in *. cbn [fold_right].
  by apply insert_by_stop_number_sorted.
Qed.

Lemma StronglySorted_map_stops (f : Stop.row → BusStop.t) l :
  (∀ st, BusStop.stop_number (f st) = Stop.stop_number st) →
  StronglySorted (fun a b => Stop.stop_number a <= Stop.stop_number b) l →
  StronglySorted (fun a b => BusStop.stop_number a <= BusStop.stop_number b)
    (List.map f l).
Proof.
  intros Hf. induction 1 as [|x l _ IH Hx]; cbn [List.map]; constructor;
    [exact IH|].
  apply List.Forall_forall. intros y Hy.
  apply in_map_iff in Hy as (z & <- & Hz).
  rewrite !Hf. rewrite List.Forall_forall in Hx. by apply Hx.
Qed.

(** X22.  The stop list of the trip screen holds the active stops of the
    route, each once, in ascending stop_number; inactive stops and the stops
    of other routes are not on it.  The list does not depend on the events of
    the trip: events only set the arrived and departed flags. *)
Theorem screen_stops_are_the_route_in_order d id route_id :
  StronglySorted (fun a b => BusStop.stop_number a <= BusStop.stop_number b)
    (stopsWithEvents d id route_id)
  ∧ Permutation
      (List.map (fun st => (BusStop.id st, BusStop.stop_number st))
         (stopsWithEvents d id route_id))
      (List.map (fun st => (Stop.id st, Stop.stop_number st))
         (List.filter
            (fun st => bool_decide (Stop.route_id st = route_id)
                       && Stop.active st)
            (bus_stops d)))
  ∧ ∀ d2 id2,
      bus_stops d2 = bus_stops d →
      List.map BusStop.id (stopsWithEvents d2 id2 route_id)
      = List.map BusStop.id (stopsWithEvents d id route_id).
Proof.
  unfold stopsWithEvents. cbv zeta. split; [|split].
  - apply StronglySorted_map_stops; [done|apply order_by_stop_number_sorted].
  - rewrite map_map. cbn [BusStop.id BusStop.stop_number].
    apply Permutation_map, order_by_stop_number_perm.
  - intros d2 id2 ->. rewrite !map_map. reflexivity.
Qed.

(** ** X23: the student list of a driver *)



